(** * urbansim_defaults.utils: a shallow embedding of the orchestration helpers

    The Python module [urbansim_defaults/utils.py] drives one simulated year of
    an UrbanSim model on top of pandas frames and the orca table registry.
    This development embeds the parts of it that carry bookkeeping
    obligations: the NA check of joined frames, redevelopment removal, the
    developer driver, the relocation and transition controllers and the
    location choice driver.

    Conventions of the embedding.
    - A pandas frame is a list of labelled rows together with its column
      names; a row maps column names to cells, and a column that a row does
      not mention reads as NaN there (what [pd.concat] leaves behind).
    - Numeric cells are integers, so prices and price shifters are integers
      too.  NaN and the two infinities are cells of their own because
      [check_nas] looks for them.  The dtype of a column is not read off
      its cells: pandas keeps it beside them, and here it is an interface,
      [column_dtype], that orca's agreement check on dtypes asks.
    - A Python [float] that the code computes with is an IEEE 754 binary64
      number, and its arithmetic is the rounded one.
    - [orca._TABLES] is a finite map from table names to frames.  A wrapper is
      identified with the name it is registered under and with its [.local]
      frame; columns computed on demand by orca are outside the model, so
      [to_frame()] without a column list is the registered frame.
    - Python exceptions are results [Raise e]; a raising statement keeps the
      effects that happened before it.  [print] appends to [stdout], and
      [str.format] is checked the way Python checks it.
    - The statistical collaborators (the sampler, the predictors, the supply
      and demand balancer, the transition model, the developer) and orca's
      joins are interfaces (type classes).  They are functions of their
      arguments and of the generator state; [calls] keeps what each of them
      was given. *)

From Stdlib Require Import ZArith Ascii Floats.SpecFloat.
From stdpp Require Import gmap strings list fin_maps.

Open Scope Z_scope.

(** ** Cells, rows, frames *)

Inductive cell : Type :=
  | Num (z : Z)
  | Str (s : string)
  | NaN
  | PosInf
  | NegInf.

#[global] Instance cell_eq_dec : EqDecision cell.
Proof. solve_decision. Defined.

Record row : Type := Row { label : Z; vals : gmap string cell }.

#[global] Instance row_eq_dec : EqDecision row.
Proof. solve_decision. Defined.

(** The index name is what [reset_index] calls the column it creates; an
    unnamed index has the name ["index"]. *)
Record DataFrame : Type :=
  Frame { index_name : string; columns : list string; rows : list row }.

#[global] Instance DataFrame_eq_dec : EqDecision DataFrame.
Proof. solve_decision. Defined.

(** A pandas Series: labelled cells. *)
Abbreviation Series := (list (Z * cell)).

(** [r[c]]: the cell of row [r] under column [c]. *)
Definition at_col (c : string) (r : row) : cell := default NaN (vals r !! c).

(** [r[c] = v] on one row. *)
Definition set_col (c : string) (v : cell) (r : row) : row :=
  Row (label r) (<[c := v]> (vals r)).

(** [df.index] and [len(df)]. *)
Definition index (df : DataFrame) : list Z := label <$> rows df.
Definition len (df : DataFrame) : Z := Z.of_nat (length (rows df)).

(** ** Exceptions *)

Inductive exn : Type :=
  | KeyError (key : string)
  | AttributeError (name : string)
  | AssertionError (msg : string)
  | IndexError (msg : string)
  | ValueError (msg : string)
  | TypeError (msg : string)
  | ZeroDivisionError (msg : string)
  | OverflowError (msg : string)
  | NotImplementedError.

Inductive res (A : Type) : Type :=
  | Ok (a : A)
  | Raise (e : exn).
Arguments Ok {A} a.
Arguments Raise {A} e.

#[global] Instance res_ret : MRet res := λ A a, Ok a.
#[global] Instance res_bind : MBind res := λ A B f m,
  match m with
  | Ok a => f a
  | Raise e => Raise e
  end.
#[global] Instance res_fmap : FMap res := λ A B f m,
  match m with
  | Ok a => Ok (f a)
  | Raise e => Raise e
  end.

(** [[f(x) for x in xs]] where [f] may raise. *)
Fixpoint res_map {A B : Type} (f : A → res B) (xs : list A) : res (list B) :=
  match xs with
  | [] => Ok []
  | x :: xs' => y ← f x; ys ← res_map f xs'; Ok (y :: ys)
  end.

(** ** Floats *)

(** Python's [float]: binary64, 53 bits of precision. *)
Abbreviation float := spec_float.

Definition float_of_Z (n : Z) : float := binary_normalize 53 1024 n 0 false.
Definition float_mul : float → float → float := SFmul 53 1024.
Definition float_div : float → float → float := SFdiv 53 1024.
Definition float_sub : float → float → float := SFsub 53 1024.

(** The float that the literal of the decimal fraction [a / b] denotes,
    [b] a power of ten: the binary64 number nearest to it. *)
Definition decimal (a b : Z) : float := float_div (float_of_Z a) (float_of_Z b).

(** [int(x)]: truncation towards zero. *)
Definition int_of_float (x : float) : res Z :=
  match x with
  | S754_zero _ => Ok 0
  | S754_finite s m e =>
      let a := if bool_decide (0 ≤ e) then Z.pos m * 2 ^ e
               else Z.pos m / 2 ^ (- e) in
      Ok (if s then - a else a)
  | S754_nan => Raise (ValueError "cannot convert float NaN to integer")
  | S754_infinity _ =>
      Raise (OverflowError "cannot convert float infinity to integer")
  end.

(** ** The world: tables, output, generator state, collaborator calls *)

(** A value substituted in a printed line. *)
Inductive arg : Type :=
  | AInt (z : Z)
  | AStr (s : string)
  | AFloat (x : float)
  | ANone
  | APair (a b : arg).

Record line : Type := Line { text : string; args : list arg }.

Inductive call : Type :=
  | CallChoice (pool : list Z) (size : Z)
  | CallSupplyDemand (movers units : DataFrame)
  | CallPredict (movers units : DataFrame) (registry : gmap string DataFrame)
  | CallTransition (agents : DataFrame) (year : Z)
  | CallPick (target_units : Z).

Record world : Type := World {
  TABLES : gmap string DataFrame;
  stdout : list line;
  rng : N;
  calls : list call
}.

(** Statements: a world transformer that returns a value or raises. *)
Definition M (A : Type) : Type := world → res A * world.

#[global] Instance M_ret : MRet M := λ A a w, (Ok a, w).
#[global] Instance M_bind : MBind M := λ A B f m w,
  match m w with
  | (Ok a, w') => f a w'
  | (Raise e, w') => (Raise e, w')
  end.

Definition raise {A : Type} (e : exn) : M A := λ w, (Raise e, w).

Definition lift {A : Type} (r : res A) : M A := λ w, (r, w).

(** Read the registry without touching it. *)
Definition registry : M (gmap string DataFrame) := λ w, (Ok (TABLES w), w).

(** Note a collaborator call. *)
Definition note (c : call) : M unit :=
  λ w, (Ok tt, World (TABLES w) (stdout w) (rng w) (calls w ++ [c])).

(** Run a collaborator that consumes generator state. *)
Definition draw {A : Type} (f : N → res A * N) : M A :=
  λ w, let '(r, g) := f (rng w) in (r, World (TABLES w) (stdout w) g (calls w)).

Definition print (t : string) (xs : list arg) : M unit :=
  λ w, (Ok tt, World (TABLES w) (stdout w ++ [Line t xs]) (rng w) (calls w)).

(** Run a collaborator that prints. *)
Definition printed {A : Type} (x : res A * list line) : M A :=
  λ w, (x.1, World (TABLES w) (stdout w ++ x.2) (rng w) (calls w)).

(** *** [str.format] *)

(** The replacement fields of a template: the text between each opening
    brace and the next closing brace. *)
Fixpoint fields_of (s : string) (cur : option string) : list string :=
  match s with
  | EmptyString => []
  | String a s' =>
      match cur with
      | None =>
          if decide (a = "{"%char) then fields_of s' (Some EmptyString)
          else fields_of s' None
      | Some f =>
          if decide (a = "}"%char) then f :: fields_of s' None
          else fields_of s' (Some (f +:+ String a EmptyString))
      end
  end.

(** Formatting one value under one field. *)
Definition check_field (spec : string) (a : arg) : res unit :=
  if decide (spec = ":.") then
    Raise (ValueError "Format specifier missing precision")
  else if decide (spec = ":,") then
    match a with
    | AInt _ | AFloat _ => Ok tt
    | AStr _ => Raise (ValueError "Cannot specify ',' with 's'.")
    | _ => Raise (TypeError "unsupported format string")
    end
  else Ok tt.

(** Fields are numbered from the left; each takes the positional argument
    of its number. *)
Fixpoint check_fields (specs : list string) (i : nat) (xs : list arg) : res unit :=
  match specs with
  | [] => Ok tt
  | f :: fs =>
      match xs !! i with
      | None => Raise (IndexError "Replacement index out of range")
      | Some a => _ ← check_field f a; check_fields fs (S i) xs
      end
  end.

(** [print(t.format( *xs ))] *)
Definition print_format (t : string) (xs : list arg) : M unit :=
  _ ← lift (check_fields (fields_of t None) 0%nat xs);
  print t xs.

(** *** orca *)

(** [name in orca.orca._TABLES] *)
Definition is_registered (name : string) : M bool :=
  λ w, (Ok (bool_decide (is_Some (TABLES w !! name))), w).

(** [orca.get_table(name)]: orca raises [KeyError] for an unknown name. *)
Definition get_table (name : string) : M DataFrame :=
  λ w, match TABLES w !! name with
       | Some df => (Ok df, w)
       | None => (Raise (KeyError name), w)
       end.

(** [orca.add_table(name, df)]; also the write of an in-place update of the
    registered frame. *)
Definition add_table (name : string) (df : DataFrame) : M unit :=
  λ w, (Ok tt, World (<[name := df]> (TABLES w)) (stdout w) (rng w) (calls w)).

(** [for x in xs: body(x)] *)
Fixpoint for_each {A : Type} (xs : list A) (body : A → M unit) : M unit :=
  match xs with
  | [] => mret tt
  | x :: xs' => body x ≫= λ _, for_each xs' body
  end.

(** ** The pandas and numpy operations the code uses *)

(** [df.c]: the column as the list of its cells, in row order. *)
Definition column (df : DataFrame) (c : string) : res (list cell) :=
  if decide (c ∈ columns df) then Ok (at_col c <$> rows df)
  else Raise (AttributeError c).

(** [df[c]]: the column as a Series. *)
Definition getitem (df : DataFrame) (c : string) : res Series :=
  if decide (c ∈ columns df) then Ok ((λ r, (label r, at_col c r)) <$> rows df)
  else Raise (KeyError c).

(** [s.isin(values)]: pandas matches NaN with NaN here. *)
Definition isin (s values : list cell) : list bool :=
  (λ v, bool_decide (v ∈ values)) <$> s.

(** [xs[mask]] for a boolean mask aligned with [xs]. *)
Fixpoint select {A : Type} (xs : list A) (mask : list bool) : list A :=
  match xs, mask with
  | x :: xs', b :: mask' => if b then x :: select xs' mask' else select xs' mask'
  | _, _ => []
  end.

Definition mask_rows (df : DataFrame) (mask : list bool) : DataFrame :=
  Frame (index_name df) (columns df) (select (rows df) mask).

(** [df.c[mask] = v]: write [v] under column [c] in the rows the mask picks. *)
Fixpoint assign_where (c : string) (v : cell) (rs : list row) (mask : list bool)
  : list row :=
  match rs, mask with
  | r :: rs', b :: mask' =>
      (if b then set_col c v r else r) :: assign_where c v rs' mask'
  | _, _ => rs
  end.

(** [pd.concat([a, b])]: rows of [a] then rows of [b]; the columns of [b] that
    [a] lacks are added after those of [a]. *)
Definition concat2 (a b : DataFrame) : DataFrame :=
  Frame (if decide (index_name a = index_name b) then index_name a else "index")
        (columns a ++ filter (λ c, c ∉ columns a) (columns b))
        (rows a ++ rows b).

(** [len(df.query("c == v"))] *)
Definition count_eq (c : string) (v : cell) (df : DataFrame) : Z :=
  Z.of_nat (length (filter (λ r, at_col c r = v) (rows df))).

(** [s.sum()]: the numbers of [s] added up, NaN skipped. *)
Definition sum_cells (s : list cell) : Z :=
  foldr (λ c acc, match c with Num z => z + acc | _ => acc end) 0 s.

(** [df.loc[labels]]: for each label in turn the rows that carry it; a label
    that no row carries is a [KeyError]. *)
Definition loc (df : DataFrame) (labels : list Z) : res DataFrame :=
  rs ← res_map (λ l, match filter (λ r, label r = l) (rows df) with
                     | [] => Raise (KeyError "label not in index")
                     | found => Ok found
                     end) labels;
  Ok (Frame (index_name df) (columns df) (mjoin rs)).

(** [df.reset_index()]: the old labels become the first column, named after
    the index, and the rows are numbered from 0. *)
Fixpoint renumber (name : string) (i : Z) (rs : list row) : list row :=
  match rs with
  | [] => []
  | r :: rs' =>
      Row i (<[name := Num (label r)]> (vals r)) :: renumber name (i + 1) rs'
  end.

Definition reset_index (df : DataFrame) : res DataFrame :=
  if decide (index_name df ∈ columns df) then
    Raise (ValueError "cannot insert, already exists")
  else
    Ok (Frame "index" (index_name df :: columns df)
          (renumber (index_name df) 0 (rows df))).

(** [df.head(n)] *)
Definition head (df : DataFrame) (n : Z) : DataFrame :=
  Frame (index_name df) (columns df)
        (take (Z.to_nat (if bool_decide (0 ≤ n) then n else len df + n)) (rows df)).

(** [s[l]] for the first entry labelled [l]. *)
Fixpoint series_get (s : Series) (l : Z) : option cell :=
  match s with
  | [] => None
  | (l', v) :: s' => if decide (l' = l) then Some v else series_get s' l
  end.

(** [df.loc[s.index, c] = s]: the rows labelled in [s] take its value under
    [c]; a label of [s] that [df] lacks is a [KeyError]. *)
Definition loc_update (df : DataFrame) (c : string) (s : Series) : res DataFrame :=
  if bool_decide (Forall (λ p, p.1 ∈ index df) s) then
    Ok (Frame (index_name df) (columns df)
          ((λ r, match series_get s (label r) with
                 | Some v => set_col c v r
                 | None => r
                 end) <$> rows df))
  else Raise (KeyError "labels not in index").

(** [df[c] = s]: the column is created when missing; a row whose label [s]
    lacks reads NaN. *)
Definition set_column (df : DataFrame) (c : string) (s : Series) : DataFrame :=
  Frame (index_name df)
        (if decide (c ∈ columns df) then columns df else columns df ++ [c])
        ((λ r, set_col c (default NaN (series_get s (label r))) r) <$> rows df).

(** [df[c] = f(row)] for every row. *)
Definition set_column_with (df : DataFrame) (c : string) (f : row → cell) : DataFrame :=
  Frame (index_name df)
        (if decide (c ∈ columns df) then columns df else columns df ++ [c])
        ((λ r, set_col c (f r) r) <$> rows df).

(** [df[cols]]: the frame cut down to the listed columns. *)
Definition select_columns (df : DataFrame) (cols : list string) : res DataFrame :=
  if bool_decide (Forall (λ c, c ∈ columns df) cols) then
    Ok (Frame (index_name df) cols
          ((λ r, Row (label r) (filter (λ kv, kv.1 ∈ cols) (vals r))) <$> rows df))
  else Raise (KeyError "columns not in index").

(** *** Wrapper reads and writes *)

Definition wrapper_len (name : string) : M Z :=
  df ← get_table name; mret (len df).

Definition wrapper_index (name : string) : M (list Z) :=
  df ← get_table name; mret (index df).

(** [wrapper[c]] *)
Definition wrapper_getitem (name c : string) : M Series :=
  df ← get_table name; lift (getitem df c).

(** *** dtypes *)

Inductive dtype : Type := Int64 | Float64 | Object.

#[global] Instance dtype_eq_dec : EqDecision dtype.
Proof. solve_decision. Defined.

(** [df[c].dtype]: what pandas keeps as the dtype of a column. *)
Class Dtypes : Type := {
  column_dtype : DataFrame → string → dtype
}.

(** The dtype of the result of arithmetic on two columns. *)
Definition promote (a b : dtype) : dtype :=
  match a, b with
  | Object, _ | _, Object => Object
  | Float64, _ | _, Float64 => Float64
  | Int64, Int64 => Int64
  end.

(** [s.astype(d)] on one cell: an integer cell is a value of every dtype, a
    missing or infinite one is no integer, and a string is read as no
    number. *)
Definition astype_cell (d : dtype) (v : cell) : res cell :=
  match d, v with
  | Object, _ | _, Num _ => Ok v
  | Float64, (NaN | PosInf | NegInf) => Ok v
  | Int64, (NaN | PosInf | NegInf) =>
      Raise (ValueError "Cannot convert non-finite values (NA or inf) to integer")
  | _, Str _ => Raise (ValueError "could not convert string to a number")
  end.

Definition astype (d : dtype) (s : Series) : res Series :=
  res_map (λ p, v ← astype_cell d p.2; Ok (p.1, v)) s.

(** [wrapper.update_col_from_series(c, s, cast)], for a Series [s] of
    dtype [s_dtype]: orca compares the dtype of the Series with the dtype
    of the column and, when they differ, casts the Series or raises. *)
Definition update_col_from_series {dtypes : Dtypes} (name c : string)
    (s : Series) (s_dtype : dtype) (cast : bool) : M unit :=
  df ← get_table name;
  _ ← lift (getitem df c);
  let col_dtype := column_dtype df c in
  s ← (if decide (s_dtype ≠ col_dtype) then
         if cast then lift (astype col_dtype s)
         else raise (ValueError "Data type mismatch")
       else mret s);
  df' ← lift (loc_update df c s);
  add_table name df'.

(** [orca.add_column(name, c, s)] *)
Definition add_column (name c : string) (s : Series) : M unit :=
  df ← get_table name;
  add_table name (set_column df c s).

(** ** [check_nas] *)

(** [df.replace([np.inf, -np.inf], np.nan)] *)
Definition replace_inf (df : DataFrame) : DataFrame :=
  Frame (index_name df) (columns df)
    ((λ r, Row (label r)
               ((λ v, match v with PosInf | NegInf => NaN | _ => v end) <$> vals r))
       <$> rows df).

(** [df[col].count()]: the cells of the column that are not NaN. *)
Definition count (df : DataFrame) (col : string) : Z :=
  Z.of_nat (length (filter (λ r, at_col col r ≠ NaN) (rows df))).

(** The loop over the columns, with the flag it maintains. *)
Fixpoint check_columns (df : DataFrame) (df_cnt : Z) (cols : list string)
    (fail : bool) : M bool :=
  match cols with
  | [] => mret fail
  | col :: cols' =>
      let s_cnt := count df col in
      if bool_decide (df_cnt ≠ s_cnt) then
        _ ← print "Found %d nas or inf (out of %d) in column %s"
              [AInt (df_cnt - s_cnt); AInt df_cnt; AStr col];
        check_columns df df_cnt cols' true
      else check_columns df df_cnt cols' fail
  end.

Definition check_nas (df : DataFrame) : M unit :=
  let df_cnt := len df in
  let fail := false in
  let df := replace_inf df in
  fail ← check_columns df df_cnt (columns df) fail;
  if fail : bool then raise (AssertionError "NAs were found in dataframe, please fix")
  else mret tt.

(** ** Collaborators *)

Inductive model_class : Type :=
  | RegressionModel
  | SegmentedRegressionModel
  | MNLDiscreteChoiceModel
  | SegmentedMNLDiscreteChoiceModel.

(** orca beyond the registry: joins, column selection and injectables. *)
Class Orca : Type := {
  injectable : Type;
  get_injectable : string → res injectable;
  (** [orca.merge_tables(target, tables, columns)] *)
  merge_tables : gmap string DataFrame → string → list string → list string
                 → res DataFrame;
  (** [wrapper.to_frame(columns)] *)
  wrapper_to_frame : gmap string DataFrame → string → list string → res DataFrame
}.

(** urbansim's models and helpers. *)
Class Urbansim {orca : Orca} : Type := {
  model : Type;
  (** [misc.config(name)] *)
  config : string → string;
  (** the ["model_type"] entry of a YAML file, [None] when it has none *)
  yaml_model_type : string → res (option string);
  (** [cls.from_yaml(str_or_buffer=cfg)] *)
  from_yaml : model_class → string → res model;
  columns_used : model → res (list string);
  (** [misc.column_list(tables, columns)] *)
  column_list : gmap string DataFrame → list string → list string → list string;
  (** [cls.predict_from_cfg(movers, units, cfg, alternative_ratio=...)]:
      chooser label to the label of the chosen unit, NaN for none *)
  predict_from_cfg : model_class → DataFrame → DataFrame → string → float
                     → N → res Series * N;
  (** [supply_and_demand(lcm, movers, units, submarket_col, price_col,
      base_multiplier=None, multiplier_func=..., **kwargs)]: new unit prices
      and the ratio of each submarket *)
  supply_and_demand : model → DataFrame → DataFrame → string → string
                      → option injectable → gmap string Z
                      → res (Series * Series)
}.

(** [np.random.choice(pool, size=size, replace=False)] *)
Class Sampler : Type := {
  random_choice : list Z → Z → N → res (list Z) * N
}.

(** A value of the settings dictionary of the transition model. *)
Inductive setting : Type :=
  | SStr (s : string)
  | SList (l : list string).

(** [transition.TransitionModel(transition.TabularTotalsTransition(ct, col))
      .transition(hh, year, linked_tables=...)]: the new agents, the labels of
    the added ones and the new linked tables. *)
Class Transition : Type := {
  transition :
    DataFrame → setting → DataFrame → Z → list (string * (DataFrame * string))
    → N → res (DataFrame * list Z * list (string * DataFrame)) * N
}.

Inductive forms_arg : Type :=
  | OneForm (form : string)
  | FormList (forms : list string).

(** [developer.Developer]: the options that [run_developer] only hands on to
    [pick] are kept together in [pick_options]. *)
Class Developer : Type := {
  pick_options : Type;
  (** [dev.compute_units_to_build(num_agents, num_units, target_vacancy)]:
      the target, or the exception, and the lines it prints *)
  compute_units_to_build : Z → Z → float → res Z * list line;
  (** [dev.pick(forms, target_units, ...)]: the new buildings, or [None], and
      the feasibility table the developer is left with *)
  pick : DataFrame → forms_arg → Z → pick_options → N
         → res (option DataFrame * DataFrame) * N;
  (** [dev.merge(old, new, return_index=True)] *)
  merge : DataFrame → DataFrame → DataFrame * list Z
}.

(** ** [yaml_to_class] and [to_frame] *)

Section Frames.
Context {orca : Orca} {urbansim : Urbansim}.

Definition yaml_to_class (cfg : string) : res model_class :=
  model_type ← yaml_model_type cfg;
  match model_type with
  | Some t =>
      if decide (t = "regression") then Ok RegressionModel
      else if decide (t = "segmented_regression") then Ok SegmentedRegressionModel
      else if decide (t = "discretechoice") then Ok MNLDiscreteChoiceModel
      else if decide (t = "segmented_discretechoice")
           then Ok SegmentedMNLDiscreteChoiceModel
      else Raise (KeyError t)
  | None => Raise (KeyError "None")
  end.

(** [join_tbls] is a list of tables or one table. *)
Inductive join_arg : Type :=
  | JoinList (ts : list (option string))
  | JoinOne (t : option string).

(** Lines 193 to 202 of [to_frame]: the frame that is then checked. *)
Definition joined_frame (tbl : option string) (join_tbls : join_arg)
    (cfg : string) (additional_columns : list string) : M DataFrame :=
  let join_tbls := match join_tbls with JoinList ts => ts | JoinOne t => [t] end in
  let tables := tbl :: join_tbls in
  klass ← lift (yaml_to_class cfg);
  cfg ← lift (from_yaml klass cfg);
  let tables := omap id tables in
  reg ← registry;
  used ← lift (columns_used cfg);
  let columns := column_list reg tables used ++ additional_columns in
  match tables with
  | [] => raise (IndexError "list index out of range")
  | [t] => lift (wrapper_to_frame reg t columns)
  | t :: _ => lift (merge_tables reg t tables columns)
  end.

Definition to_frame (tbl : option string) (join_tbls : join_arg)
    (cfg : string) (additional_columns : list string) : M DataFrame :=
  df ← joined_frame tbl join_tbls cfg additional_columns;
  _ ← check_nas df;
  mret df.

End Frames.

(** ** Redevelopment removal *)

Definition unplace_one (drop_buildings : DataFrame) (tbl : string) : M unit :=
  agents ← get_table tbl;
  building_id ← lift (column agents "building_id");
  let displaced_agents := isin building_id (Num <$> index drop_buildings) in
  _ ← print_format "Unplaced {} before: {}"
        [AStr tbl; AInt (count_eq "building_id" (Num (-1)) agents)];
  let agents := Frame (index_name agents) (columns agents)
     (assign_where "building_id" (Num (-1)) (rows agents) displaced_agents) in
  _ ← add_table tbl agents;
  print_format "Unplaced {} after: {}"
        [AStr tbl; AInt (count_eq "building_id" (Num (-1)) agents)].

(** Lines 731 to 735: the removed rows go in front of the rows recorded so
    far. *)
Definition record_dropped (drop_buildings : DataFrame) : M unit :=
  known ← is_registered "dropped_buildings";
  if known : bool then
    prev_drops ← get_table "dropped_buildings";
    add_table "dropped_buildings" (concat2 drop_buildings prev_drops)
  else
    add_table "dropped_buildings" drop_buildings.

Definition _remove_developed_buildings
    (old_buildings new_buildings : DataFrame) (unplace_agents : list string)
  : M DataFrame :=
  old_parcel ← lift (column old_buildings "parcel_id");
  new_parcel ← lift (column new_buildings "parcel_id");
  let redev_buildings := isin old_parcel new_parcel in
  let l := len old_buildings in
  let drop_buildings := mask_rows old_buildings redev_buildings in
  _ ← record_dropped drop_buildings;
  let old_buildings := mask_rows old_buildings (negb <$> redev_buildings) in
  let l2 := len old_buildings in
  _ ← (if bool_decide (l - l2 > 0)
       then print_format "Dropped {} buildings because they were redeveloped"
                         [AInt (l - l2)]
       else mret tt);
  _ ← for_each unplace_agents (unplace_one drop_buildings);
  mret old_buildings.

(** ** The developer driver *)

(** [a or b] for an optional integer [a]: [None] and [0] are false. *)
Definition truthy (a : option Z) : option Z :=
  match a with
  | Some n => if decide (n = 0) then None else Some n
  | None => None
  end.

Section Development.
Context {developer : Developer}.

(** Lines 835 to 838. *)
Definition target_units_of (agents buildings supply_fname : string)
    (target_vacancy : float) (num_units_to_build : option Z) : M Z :=
  match truthy num_units_to_build with
  | Some n => mret n
  | None =>
      n_agents ← wrapper_len agents;
      supply ← wrapper_getitem buildings supply_fname;
      printed (compute_units_to_build n_agents (sum_cells supply.*2)
                 target_vacancy)
  end.

Definition run_developer (forms : forms_arg) (agents buildings : string)
    (supply_fname : string) (options : pick_options) (feasibility : string)
    (year : option Z) (target_vacancy : float)
    (form_to_btype_callback : option (row → cell))
    (add_more_columns_callback : option (DataFrame → DataFrame))
    (remove_developed_buildings : bool) (unplace_agents : list string)
    (num_units_to_build : option Z) : M (option DataFrame) :=
  feasibility_df ← get_table feasibility;
  target_units ← target_units_of agents buildings supply_fname target_vacancy
                   num_units_to_build;
  _ ← note (CallPick target_units);
  picked ← draw (pick feasibility_df forms target_units options);
  let '(new_buildings, dev_feasibility) := picked in
  _ ← add_table "feasibility" dev_feasibility;
  match new_buildings with
  | None => mret None
  | Some new_buildings =>
      if bool_decide (len new_buildings = 0) then mret (Some new_buildings) else
      let new_buildings :=
        match year with
        | Some y => set_column_with new_buildings "year_built" (λ _, Num y)
        | None => new_buildings
        end in
      let new_buildings :=
        match forms with
        | OneForm f => set_column_with new_buildings "form" (λ _, Str f)
        | FormList _ => new_buildings
        end in
      let new_buildings :=
        match form_to_btype_callback with
        | Some callback => set_column_with new_buildings "building_type_id" callback
        | None => new_buildings
        end in
      (* np.ceil leaves an integer cell as it is *)
      _ ← lift (column new_buildings "stories");
      let ret_buildings := new_buildings in
      let new_buildings :=
        match add_more_columns_callback with
        | Some callback => callback new_buildings
        | None => new_buildings
        end in
      new_supply ← lift (getitem new_buildings supply_fname);
      _ ← print_format "Adding {:,} buildings with {:,} {}"
            [AInt (len new_buildings); AInt (sum_cells new_supply.*2);
             AStr supply_fname];
      _ ← print_format "{:,} feasible buildings after running developer"
            [AInt (len dev_feasibility)];
      old_buildings ← get_table buildings;
      new_buildings ← lift (select_columns new_buildings (columns old_buildings));
      old_buildings ←
        (if remove_developed_buildings
         then _remove_developed_buildings old_buildings new_buildings unplace_agents
         else mret old_buildings);
      let '(all_buildings, new_index) := merge old_buildings new_buildings in
      if bool_decide (length new_index = length (rows ret_buildings)) then
        let ret_buildings :=
          Frame (index_name ret_buildings) (columns ret_buildings)
                (zip_with (λ l r, Row l (vals r)) new_index (rows ret_buildings)) in
        _ ← add_table "buildings" all_buildings;
        mret (Some ret_buildings)
      else raise (ValueError "Length mismatch")
  end.

Definition scheduled_development_events (buildings : string)
    (new_buildings : DataFrame) (remove_developed_buildings : bool)
    (unplace_agents : list string) : M DataFrame :=
  _ ← print_format "Adding {:,} buildings as scheduled development events"
        [AInt (len new_buildings)];
  old_buildings ← get_table buildings;
  new_buildings ← lift (select_columns new_buildings (columns old_buildings));
  units ← lift (column old_buildings "residential_units");
  _ ← print_format "Res units before: {:,}" [AInt (sum_cells units)];
  sqft ← lift (column old_buildings "non_residential_sqft");
  _ ← print_format "Non-res sqft before: {:,}" [AInt (sum_cells sqft)];
  old_buildings ←
    (if remove_developed_buildings
     then _remove_developed_buildings old_buildings new_buildings unplace_agents
     else mret old_buildings);
  let all_buildings := (merge old_buildings new_buildings).1 in
  units ← lift (column all_buildings "residential_units");
  _ ← print_format "Res units after: {:,}" [AInt (sum_cells units)];
  sqft ← lift (column all_buildings "non_residential_sqft");
  _ ← print_format "Non-res sqft after: {:,}" [AInt (sum_cells sqft)];
  _ ← add_table "buildings" all_buildings;
  mret new_buildings.

End Development.

(** ** Relocation and transition *)

(** [df[fieldname].value_counts().get(-1, 0)], printed. *)
Definition _print_number_unplaced (df fieldname : string) : M unit :=
  s ← wrapper_getitem df fieldname;
  print_format "Total currently unplaced: {:,}"
    [AInt (Z.of_nat (length (filter (λ p, p.2 = Num (-1)) s)))].

Section Relocation.
Context {sampler : Sampler} {dtypes : Dtypes}.

Definition np_random_choice (pool : list Z) (size : Z) : M (list Z) :=
  _ ← note (CallChoice pool size);
  draw (random_choice pool size).

Definition simple_relocation (choosers : string) (relocation_rate : float)
    (fieldname : string) (cast : bool) : M unit :=
  n ← wrapper_len choosers;
  _ ← print "Total agents: %d" [AInt n];
  _ ← _print_number_unplaced choosers fieldname;
  _ ← print "Assigning for relocation..." [];
  pool ← wrapper_index choosers;
  n ← wrapper_len choosers;
  size ← lift (int_of_float (float_mul relocation_rate (float_of_Z n)));
  chooser_ids ← np_random_choice pool size;
  (* [pd.Series(-1, index=chooser_ids)] is a Series of integers *)
  _ ← update_col_from_series choosers fieldname
        ((λ i, (i, Num (-1))) <$> chooser_ids) Int64 cast;
  _print_number_unplaced choosers fieldname.

End Relocation.

(** [new.loc[labels, c] = v]: the column is created when missing. *)
Definition loc_assign (df : DataFrame) (labels : list Z) (c : string) (v : cell)
  : res DataFrame :=
  if bool_decide (Forall (λ l, l ∈ index df) labels) then
    Ok (Frame (index_name df)
          (if decide (c ∈ columns df) then columns df else columns df ++ [c])
          ((λ r, if bool_decide (label r ∈ labels) then set_col c v r else r)
             <$> rows df))
  else Raise (KeyError "labels not in index").

Section Transitions.
Context {orca : Orca} {transitions : Transition}.

Definition full_transition (agents agent_controls : string) (year : Z)
    (settings : gmap string setting) (location_fname : string)
    (linked_tables : option (list (string * (DataFrame * string)))) : M unit :=
  ct ← get_table agent_controls;
  local ← get_table agents;
  add_columns ← match settings !! "add_columns" with
                 | None => mret []
                 | Some (SList cols) => mret cols
                 | Some (SStr _) =>
                     raise (TypeError "can only concatenate list to list")
                 end;
  reg ← registry;
  hh ← lift (wrapper_to_frame reg agents (columns local ++ add_columns));
  _ ← print_format "Total agents before transition: {:,}" [AInt (len hh)];
  let linked_tables := default [] linked_tables in
  _ ← for_each linked_tables (λ entry,
        let '(table_name, (table, col)) := entry in
        print_format "Total {} before transition: {:,}"
          [APair (AStr table_name) (AInt (len table))]);
  total_column ← match settings !! "total_column" with
                  | Some v => mret v
                  | None => raise (KeyError "total_column")
                  end;
  _ ← note (CallTransition hh year);
  result ← draw (transition ct total_column hh year linked_tables);
  let '(new, added_hh_idx, new_linked) := result in
  new ← lift (loc_assign new added_hh_idx location_fname (Num (-1)));
  _ ← print_format "Total agents after transition: {:,}" [AInt (len new)];
  _ ← add_table agents new;
  for_each new_linked (λ entry,
    let '(table_name, table) := entry in
    _ ← print_format "Total {} after transition: {:.}"
          [AStr table_name; AInt (len table)];
    add_table table_name table).

End Transitions.

(** ** Location choice *)

(** The [enable_supply_correction] dictionary, one field per key the code
    reads; [None] is a missing key. *)
Record supply_correction : Type := SupplyCorrection {
  price_col : option string;
  submarket_col : option string;
  warm_start : bool;
  multiplier_func : option string;
  kwargs : gmap string Z;
  submarket_table : option string;
  clip_final_price_low : option Z;
  clip_final_price_high : option Z
}.

(** [s > 0] and [s < 0] on one cell. *)
Definition cell_pos (c : cell) : bool :=
  match c with
  | Num z => bool_decide (0 < z)
  | PosInf => true
  | _ => false
  end.
Definition cell_neg (c : cell) : bool :=
  match c with
  | Num z => bool_decide (z < 0)
  | NegInf => true
  | _ => false
  end.

(** [np.repeat(s.index.values, s.values.astype('int'))]: numpy turns a cell
    that is not a number into a negative count, which [np.repeat] rejects. *)
Fixpoint np_repeat (s : Series) : res (list Z) :=
  match s with
  | [] => Ok []
  | (l, Num z) :: s' =>
      if bool_decide (z < 0) then
        Raise (ValueError "repeats may not contain negative values")
      else rest ← np_repeat s'; Ok (replicate (Z.to_nat z) l ++ rest)
  | _ :: _ => Raise (ValueError "repeats may not contain negative values")
  end.

(** [s.clip(lower=lo)] and [s.clip(upper=hi)] on one cell. *)
Definition clip_lower (lo : Z) (c : cell) : cell :=
  match c with
  | Num z => if bool_decide (z < lo) then Num lo else Num z
  | NegInf => Num lo
  | _ => c
  end.
Definition clip_upper (hi : Z) (c : cell) : cell :=
  match c with
  | Num z => if bool_decide (hi < z) then Num hi else Num z
  | PosInf => Num hi
  | _ => c
  end.

(** The sign of a cell in a product: 1, 0 or -1; [None] when the cell is not
    numeric. *)
Definition cell_sgn (c : cell) : option Z :=
  match c with
  | Num z => Some (Z.sgn z)
  | PosInf => Some 1
  | NegInf => Some (-1)
  | _ => None
  end.

(** [a * b] on cells. *)
Definition cell_mul (a b : cell) : cell :=
  match a, b with
  | Num x, Num y => Num (x * y)
  | _, _ =>
      match cell_sgn a, cell_sgn b with
      | Some s, Some t =>
          if decide (s * t = 0) then NaN
          else if decide (s * t = 1) then PosInf else NegInf
      | _, _ => NaN
      end
  end.

(** [s.reindex(labels).fillna(1)] *)
Definition reindex_fill1 (s : Series) (labels : list Z) : Series :=
  (λ l, (l, match series_get s l with
            | Some NaN | None => Num 1
            | Some v => v
            end)) <$> labels.

(** [s.loc[keys].values]: a key that is not a label of [s] is a [KeyError]. *)
Definition series_loc (s : Series) (keys : list cell) : res (list cell) :=
  res_map (λ k, match k with
                | Num z => match series_get s z with
                           | Some v => Ok v
                           | None => Raise (KeyError "label not in index")
                           end
                | _ => Raise (KeyError "label not in index")
                end) keys.

(** The labels a Series of chosen units points at. *)
Definition as_labels (cs : list cell) : res (list Z) :=
  res_map (λ c, match c with
                | Num z => Ok z
                | _ => Raise (KeyError "label not in index")
                end) cs.

Definition option_arg (o : option Z) : arg :=
  match o with Some z => AInt z | None => ANone end.

Definition list_of_option {A : Type} (o : option A) : list A :=
  match o with Some a => [a] | None => [] end.

Section LocationChoice.
Context {orca : Orca} {urbansim : Urbansim} {dtypes : Dtypes}.

(** [print(wrapper[c].describe())] *)
Definition print_describe (name c : string) : M unit :=
  s ← wrapper_getitem name c;
  print "describe" [AInt (Z.of_nat (length s))].

(** Lines 396 to 406: the candidate units and the number of repeated labels
    that the locations frame lacks.  [vacant_units] is already cut down to
    the positive entries. *)
Definition candidate_units (vacant_units : Series) (locations_df : DataFrame)
  : M (DataFrame * Z) :=
  indexes ← lift (np_repeat vacant_units);
  let isin := (λ i, bool_decide (i ∈ index locations_df)) <$> indexes in
  let missing := Z.of_nat (length (filter (λ b, b = false) isin)) in
  let indexes := select indexes isin in
  located ← lift (loc locations_df indexes);
  units ← lift (reset_index located);
  _ ← check_nas units;
  mret (units, missing).

(** Lines 420 to 470: the supply and demand correction of building prices. *)
Definition correct_supply (enable_supply_correction : supply_correction)
    (cfg buildings : string) (movers units : DataFrame) : M unit :=
  price_col ← match price_col enable_supply_correction with
               | Some c => mret c
               | None => raise (AssertionError "")
               end;
  submarket_col ← match submarket_col enable_supply_correction with
                   | Some c => mret c
                   | None => raise (AssertionError "")
                   end;
  klass ← lift (yaml_to_class cfg);
  lcm ← lift (from_yaml klass cfg);
  if warm_start enable_supply_correction then raise NotImplementedError else
  multiplier_func ← match multiplier_func enable_supply_correction with
                     | Some f => f ← lift (get_injectable f); mret (Some f)
                     | None => mret None
                     end;
  let kwargs := kwargs enable_supply_correction in
  _ ← note (CallSupplyDemand movers units);
  balanced ← lift (supply_and_demand lcm movers units submarket_col price_col
                     multiplier_func kwargs);
  let '(new_prices, submarkets_ratios) := balanced in
  submarkets_ratios ←
    match submarket_table enable_supply_correction with
    | Some submarket_table =>
        labels ← wrapper_index submarket_table;
        let submarkets_ratios := reindex_fill1 submarkets_ratios labels in
        _ ← add_column submarket_table "price_shifters" submarkets_ratios;
        mret submarkets_ratios
    | None => mret submarkets_ratios
    end;
  _ ← print "Running supply and demand" [];
  _ ← print "Simulated Prices" [];
  _ ← print_describe buildings price_col;
  _ ← print "Submarket Price Shifters" [];
  _ ← print "describe" [AInt (Z.of_nat (length submarkets_ratios))];
  hedonic ← wrapper_getitem buildings price_col;
  _ ← add_column buildings (price_col +:+ "_hedonic") hedonic;
  priced ← get_table buildings;
  prices ← lift (getitem priced price_col);
  submarkets ← wrapper_getitem buildings submarket_col;
  shifters ← lift (series_loc submarkets_ratios submarkets.*2);
  let new_prices := zip_with (λ p r, (p.1, cell_mul p.2 r)) prices shifters in
  (* the shifters are ratios, so the product is of floats unless the prices
     are objects *)
  _ ← update_col_from_series buildings price_col new_prices
        (promote (column_dtype priced price_col) Float64) false;
  _ ← print "Adjusted Prices" [];
  print_describe buildings price_col.

(** Lines 500 to 508: the final clip of building prices. *)
Definition clip_prices (enable_supply_correction : supply_correction)
    (buildings : string) : M unit :=
  match price_col enable_supply_correction with
  | None => raise (AssertionError "")
  | Some price_col =>
      priced ← get_table buildings;
      new_prices ← lift (getitem priced price_col);
      let new_prices :=
        match clip_final_price_low enable_supply_correction with
        | Some lo => (λ p, (p.1, clip_lower lo p.2)) <$> new_prices
        | None => new_prices
        end in
      let new_prices :=
        match clip_final_price_high enable_supply_correction with
        | Some hi => (λ p, (p.1, clip_upper hi p.2)) <$> new_prices
        | None => new_prices
        end in
      (* [clip] keeps the dtype of the column *)
      update_col_from_series buildings price_col new_prices
        (column_dtype priced price_col) false
  end.

(** Lines 373 to 475: the movers and the candidate units that go into the
    choice.  The configuration name is already resolved. *)
Definition choice_inputs (cfg choosers buildings : string) (join_tbls : join_arg)
    (out_fname supply_fname vacant_fname : string)
    (enable_supply_correction : option supply_correction)
    (move_in_year : option Z) : M (DataFrame * DataFrame) :=
  choosers_df ← to_frame (Some choosers) (JoinList []) cfg
                  [out_fname; "move_in_year"];
  let additional_columns :=
    [supply_fname; vacant_fname]
    ++ list_of_option (enable_supply_correction ≫= submarket_col)
    ++ list_of_option (enable_supply_correction ≫= price_col) in
  locations_df ← to_frame (Some buildings) join_tbls cfg additional_columns;
  available_units ← wrapper_getitem buildings supply_fname;
  vacant_units ← wrapper_getitem buildings vacant_fname;
  _ ← print_format "lcm_simulate(move_in_year={})" [option_arg move_in_year];
  _ ← print_format "There are {:,} total available units"
        [AInt (sum_cells available_units.*2)];
  n_choosers ← wrapper_len choosers;
  _ ← print_format "    and {:,} total choosers" [AInt n_choosers];
  _ ← print_format "    but there are {:,} overfull buildings"
        [AInt (Z.of_nat (length (filter (λ p, cell_neg p.2 = true) vacant_units)))];
  let vacant_units := filter (λ p, cell_pos p.2 = true) vacant_units in
  candidates ← candidate_units vacant_units locations_df;
  let '(units, missing) := candidates in
  _ ← print_format "    for a total of {:,} temporarily empty units"
        [AInt (sum_cells vacant_units.*2)];
  _ ← print_format "    in {:,} buildings total in the region"
        [AInt (Z.of_nat (length vacant_units))];
  _ ← (if bool_decide (missing > 0)
       then
         _ ← print "WARNING: %d indexes aren't found in the locations df -"
               [AInt missing];
         _ ← print "    this is usually because of a few records that don't join " [];
         print "    correctly between the locations df and the aggregations tables" []
       else mret tt);
  placed ← lift (getitem choosers_df out_fname);
  let movers :=
    mask_rows choosers_df ((λ p, bool_decide (p.2 = Num (-1))) <$> placed) in
  _ ← print_format "There are {:,} total movers for this LCM" [AInt (len movers)];
  _ ← match enable_supply_correction with
      | Some correction => correct_supply correction cfg buildings movers units
      | None => mret tt
      end;
  movers ← (if bool_decide (len movers > sum_cells vacant_units.*2) then
              _ ← print "WARNING: Not enough locations for movers" [];
              _ ← print "    reducing locations to size of movers for performance gain" [];
              mret (head movers (sum_cells vacant_units.*2))
            else mret movers);
  mret (movers, units).

(** Lines 477 to 512: the choice, the write-back and the final clip. *)
Definition choose_and_write (cfg choosers buildings : string)
    (out_fname vacant_fname : string)
    (enable_supply_correction : option supply_correction) (cast : bool)
    (alternative_ratio : float) (move_in_year : option Z)
    (movers units : DataFrame) : M unit :=
  klass ← lift (yaml_to_class cfg);
  reg ← registry;
  _ ← note (CallPredict movers units reg);
  new_units ← draw (predict_from_cfg klass movers units cfg alternative_ratio);
  let new_units := filter (λ p, p.2 ≠ NaN) new_units in
  chosen ← lift (as_labels new_units.*2);
  chosen_units ← lift (loc units chosen);
  chosen_ids ← lift (getitem chosen_units out_fname);
  let new_buildings := zip new_units.*1 chosen_ids.*2 in
  _ ← update_col_from_series choosers out_fname new_buildings
        (column_dtype chosen_units out_fname) cast;
  _ ← _print_number_unplaced choosers out_fname;
  _ ← match truthy move_in_year with
      | Some y =>
          let move_in_year_series := (λ p, (p.1, Num y)) <$> new_units in
          _ ← update_col_from_series choosers "move_in_year"
                move_in_year_series Int64 true;
          reg ← registry;
          shown ← lift (wrapper_to_frame reg choosers [out_fname; "move_in_year"]);
          _ ← lift (loc shown new_units.*1);
          print_format "choosers[{},move_in_year] = {}" [AStr out_fname; ANone]
      | None => mret tt
      end;
  _ ← match enable_supply_correction with
      | Some correction => clip_prices correction buildings
      | None => mret tt
      end;
  vacant_units ← wrapper_getitem buildings vacant_fname;
  _ ← print_format "    and there are now {:,} empty units"
        [AInt (sum_cells vacant_units.*2)];
  print_format "    and {:,} overfull buildings"
    [AInt (Z.of_nat (length (filter (λ p, cell_neg p.2 = true) vacant_units)))].

Definition lcm_simulate (cfg choosers buildings : string) (join_tbls : join_arg)
    (out_fname supply_fname vacant_fname : string)
    (enable_supply_correction : option supply_correction) (cast : bool)
    (alternative_ratio : float) (move_in_year : option Z) : M unit :=
  let cfg := config cfg in
  inputs ← choice_inputs cfg choosers buildings join_tbls out_fname supply_fname
             vacant_fname enable_supply_correction move_in_year;
  let '(movers, units) := inputs in
  choose_and_write cfg choosers buildings out_fname vacant_fname
    enable_supply_correction cast alternative_ratio move_in_year movers units.

End LocationChoice.

(** ** Notions used in the statements *)

(** The parcel ids of a buildings frame. *)
Definition parcels (df : DataFrame) : list cell := at_col "parcel_id" <$> rows df.

(** The rows of [old_buildings] that stand on a parcel of [new_buildings]. *)
Definition removed_rows (old_buildings new_buildings : DataFrame) : list row :=
  filter (λ b, at_col "parcel_id" b ∈ parcels new_buildings) (rows old_buildings).

(** An agent row after the buildings labelled [ids] are gone. *)
Definition unplaced_row (ids : list Z) (a : row) : row :=
  if bool_decide (at_col "building_id" a ∈ Num <$> ids)
  then set_col "building_id" (Num (-1)) a else a.

Definition unplaced (ids : list Z) (agents : DataFrame) : DataFrame :=
  Frame (index_name agents) (columns agents) (unplaced_row ids <$> rows agents).

(** The rows recorded under ["dropped_buildings"]. *)
Definition dropped (w : world) : list row :=
  match TABLES w !! "dropped_buildings" with
  | Some df => rows df
  | None => []
  end.

(** A sequence of calls of [_remove_developed_buildings], each started in
    the world the one before left, whatever its outcome. *)
Record removal : Type := Removal {
  removal_old : DataFrame;
  removal_new : DataFrame;
  removal_unplace : list string
}.

Fixpoint run_removals (cs : list removal) (w : world) : world :=
  match cs with
  | [] => w
  | c :: cs' =>
      run_removals cs'
        (_remove_developed_buildings (removal_old c) (removal_new c)
           (removal_unplace c) w).2
  end.

(** The frame of the removed buildings and the frame that is returned. *)
Definition drop_frame (old new : DataFrame) : DataFrame :=
  Frame (index_name old) (columns old) (removed_rows old new).

Definition kept_frame (old new : DataFrame) : DataFrame :=
  Frame (index_name old) (columns old)
        (filter (λ b, at_col "parcel_id" b ∉ parcels new) (rows old)).

(** What is registered under ["dropped_buildings"] once [d] is recorded. *)
Definition recorded (d : DataFrame) (w : world) : DataFrame :=
  match TABLES w !! "dropped_buildings" with
  | Some prev_drops => concat2 d prev_drops
  | None => d
  end.

(** A statement is quiet when it leaves the log of collaborator calls as it
    found it. *)
Definition quiet {A : Type} (m : M A) : Prop :=
  ∀ w r w', m w = (r, w') → calls w' = calls w.

(** A statement is drawless when it leaves the state of the random
    generator as it found it. *)
Definition drawless {A : Type} (m : M A) : Prop :=
  ∀ w r w', m w = (r, w') → rng w' = rng w.

(** Whether a result is a value. *)
Definition is_ok {A : Type} (r : res A) : bool :=
  match r with Ok _ => true | Raise _ => false end.

(** ** Sample data *)

Definition building (l parcel : Z) : row := Row l {["parcel_id" := Num parcel]}.

Definition agent (l building : Z) : row := Row l {["building_id" := Num building]}.

(** Three buildings, two of them on parcel 20, which is built upon anew. *)
Definition sample_old : DataFrame :=
  Frame "building_id" ["parcel_id"] [building 1 10; building 2 20; building 3 20].

Definition sample_new : DataFrame :=
  Frame "building_id" ["parcel_id"] [building 0 20].

(** A new building on a parcel that carries no building yet. *)
Definition sample_new_elsewhere : DataFrame :=
  Frame "building_id" ["parcel_id"] [building 0 30].

Definition sample_households : DataFrame :=
  Frame "household_id" ["building_id"]
        [agent 100 1; agent 101 2; agent 102 (-1); agent 103 3].

Definition sample_world : world :=
  World {["households" := sample_households]} [] 0%N [].

(** urbansim's [compute_units_to_build]: two lines, the assertion on the
    target vacancy, the target in float arithmetic, and two more lines, of
    which the first divides by the number of units. *)
Definition units_to_build (num_agents num_units : Z) (target_vacancy : float)
  : res Z * list line :=
  let lines := [Line "Number of agents: {:,}" [AInt num_agents];
                Line "Number of agent spaces: {:,}" [AInt num_units]] in
  if negb (SFltb target_vacancy (float_of_Z 1)) then
    (Raise (AssertionError EmptyString), lines)
  else
    let wanted :=
      float_sub (float_div (float_of_Z num_agents)
                           (float_sub (float_of_Z 1) target_vacancy))
                (float_of_Z num_units) in
    (* [max(wanted, 0)] is 0 when 0 is the greater, and [wanted] otherwise *)
    match int_of_float (if SFltb wanted (float_of_Z 0) then float_of_Z 0
                        else wanted) with
    | Raise e => (Raise e, lines)
    | Ok target_units =>
        if decide (num_units = 0) then
          (Raise (ZeroDivisionError "float division by zero"), lines)
        else
          (Ok target_units,
           lines
           ++ [Line "Current vacancy = {:.2f}"
                    [AFloat (float_sub (float_of_Z 1)
                               (float_div (float_of_Z num_agents)
                                          (float_of_Z num_units)))];
               Line "Target vacancy = {:.2f}, target of new units = {:,}"
                    [AFloat target_vacancy; AInt target_units]])
    end.



(** A developer that asks for the supply missing at the target vacancy and
    builds nothing. *)
Definition idle_developer : Developer := {|
  pick_options := unit;
  compute_units_to_build := units_to_build;
  pick := λ feasibility forms target options g, (Ok (None, feasibility), g);
  merge := λ old new, (concat2 old new, index new)
|}.

Definition sample_feasibility : DataFrame := Frame "parcel_id" [] [].

Definition sample_supply : DataFrame :=
  Frame "building_id" ["residential_units"]
        [Row 1 {["residential_units" := Num 2]};
         Row 2 {["residential_units" := Num 1]}].

Definition developer_world : world :=
  World {["households" := sample_households; "buildings" := sample_supply;
          "feasibility" := sample_feasibility]} [] 0%N [].

(** A cell that [check_nas] reports: NaN or an infinity. *)
Definition is_na (v : cell) : Prop := v = NaN ∨ v = PosInf ∨ v = NegInf.

#[global] Instance is_na_dec (v : cell) : Decision (is_na v).
Proof. unfold is_na. apply _. Defined.

(** Some column of the frame holds a missing or infinite value. *)
Definition has_na (df : DataFrame) : Prop :=
  Exists (λ c, Exists (λ r, is_na (at_col c r)) (rows df)) (columns df).

(** [to_frame(columns)] on a local frame: the requested columns that the
    frame has. *)
Definition restrict (df : DataFrame) (cols : list string) : DataFrame :=
  Frame (index_name df) (filter (λ c, c ∈ cols) (columns df))
        ((λ r, Row (label r) (filter (λ kv, kv.1 ∈ cols) (vals r))) <$> rows df).

(** orca with plain column selection and no join partners. *)
Definition plain_orca : Orca := {|
  injectable := unit;
  get_injectable := λ _, Ok tt;
  merge_tables := λ reg target tables columns,
    match reg !! target with
    | Some df => Ok (restrict df columns)
    | None => Raise (KeyError target)
    end;
  wrapper_to_frame := λ reg name columns,
    match reg !! name with
    | Some df => Ok (restrict df columns)
    | None => Raise (KeyError name)
    end
|}.

(** dtypes as pandas infers them from integers, with prices kept as
    floats: a column is of objects when it holds a string, of floats when
    it holds NaN or an infinity or is the price, and of integers
    otherwise. *)
Definition sample_dtypes : Dtypes := {|
  column_dtype := λ df c,
    let cells := at_col c <$> rows df in
    if existsb (λ v, match v with Str _ => true | _ => false end) cells
    then Object
    else if bool_decide (c = "price")
            || existsb (λ v, match v with
                             | NaN | PosInf | NegInf => true
                             | _ => false
                             end) cells
         then Float64
    else Int64
|}.

(** Models that pick, for the movers in turn, the units in turn, and a
    balancer that doubles the price in every submarket that has a unit. *)
Definition sample_urbansim {orca : Orca} : Urbansim := {|
  model := unit;
  config := λ name, name;
  yaml_model_type := λ _, Ok (Some "discretechoice");
  from_yaml := λ _ _, Ok tt;
  columns_used := λ _, Ok [];
  column_list := λ _ _ columns, columns;
  predict_from_cfg := λ _ movers units _ _ g,
    (Ok (zip_with (λ m u, (label m, Num (label u))) (rows movers) (rows units)), g);
  supply_and_demand := λ _ _ units submarket_col price_col _ _,
    Ok ((λ u, (label u, cell_mul (at_col price_col u) (Num 2))) <$> rows units,
        (λ u, (match at_col submarket_col u with Num z => z | _ => 0 end, Num 2))
          <$> rows units)
|}.

(** orca with an inner join: the target keeps the rows whose key into each
    joined table is a label of that table. *)
Definition keyed_in (other : DataFrame) (r : row) : bool :=
  match at_col (index_name other) r with
  | Num k => bool_decide (k ∈ index other)
  | _ => false
  end.

Definition inner_join (reg : gmap string DataFrame) (df : DataFrame)
    (other : string) : DataFrame :=
  match reg !! other with
  | Some o => Frame (index_name df) (columns df)
                    (filter (λ r, keyed_in o r = true) (rows df))
  | None => df
  end.

(** The key columns of a join: the index names of the joined tables. *)
Definition join_keys (reg : gmap string DataFrame) (tables : list string)
  : list string :=
  omap (λ t, index_name <$> reg !! t) tables.

Definition joining_orca : Orca := {|
  injectable := unit;
  get_injectable := λ _, Ok tt;
  merge_tables := λ reg target tables columns,
    match reg !! target with
    | Some df =>
        let others := filter (λ t, t ≠ target) tables in
        Ok (restrict (foldl (inner_join reg) df others)
                     (columns ++ join_keys reg others))
    | None => Raise (KeyError target)
    end;
  wrapper_to_frame := λ reg name columns,
    match reg !! name with
    | Some df => Ok (restrict df columns)
    | None => Raise (KeyError name)
    end
|}.

Definition priced_building (l units vacant zone price : Z) : row :=
  Row l {["residential_units" := Num units; "vacant_units" := Num vacant;
          "zone_id" := Num zone; "price" := Num price]}.

Definition household (l building year : Z) : row :=
  Row l {["building_id" := Num building; "move_in_year" := Num year]}.

Definition building_columns : list string :=
  ["residential_units"; "vacant_units"; "zone_id"; "price"].

(** Building 1 has five vacant units, building 2 is overfull by one. *)
Definition choice_buildings : DataFrame :=
  Frame "building_id" building_columns
        [priced_building 1 5 5 1 75; priced_building 2 3 (-1) 2 100].

Definition choice_households : DataFrame :=
  Frame "household_id" ["building_id"; "move_in_year"]
        [household 100 (-1) 2010; household 101 (-1) 2010; household 102 2 2010].

Definition choice_world : world :=
  World {["buildings" := choice_buildings; "households" := choice_households;
          "zones" := Frame "zone_id" [] [Row 1 ∅; Row 2 ∅]]} [] 0%N [].

(** Building 1 has five vacant units but lies in a zone that the zones
    table lacks; building 2 has two vacant units; three households move. *)
Definition crowded_world : world :=
  World {["buildings" := Frame "building_id" building_columns
                           [priced_building 1 5 5 1 75;
                            priced_building 2 3 2 2 100];
          "households" := Frame "household_id" ["building_id"; "move_in_year"]
                            [household 100 (-1) 2010; household 101 (-1) 2010;
                             household 102 (-1) 2010];
          "zones" := Frame "zone_id" [] [Row 2 ∅]]} [] 0%N [].

(** Building 1 has two vacant units, building 2 is overfull by one, and
    three households move: one more than there are vacant units. *)
Definition scarce_world : world :=
  World {["buildings" := Frame "building_id" building_columns
                           [priced_building 1 5 2 1 75;
                            priced_building 2 3 (-1) 2 100];
          "households" := Frame "household_id" ["building_id"; "move_in_year"]
                            [household 100 (-1) 2010; household 101 (-1) 2010;
                             household 102 (-1) 2010];
          "zones" := Frame "zone_id" [] [Row 1 ∅; Row 2 ∅]]} [] 0%N [].

(** Building 1 has two vacant units but lies in a zone that the zones table
    lacks; building 2 has one vacant unit; four households move. *)
Definition short_world : world :=
  World {["buildings" := Frame "building_id" building_columns
                           [priced_building 1 5 2 1 75;
                            priced_building 2 3 1 2 100];
          "households" := Frame "household_id" ["building_id"; "move_in_year"]
                            [household 100 (-1) 2010; household 101 (-1) 2010;
                             household 102 (-1) 2010; household 103 (-1) 2010];
          "zones" := Frame "zone_id" [] [Row 2 ∅]]} [] 0%N [].

(** The models of [sample_urbansim] with a predictor that advances the
    generator by the number of movers it is given. *)
Definition counting_urbansim {orca : Orca} : Urbansim := {|
  model := unit;
  config := λ name, name;
  yaml_model_type := λ _, Ok (Some "discretechoice");
  from_yaml := λ _ _, Ok tt;
  columns_used := λ _, Ok [];
  column_list := λ _ _ columns, columns;
  predict_from_cfg := λ _ movers units _ _ g,
    (Ok (zip_with (λ m u, (label m, Num (label u))) (rows movers) (rows units)),
     (g + N.of_nat (length (rows movers)))%N);
  supply_and_demand := λ _ _ units submarket_col price_col _ _,
    Ok ((λ u, (label u, cell_mul (at_col price_col u) (Num 2))) <$> rows units,
        (λ u, (match at_col submarket_col u with Num z => z | _ => 0 end, Num 2))
          <$> rows units)
|}.


(** The models of [sample_urbansim] with a predictor that raises. *)
Definition failing_urbansim {orca : Orca} : Urbansim := {|
  model := unit;
  config := λ name, name;
  yaml_model_type := λ _, Ok (Some "discretechoice");
  from_yaml := λ _ _, Ok tt;
  columns_used := λ _, Ok [];
  column_list := λ _ _ columns, columns;
  predict_from_cfg := λ _ movers units _ _ g,
    (Raise (ValueError "no alternatives"), N.succ g);
  supply_and_demand := λ _ _ units submarket_col price_col _ _,
    Ok ((λ u, (label u, cell_mul (at_col price_col u) (Num 2))) <$> rows units,
        (λ u, (match at_col submarket_col u with Num z => z | _ => 0 end, Num 2))
          <$> rows units)
|}.

(** Prices are shifted by submarket, the submarkets are the zones, and the
    final price is at most 120. *)
Definition sample_correction : supply_correction := {|
  price_col := Some "price";
  submarket_col := Some "zone_id";
  warm_start := false;
  multiplier_func := None;
  kwargs := ∅;
  submarket_table := Some "zones";
  clip_final_price_low := None;
  clip_final_price_high := Some 120
|}.

(** A household table with a missing income. *)
Definition sample_gappy : DataFrame :=
  Frame "household_id" ["building_id"; "income"]
        [Row 100 {["building_id" := Num 1; "income" := Num 50]};
         Row 101 {["building_id" := Num 2]}].

Definition gappy_world : world :=
  World {["households" := sample_gappy]} [] 0%N [].

(** A transition model that leaves the agents as they are. *)
Definition still_transition : Transition := {|
  transition := λ ct total_column hh year linked g, (Ok (hh, [], []), g)
|}.

Definition sample_controls : DataFrame :=
  Frame "year" ["total_number_of_households"]
        [Row 2015 {["total_number_of_households" := Num 4]}].

Definition sample_persons : DataFrame :=
  Frame "person_id" ["household_id"]
        [Row 1 {["household_id" := Num 100]}].

Definition transition_world : world :=
  World {["households" := sample_households;
          "household_controls" := sample_controls]} [] 0%N [].

(** A sampler that takes the head of the pool. *)
Definition head_sampler : Sampler := {|
  random_choice := λ pool size g,
    if bool_decide (0 ≤ size ≤ Z.of_nat (length pool))
    then (Ok (take (Z.to_nat size) pool), N.succ g)
    else (Raise (ValueError "Cannot take a larger sample than population"), g)
|}.



(** A statement leaves the table [t] as it is. *)
Definition stable {A : Type} (t : string) (m : M A) : Prop :=
  ∀ w r w', m w = (r, w') → TABLES w' !! t = TABLES w !! t.

(** A statement only adds lines to the output. *)
Definition extends {A : Type} (m : M A) : Prop :=
  ∀ w r w', m w = (r, w') → ∃ more, stdout w' = stdout w ++ more.

(** The candidate units that stand for the building labelled [l]. *)
Definition units_of (name : string) (l : Z) (units : DataFrame) : list row :=
  filter (λ u, at_col name u = Num l) (rows units).

(** The vacancies that count: the positive ones. *)
Definition positive (vacant_units : Series) : Series :=
  filter (λ p, cell_pos p.2 = true) vacant_units.

(** The agents that look for a location. *)
Definition all_movers (out_fname : string) (choosers_df : DataFrame) : list row :=
  filter (λ r, at_col out_fname r = Num (-1)) (rows choosers_df).

(** The columns that [lcm_simulate] asks for beside those of the model. *)
Definition location_columns (supply_fname vacant_fname : string)
    (enable_supply_correction : option supply_correction) : list string :=
  [supply_fname; vacant_fname]
  ++ list_of_option (enable_supply_correction ≫= submarket_col)
  ++ list_of_option (enable_supply_correction ≫= price_col).


(** The line that reports the overfull buildings. *)
Definition overfull_line (vacant_units : Series) : line :=
  Line "    but there are {:,} overfull buildings"
       [AInt (Z.of_nat (length (filter (λ p, cell_neg p.2 = true) vacant_units)))].

(** The frame of all movers, and the movers that are left when only
    [total] of them can go into the choice. *)
Definition movers_frame (out_fname : string) (choosers_df : DataFrame) : DataFrame :=
  Frame (index_name choosers_df) (columns choosers_df)
        (all_movers out_fname choosers_df).

Definition movers_for_choice (out_fname : string) (choosers_df : DataFrame)
    (total : Z) : DataFrame :=
  if bool_decide (len (movers_frame out_fname choosers_df) > total)
  then head (movers_frame out_fname choosers_df) total
  else movers_frame out_fname choosers_df.

(** The calls of the choice predictor in a call log: the movers, the units
    and the registry at the time of each call. *)
Definition predict_calls (cs : list call)
  : list (DataFrame * DataFrame * gmap string DataFrame) :=
  omap (λ c, match c with
             | CallPredict movers units reg => Some (movers, units, reg)
             | _ => None
             end) cs.

(** The cells of a column of a registered table, empty when there is no
    such table. *)
Definition column_of (reg : gmap string DataFrame) (name c : string) : list cell :=
  match reg !! name with
  | Some df => at_col c <$> rows df
  | None => []
  end.

(** ** Further notions used in the statements *)

(** The cells of column [c] that [check_nas] counts as missing. *)
Definition na_count (df : DataFrame) (c : string) : Z :=
  Z.of_nat (length (filter (λ r, is_na (at_col c r)) (rows df))).

(** The lines [check_nas] prints: one for each column with a missing or
    infinite cell, in the order of the columns. *)
Definition na_report (df : DataFrame) : list line :=
  (λ c, Line "Found %d nas or inf (out of %d) in column %s"
             [AInt (na_count df c); AInt (len df); AStr c])
    <$> filter (λ c, 0 < na_count df c) (columns df).

(** The line printed when buildings were dropped. *)
Definition dropped_line (n : Z) : line :=
  Line "Dropped {} buildings because they were redeveloped" [AInt n].

(** The lines the loop over [unplace_agents] prints. *)
Definition unplaced_text (l : line) : Prop :=
  text l = "Unplaced {} before: {}" ∨ text l = "Unplaced {} after: {}".

(** The tables [_remove_developed_buildings] can unplace agents in: the
    registered ones that have a [building_id] column. *)
Definition placeable (w : world) (tbl : string) : Prop :=
  ∃ agents, TABLES w !! tbl = Some agents ∧ "building_id" ∈ columns agents.

(** ** A small building stock and a developer that builds on it *)

Definition stock (l parcel units sqft : Z) : row :=
  Row l {["parcel_id" := Num parcel; "residential_units" := Num units;
          "non_residential_sqft" := Num sqft]}.

Definition sample_stock : DataFrame :=
  Frame "building_id" ["parcel_id"; "residential_units"; "non_residential_sqft"]
        [stock 1 10 2 0; stock 2 20 1 500; stock 3 20 0 200].

(** One proposed building on parcel 20, with a column the stock lacks. *)
Definition sample_proposal : DataFrame :=
  Frame "index"
        ["parcel_id"; "residential_units"; "non_residential_sqft"; "stories"]
        [Row 0 {["parcel_id" := Num 20; "residential_units" := Num 4;
                 "non_residential_sqft" := Num 0; "stories" := Num 2]}].

Definition stock_world : world :=
  World {["households" := sample_households; "buildings" := sample_stock;
          "feasibility" := sample_feasibility]} [] 0%N [].

(** [Developer.merge]: the new rows are labelled from the largest old label
    on and put behind the old rows. *)
Definition merge_after (old new : DataFrame) : DataFrame * list Z :=
  let maxind := foldr Z.max 0 (index old) in
  let labels := (λ i : nat, maxind + 1 + Z.of_nat i) <$> seq 0 (length (rows new)) in
  (Frame "building_id" (columns old)
         (rows old ++ zip_with (λ l r, Row l (vals r)) labels (rows new)),
   labels).

(** A developer that builds the proposal whatever the target. *)
Definition building_developer : Developer := {|
  pick_options := unit;
  compute_units_to_build := units_to_build;
  pick := λ feasibility forms target options g,
    (Ok (Some sample_proposal, feasibility), g);
  merge := merge_after
|}.

(** Households whose location column holds a missing value, and is of
    floats for it. *)
Definition float_households : DataFrame :=
  Frame "household_id" ["building_id"]
        [Row 100 {["building_id" := Num 1]}; Row 101 {["building_id" := NaN]}].

Definition float_world : world :=
  World {["households" := float_households]} [] 0%N [].


(** ** [simple_transition] *)

(** [transition.GrowthRateTransition(rate).transition(df, None)]: the new
    agents and the labels of the added ones. *)
Class GrowthRate : Type := {
  growth_transition : float → DataFrame → N → res (DataFrame * list Z) * N
}.

Section SimpleTransition.
Context {orca : Orca} {growth : GrowthRate}.

Definition simple_transition (tbl : string) (rate : float) (location_fname : string)
  : M unit :=
  local ← get_table tbl;
  reg ← registry;
  df ← lift (wrapper_to_frame reg tbl (columns local));
  _ ← print "%d agents before transition" [AInt (len df)];
  result ← draw (growth_transition rate df);
  let '(df, added) := result in
  _ ← print "%d agents after transition" [AInt (len df)];
  df ← lift (loc_assign df added location_fname (Num (-1)));
  add_table tbl df.

End SimpleTransition.

(** A growth that copies the first agent under the label 900. *)
Definition copy_first : GrowthRate := {|
  growth_transition := λ rate df g,
    match rows df with
    | [] => (Ok (df, []), g)
    | r :: _ =>
        (Ok (Frame (index_name df) (columns df) (rows df ++ [Row 900 (vals r)]),
             [900]), N.succ g)
    end
|}.

(** A statement that at most prints: the registry, the generator state and
    the log of collaborator calls are as it found them, whatever its
    outcome. *)
Definition read_only {A : Type} (m : M A) : Prop :=
  ∀ w r w', m w = (r, w') →
    TABLES w' = TABLES w ∧ rng w' = rng w ∧ calls w' = calls w.


(** A supply correction that asks for a warm start. *)
Definition warm_correction : supply_correction := {|
  price_col := Some "price";
  submarket_col := Some "zone_id";
  warm_start := true;
  multiplier_func := None;
  kwargs := ∅;
  submarket_table := Some "zones";
  clip_final_price_low := None;
  clip_final_price_high := Some 120
|}.

(** ** [table_reprocess] *)

(** What a call can fail with: an exception of the library or of an
    assertion, or the [UnboundLocalError] of a local variable that is read
    before it is assigned. *)
Inductive failure : Type :=
  | Library (e : exn)
  | UnboundLocalError (name : string).

Inductive outcome (A : Type) : Type :=
  | Done (a : A)
  | Failed (f : failure).
Arguments Done {A} a.
Arguments Failed {A} f.

(** A computation that prints: its outcome and the lines printed up to it. *)
Definition printing (A : Type) : Type := outcome A * list line.

#[global] Instance printing_ret : MRet printing := λ A a, (Done a, []).
#[global] Instance printing_bind : MBind printing := λ A B f m,
  match m.1 with
  | Done a => ((f a).1, m.2 ++ (f a).2)
  | Failed e => (Failed e, m.2)
  end.

Definition fail_with {A : Type} (f : failure) : printing A := (Failed f, []).

Definition library {A : Type} (r : res A) : printing A :=
  match r with
  | Ok a => (Done a, [])
  | Raise e => (Failed (Library e), [])
  end.

Definition print_line (t : string) (xs : list arg) : printing unit :=
  (Done tt, [Line t xs]).

(** One entry of the ["fill_nas"] dictionary; [None] is a missing key. *)
Record fill_cfg : Type := Fill {
  fill_how : option string;
  fill_type : option string
}.

(** The configuration dictionary; the entries of ["fill_nas"] in the order
    of the dictionary. *)
Record reprocess_cfg : Type := ReprocessCfg {
  cfg_filter : option string;
  cfg_fill_nas : option (list (string * fill_cfg))
}.

(** The pandas operations whose result depends on floating point numbers,
    dtypes or the query language. *)
Class Pandas : Type := {
  (** [df.query(expr)] *)
  query : string → DataFrame → res DataFrame;
  (** [s.value_counts().idxmax()], [s.quantile()] and [s.mean()] of a
      column without NaN *)
  idxmax_of_counts : list cell → res cell;
  quantile : list cell → res cell;
  mean : list cell → res cell;
  (** [s.astype(dtyp)] for the dtype named [dtyp], cell by cell *)
  astype_named : string → cell → res cell
}.

(** [s.dropna()] and [s.fillna(val)] on the cells of a column. *)
Definition dropna (s : list cell) : list cell := filter (λ v, v ≠ NaN) s.
Definition fillna (val : cell) (s : list cell) : list cell :=
  (λ v, match v with NaN => val | _ => v end) <$> s.

(** [df.dropna(subset=[c])] *)
Definition dropna_subset (df : DataFrame) (c : string) : DataFrame :=
  Frame (index_name df) (columns df) (filter (λ r, at_col c r ≠ NaN) (rows df)).

(** [df[c] = cells] for a column [c] that the frame has. *)
Definition assign_cells (df : DataFrame) (c : string) (cells : list cell)
  : DataFrame :=
  Frame (index_name df) (columns df)
        (zip_with (λ r v, set_col c v r) (rows df) cells).

(** A cell as [str.format] shows it. *)
Definition cell_arg (v : cell) : arg :=
  match v with
  | Num z => AInt z
  | Str s => AStr s
  | NaN => AStr "nan"
  | PosInf => AStr "inf"
  | NegInf => AStr "-inf"
  end.

Section Reprocess.
Context {pandas : Pandas}.

(** Lines 148 to 151: the query, which comes before the assertion. *)
Definition filtered (cfg : reprocess_cfg) (df : DataFrame) : res DataFrame :=
  match cfg_filter cfg with
  | Some expr => query expr df
  | None => Ok df
  end.

(** The branches on [filltyp]: the frame and the local [val] after them;
    [val] is [None] as long as it is unbound. *)
Definition fill_value (filltyp fname : string) (df : DataFrame)
    (val : option cell) : printing (DataFrame * option cell) :=
  let s := at_col fname <$> rows df in
  if decide (filltyp = "zero") then mret (df, Some (Num 0))
  else if decide (filltyp = "mode") then
    v ← library (idxmax_of_counts (dropna s)); mret (df, Some v)
  else if decide (filltyp = "median") then
    v ← library (quantile (dropna s)); mret (df, Some v)
  else if decide (filltyp = "mean") then
    v ← library (mean (dropna s)); mret (df, Some v)
  else if decide (filltyp = "drop") then mret (dropna_subset df fname, val)
  else fail_with (Library (AssertionError "Fill type not found!")).

(** The loop over the entries of ["fill_nas"]. *)
Fixpoint fill_nas_loop (fills : list (string * fill_cfg)) (df_cnt : Z)
    (df : DataFrame) (val : option cell) : printing DataFrame :=
  match fills with
  | [] => mret df
  | (fname, c) :: fills' =>
      filltyp ← match fill_how c with
                 | Some how => mret how
                 | None => fail_with (Library (KeyError "how"))
                 end;
      dtyp ← match fill_type c with
              | Some t => mret t
              | None => fail_with (Library (KeyError "type"))
              end;
      _ ← library (getitem df fname);
      let s_cnt := count df fname in
      let fill_cnt := df_cnt - s_cnt in
      st ← fill_value filltyp fname df val;
      let '(df, val) := st in
      v ← match val with
           | Some v => mret v
           | None => fail_with (UnboundLocalError "val")
           end;
      _ ← print_line "Filling column {} with value {} ({} values)"
            [AStr fname; cell_arg v; AInt fill_cnt];
      cells ← library (res_map (astype_named dtyp)
                         (fillna v (at_col fname <$> rows df)));
      fill_nas_loop fills' df_cnt (assign_cells df fname cells) (Some v)
  end.

Definition table_reprocess (cfg : reprocess_cfg) (df : DataFrame)
  : printing DataFrame :=
  let df_cnt := len df in
  df ← library (filtered cfg df);
  fills ← match cfg_fill_nas cfg with
           | Some fills => mret fills
           | None => fail_with (Library (AssertionError EmptyString))
           end;
  fill_nas_loop fills df_cnt df None.

End Reprocess.

(** pandas with a query that keeps the rows with a positive label, the
    first cell as every statistic and a cast that changes nothing. *)
Definition sample_pandas : Pandas := {|
  query := λ expr df,
    Ok (Frame (index_name df) (columns df)
              (filter (λ r, 0 < label r) (rows df)));
  idxmax_of_counts := λ s,
    match s with
    | v :: _ => Ok v
    | [] => Raise (ValueError "attempt to get argmax of an empty sequence")
    end;
  quantile := λ s, match s with v :: _ => Ok v | [] => Ok NaN end;
  mean := λ s, match s with v :: _ => Ok v | [] => Ok NaN end;
  astype_named := λ dtyp v, Ok v
|}.

Definition sample_raw : DataFrame :=
  Frame "building_id" ["building_type_id"; "residential_units"]
        [Row 0 {["building_type_id" := Num 1; "residential_units" := Num 3]};
         Row 1 {["building_type_id" := NaN; "residential_units" := Num 2]};
         Row 2 {["building_type_id" := Num 2; "residential_units" := Num 5]}].

(** * Properties *)

(** ** Running statements *)

Lemma bind_run {A B : Type} (m : M A) (f : A → M B) (w : world) :
  (m ≫= f) w = match m w with
               | (Ok a, w') => f a w'
               | (Raise e, w') => (Raise e, w')
               end.
Proof. reflexivity. Qed.

Lemma draw_bind_run {A B : Type} (f : N → res A * N) (k : A → M B) (w : world) :
  (draw f ≫= k) w
  = match f (rng w) with
    | (Ok a, g) => k a (World (TABLES w) (stdout w) g (calls w))
    | (Raise e, g) => (Raise e, World (TABLES w) (stdout w) g (calls w))
    end.
Proof. rewrite bind_run. unfold draw. by destruct (f (rng w)) as [[a|e] g]. Qed.

Lemma print_format_tables t xs w r w' :
  print_format t xs w = (r, w') →
  TABLES w' = TABLES w ∧ rng w' = rng w ∧ calls w' = calls w.
Proof.
  unfold print_format. rewrite bind_run. unfold lift, print.
  destruct (check_fields _ _ _); intros [= <- <-]; auto.
Qed.

Lemma print_format_run t xs w :
  check_fields (fields_of t None) 0%nat xs = Ok tt →
  print_format t xs w
  = (Ok tt, World (TABLES w) (stdout w ++ [Line t xs]) (rng w) (calls w)).
Proof. intros Hok. unfold print_format. rewrite bind_run. unfold lift. by rewrite Hok. Qed.

(** ** Masks *)

Lemma select_fmap {A : Type} (f : A → bool) (xs : list A) :
  select xs (f <$> xs) = filter (λ x, f x = true) xs.
Proof.
  induction xs as [|x xs IH]; [done|].
  cbn [fmap list_fmap select]. rewrite filter_cons, IH.
  destruct (f x); by case_decide.
Qed.

Lemma select_isin (c : string) (vs : list cell) (rs : list row) :
  select rs (isin (at_col c <$> rs) vs) = filter (λ r, at_col c r ∈ vs) rs.
Proof.
  unfold isin. rewrite <- list_fmap_compose.
  rewrite select_fmap. apply list_filter_iff. intros r. cbn.
  by rewrite bool_decide_eq_true.
Qed.

Lemma select_not_isin (c : string) (vs : list cell) (rs : list row) :
  select rs (negb <$> isin (at_col c <$> rs) vs)
  = filter (λ r, at_col c r ∉ vs) rs.
Proof.
  unfold isin. rewrite <- !list_fmap_compose.
  rewrite select_fmap. apply list_filter_iff. intros r. cbn.
  by rewrite negb_true_iff, bool_decide_eq_false.
Qed.

Lemma assign_where_isin (ids : list Z) (rs : list row) :
  assign_where "building_id" (Num (-1)) rs
    (isin (at_col "building_id" <$> rs) (Num <$> ids))
  = unplaced_row ids <$> rs.
Proof.
  induction rs as [|r rs IH]; [done|].
  cbn. by rewrite <- IH.
Qed.

(** ** Unplacing the agents of removed buildings *)

Lemma at_col_set_col (c : string) (v : cell) (r : row) :
  at_col c (set_col c v r) = v.
Proof. unfold at_col, set_col. cbn. by rewrite lookup_insert_eq. Qed.

Lemma unplaced_row_idemp (ids : list Z) (a : row) :
  unplaced_row ids (unplaced_row ids a) = unplaced_row ids a.
Proof.
  unfold unplaced_row at 2 3. case_bool_decide as Hin.
  - unfold unplaced_row. rewrite at_col_set_col.
    case_bool_decide; [|done].
    unfold set_col. cbn. by rewrite insert_insert_eq.
  - unfold unplaced_row. by rewrite bool_decide_eq_false_2.
Qed.

Lemma unplaced_idemp (ids : list Z) (df : DataFrame) :
  unplaced ids (unplaced ids df) = unplaced ids df.
Proof.
  unfold unplaced. cbn. f_equal. rewrite <- list_fmap_compose.
  apply list_fmap_ext. intros _ a _. apply unplaced_row_idemp.
Qed.

Lemma unplaced_nil (df : DataFrame) : unplaced [] df = df.
Proof.
  destruct df as [n cs rs]. unfold unplaced. cbn. f_equal.
  rewrite <- (list_fmap_id rs) at 2. apply list_fmap_ext.
  intros _ a _. unfold unplaced_row. cbn.
  rewrite bool_decide_eq_false_2; [done|]. apply not_elem_of_nil.
Qed.

(** One round of the loop over [unplace_agents]. *)
Lemma unplace_one_run (d : DataFrame) (tbl : string) (w : world) :
  match TABLES w !! tbl with
  | Some agents =>
      if decide ("building_id" ∈ columns agents) then
        ∃ out, unplace_one d tbl w
               = (Ok tt, World (<[tbl := unplaced (index d) agents]> (TABLES w))
                               out (rng w) (calls w))
      else unplace_one d tbl w = (Raise (AttributeError "building_id"), w)
  | None => unplace_one d tbl w = (Raise (KeyError tbl), w)
  end.
Proof.
  unfold unplace_one. rewrite bind_run. unfold get_table.
  destruct (TABLES w !! tbl) as [agents|] eqn:Ht; [|done].
  rewrite bind_run. unfold lift, column.
  case_decide as Hc; [|done].
  rewrite assign_where_isin. eexists. reflexivity.
Qed.

(** The loop changes only the tables it names, and each of them in the same
    way however often it is named. *)
Lemma unplace_loop_ok (d : DataFrame) (ts : list string) (w w' : world) :
  for_each ts (unplace_one d) w = (Ok tt, w') →
  (∀ t, TABLES w' !! t
        = if decide (t ∈ ts) then unplaced (index d) <$> TABLES w !! t
          else TABLES w !! t)
  ∧ (∀ t, t ∈ ts → is_Some (TABLES w !! t)).
Proof.
  revert w. induction ts as [|t ts IH]; intros w.
  - cbn. intros [= <-]. split.
    + intros t. case_decide as Hin; [|done]. by apply elem_of_nil in Hin.
    + intros t Hin. by apply elem_of_nil in Hin.
  - cbn [for_each]. rewrite bind_run.
    pose proof (unplace_one_run d t w) as Hone.
    destruct (TABLES w !! t) as [agents|] eqn:Ht.
    2:{ rewrite Hone. intros [=]. }
    case_decide as Hc.
    2:{ rewrite Hone. intros [=]. }
    destruct Hone as [out ->]. intros Hrest.
    apply IH in Hrest as [Htabs Hsome]. cbn in Htabs, Hsome. split.
    + intros u. rewrite Htabs.
      destruct (decide (u = t)) as [->|Hne].
      * rewrite lookup_insert_eq. rewrite (decide_True (P := t ∈ t :: ts)) by left.
        case_decide; cbn; [|by rewrite Ht]. rewrite Ht. cbn.
        by rewrite unplaced_idemp.
      * rewrite lookup_insert_ne by done.
        case_decide as Hin.
        -- by rewrite (decide_True (P := u ∈ t :: ts)) by by right.
        -- rewrite (decide_False (P := u ∈ t :: ts)); [done|].
           intros [->|?]%elem_of_cons; done.
    + intros u [->|Hin]%elem_of_cons; [by rewrite Ht|].
      specialize (Hsome u Hin).
      destruct (decide (u = t)) as [->|Hne]; [by rewrite Ht|].
      by rewrite lookup_insert_ne in Hsome.
Qed.

(** Whatever the outcome of the loop, a table it does not name is as
    before. *)
Lemma unplace_loop_frame (d : DataFrame) (ts : list string) (w w' : world)
    (r : res unit) (t : string) :
  for_each ts (unplace_one d) w = (r, w') → t ∉ ts →
  TABLES w' !! t = TABLES w !! t.
Proof.
  revert w. induction ts as [|u ts IH]; intros w.
  - cbn. by intros [= <- <-].
  - cbn [for_each]. rewrite bind_run. intros Hrun Hnot.
    apply not_elem_of_cons in Hnot as [Hne Hnot].
    pose proof (unplace_one_run d u w) as Hone.
    destruct (TABLES w !! u) as [agents|] eqn:Hu.
    2:{ rewrite Hone in Hrun. by injection Hrun as <- <-. }
    case_decide as Hc.
    2:{ rewrite Hone in Hrun. by injection Hrun as <- <-. }
    destruct Hone as [out Hone]. rewrite Hone in Hrun.
    rewrite (IH _ Hrun Hnot). cbn. by rewrite lookup_insert_ne.
Qed.

(** ** The run of [_remove_developed_buildings] *)

Lemma record_dropped_run (d : DataFrame) (w : world) :
  record_dropped d w
  = (Ok tt, World (<["dropped_buildings" := recorded d w]> (TABLES w))
                  (stdout w) (rng w) (calls w)).
Proof.
  unfold record_dropped, recorded. rewrite bind_run. unfold is_registered.
  destruct (TABLES w !! "dropped_buildings") as [prev|] eqn:Hprev.
  - rewrite bool_decide_eq_true_2 by done.
    rewrite bind_run. unfold get_table. by rewrite Hprev.
  - rewrite bool_decide_eq_false_2; [done|]. by intros [? [=]].
Qed.

Lemma remove_run_missing_old (old new : DataFrame) (ts : list string) (w : world) :
  "parcel_id" ∉ columns old →
  _remove_developed_buildings old new ts w = (Raise (AttributeError "parcel_id"), w).
Proof.
  intros Hc. unfold _remove_developed_buildings. rewrite bind_run.
  unfold lift, column. by rewrite decide_False.
Qed.

Lemma remove_run_missing_new (old new : DataFrame) (ts : list string) (w : world) :
  "parcel_id" ∈ columns old → "parcel_id" ∉ columns new →
  _remove_developed_buildings old new ts w = (Raise (AttributeError "parcel_id"), w).
Proof.
  intros Ho Hn. unfold _remove_developed_buildings. rewrite bind_run.
  unfold lift at 1, column at 1. rewrite decide_True by done.
  rewrite bind_run. unfold lift, column. by rewrite decide_False.
Qed.

(** With both parcel columns present the call records the removed rows and
    then runs the loop; its outcome is that of the loop. *)
Lemma remove_run (old new : DataFrame) (ts : list string) (w : world) :
  "parcel_id" ∈ columns old → "parcel_id" ∈ columns new →
  ∃ out,
    _remove_developed_buildings old new ts w
    = match for_each ts (unplace_one (drop_frame old new))
              (World (<["dropped_buildings" := recorded (drop_frame old new) w]>
                        (TABLES w)) out (rng w) (calls w)) with
      | (Ok _, w') => (Ok (kept_frame old new), w')
      | (Raise e, w') => (Raise e, w')
      end.
Proof.
  intros Ho Hn. unfold _remove_developed_buildings.
  rewrite bind_run. unfold lift at 1, column at 1. rewrite decide_True by done.
  rewrite bind_run. unfold lift at 1, column at 1. rewrite decide_True by done.
  assert (mask_rows old (isin (at_col "parcel_id" <$> rows old)
                              (at_col "parcel_id" <$> rows new))
          = drop_frame old new) as ->.
  { unfold mask_rows, drop_frame, removed_rows, parcels. by rewrite select_isin. }
  assert (mask_rows old (negb <$> isin (at_col "parcel_id" <$> rows old)
                                       (at_col "parcel_id" <$> rows new))
          = kept_frame old new) as ->.
  { unfold mask_rows, kept_frame, parcels. by rewrite select_not_isin. }
  rewrite bind_run, record_dropped_run.
  rewrite bind_run.
  case_bool_decide.
  - rewrite print_format_run by (vm_compute; reflexivity).
    cbn [TABLES stdout rng calls]. rewrite bind_run.
    match goal with
    | |- context [for_each ts ?b (World ?t ?o ?g ?c)] => exists o
    end.
    destruct (for_each ts _ _) as [[[]|e] w']; reflexivity.
  - unfold mret at 1, M_ret at 1. rewrite bind_run. exists (stdout w).
    destruct (for_each ts _ _) as [[[]|e] w']; reflexivity.
Qed.

(** A successful call had both parcel columns. *)
Lemma remove_ok_columns (old new : DataFrame) (ts : list string) (w w' : world)
    (old' : DataFrame) :
  _remove_developed_buildings old new ts w = (Ok old', w') →
  "parcel_id" ∈ columns old ∧ "parcel_id" ∈ columns new.
Proof.
  intros Hrun.
  destruct (decide ("parcel_id" ∈ columns old)) as [Ho|Ho].
  2:{ by rewrite remove_run_missing_old in Hrun. }
  destruct (decide ("parcel_id" ∈ columns new)) as [Hn|Hn]; [done|].
  by rewrite remove_run_missing_new in Hrun.
Qed.

Lemma remove_ok_inv (old new : DataFrame) (ts : list string) (w w' : world)
    (old' : DataFrame) :
  _remove_developed_buildings old new ts w = (Ok old', w') →
  old' = kept_frame old new
  ∧ ∃ out,
      for_each ts (unplace_one (drop_frame old new))
        (World (<["dropped_buildings" := recorded (drop_frame old new) w]>
                  (TABLES w)) out (rng w) (calls w))
      = (Ok tt, w').
Proof.
  intros Hrun. pose proof (remove_ok_columns _ _ _ _ _ _ Hrun) as [Ho Hn].
  destruct (remove_run old new ts w Ho Hn) as [out Heq].
  rewrite Heq in Hrun.
  destruct (for_each ts _ _) as [[[]|e] w1] eqn:Hloop; [|done].
  injection Hrun as <- <-. split; [done|]. by exists out.
Qed.

(** ** Redevelopment removal: what is removed and who is unplaced *)

Lemma index_drop_frame (old new : DataFrame) :
  index (drop_frame old new) = label <$> removed_rows old new.
Proof. reflexivity. Qed.

(** C1: after [_remove_developed_buildings(old, new, unplace_agents)] has
    run, exactly the old buildings whose parcel id is among the parcel ids of
    the new buildings are gone from the returned table; in every table named
    in [unplace_agents] every agent that referenced a removed building has
    [building_id] -1 and the other agents are as before; and, building ids
    being different from the sentinel -1, no agent of these tables has the id
    of a removed building as its [building_id]. *)
Theorem remove_developed_unplaces_removed
    (old new : DataFrame) (unplace_agents : list string) (w w' : world)
    (old' : DataFrame) :
  _remove_developed_buildings old new unplace_agents w = (Ok old', w') →
  (index_name old' = index_name old ∧ columns old' = columns old
   ∧ rows old' = filter (λ b, at_col "parcel_id" b ∉ parcels new) (rows old))
  ∧ (∀ tbl, tbl ∈ unplace_agents → tbl ≠ "dropped_buildings" →
       ∃ agents, TABLES w !! tbl = Some agents
         ∧ TABLES w' !! tbl
           = Some (unplaced (label <$> removed_rows old new) agents))
  ∧ ((∀ b, b ∈ removed_rows old new → label b ≠ -1) →
     ∀ tbl, tbl ∈ unplace_agents →
       ∃ agents', TABLES w' !! tbl = Some agents'
         ∧ ∀ a b, a ∈ rows agents' → b ∈ removed_rows old new →
             at_col "building_id" a ≠ Num (label b)).
Proof.
  intros Hrun. apply remove_ok_inv in Hrun as [-> [out Hloop]].
  apply unplace_loop_ok in Hloop as [Htabs Hsome]. cbn [TABLES] in Htabs, Hsome.
  rewrite index_drop_frame in Htabs.
  split; [done|]. split.
  - intros tbl Hin Hne. specialize (Hsome tbl Hin). specialize (Htabs tbl).
    rewrite decide_True in Htabs by done.
    rewrite lookup_insert_ne in Htabs, Hsome by done.
    destruct Hsome as [agents Hagents]. exists agents. split; [done|].
    by rewrite Htabs, Hagents.
  - intros Hsentinel tbl Hin. specialize (Hsome tbl Hin). specialize (Htabs tbl).
    rewrite decide_True in Htabs by done.
    destruct Hsome as [agents Hagents]. rewrite Hagents in Htabs. cbn in Htabs.
    eexists. split; [exact Htabs|].
    intros a b Ha Hb. cbn [rows unplaced] in Ha.
    apply list_elem_of_fmap in Ha as [a0 [-> Ha0]].
    unfold unplaced_row. case_bool_decide as Href.
    + rewrite at_col_set_col. intros [= Heq]. by apply (Hsentinel b).
    + intros Heq. apply Href. rewrite Heq.
      apply list_elem_of_fmap. exists (label b). split; [done|].
      apply list_elem_of_fmap. by exists b.
Qed.

Lemma remove_developed_unplaces_removed_witness :
  ∃ old' w',
    _remove_developed_buildings sample_old sample_new ["households"] sample_world
    = (Ok old', w')
    ∧ rows old' = [building 1 10]
    ∧ TABLES w' !! "households"
      = Some (unplaced [2; 3] sample_households).
Proof.
  destruct (_remove_developed_buildings sample_old sample_new ["households"]
              sample_world) as [[old'|e] w'] eqn:Hrun.
  2:{ exfalso.
      assert (is_ok (_remove_developed_buildings sample_old sample_new
                       ["households"] sample_world).1 = true) as Hok
        by (by vm_compute).
      by rewrite Hrun in Hok. }
  exists old', w'. split; [done|].
  destruct (remove_developed_unplaces_removed _ _ _ _ _ _ Hrun)
    as [(_ & _ & Hrows) [Hset _]].
  split; [rewrite Hrows; by vm_compute|].
  destruct (Hset "households") as [agents [Hbefore Hafter]]; [by left|done|].
  assert (TABLES sample_world !! "households" = Some sample_households) as Hhh
    by (by vm_compute).
  rewrite Hhh in Hbefore. injection Hbefore as <-. rewrite Hafter.
  by vm_compute.
Defined.

(** ** Redevelopment removal on parcels that carry no building *)

Lemma removed_rows_disjoint (old new : DataFrame) :
  (∀ b n, b ∈ rows old → n ∈ rows new →
          at_col "parcel_id" b ≠ at_col "parcel_id" n) →
  removed_rows old new = [].
Proof.
  intros Hdisj. unfold removed_rows.
  induction (rows old) as [|b bs IH]; [done|].
  rewrite filter_cons. rewrite decide_False.
  - apply IH. intros b' n Hb' Hn. apply Hdisj; [by right|done].
  - unfold parcels. intros [n [Heq Hn]]%list_elem_of_fmap.
    by apply (Hdisj b n); [left| |].
Qed.

Lemma kept_frame_disjoint (old new : DataFrame) :
  (∀ b n, b ∈ rows old → n ∈ rows new →
          at_col "parcel_id" b ≠ at_col "parcel_id" n) →
  kept_frame old new = old.
Proof.
  intros Hdisj. destruct old as [name cols rs]. unfold kept_frame. cbn in *.
  f_equal. induction rs as [|b bs IH]; [done|].
  rewrite filter_cons. rewrite decide_True.
  - f_equal. apply IH. intros b' n Hb' Hn. apply Hdisj; [by right|done].
  - unfold parcels. intros [n [Heq Hn]]%list_elem_of_fmap.
    by apply (Hdisj b n); [left| |].
Qed.

Lemma dropped_recorded (d : DataFrame) (w : world) :
  rows (recorded d w) = rows d ++ dropped w.
Proof.
  unfold recorded, dropped.
  destruct (TABLES w !! "dropped_buildings"); cbn; [done|].
  by rewrite app_nil_r.
Qed.

(** C6: when no parcel id of the new buildings is a parcel id of an old
    building, [_remove_developed_buildings] returns [old] as it was given,
    every registered table other than the record of dropped buildings is
    the frame it was, so that no agent's location field is modified, and
    the rows recorded as dropped are the same as before. *)
Theorem remove_developed_disjoint_unchanged
    (old new : DataFrame) (unplace_agents : list string) (w w' : world)
    (old' : DataFrame) :
  (∀ b n, b ∈ rows old → n ∈ rows new →
          at_col "parcel_id" b ≠ at_col "parcel_id" n) →
  _remove_developed_buildings old new unplace_agents w = (Ok old', w') →
  old' = old
  ∧ (∀ tbl, tbl ≠ "dropped_buildings" → TABLES w' !! tbl = TABLES w !! tbl)
  ∧ dropped w' = dropped w.
Proof.
  intros Hdisj Hrun. apply remove_ok_inv in Hrun as [-> [out Hloop]].
  apply unplace_loop_ok in Hloop as [Htabs _]. cbn [TABLES] in Htabs.
  rewrite index_drop_frame, removed_rows_disjoint in Htabs by done.
  assert (∀ t, TABLES w' !! t
               = <["dropped_buildings" := recorded (drop_frame old new) w]>
                   (TABLES w) !! t) as Hsame.
  { intros t. rewrite Htabs. case_decide; [|done].
    destruct (_ !! t) as [df|]; cbn; [|done]. by rewrite unplaced_nil. }
  split; [by apply kept_frame_disjoint|]. split.
  - intros tbl Hne. by rewrite Hsame, lookup_insert_ne.
  - unfold dropped at 1. rewrite Hsame, lookup_insert_eq.
    rewrite dropped_recorded. cbn. by rewrite removed_rows_disjoint.
Qed.

Lemma remove_developed_disjoint_unchanged_witness :
  ∃ old' w',
    _remove_developed_buildings sample_old sample_new_elsewhere ["households"]
      sample_world = (Ok old', w')
    ∧ old' = sample_old
    ∧ TABLES w' !! "households" = TABLES sample_world !! "households".
Proof.
  destruct (_remove_developed_buildings sample_old sample_new_elsewhere
              ["households"] sample_world) as [[old'|e] w'] eqn:Hrun.
  2:{ exfalso.
      assert (is_ok (_remove_developed_buildings sample_old sample_new_elsewhere
                       ["households"] sample_world).1 = true) as Hok
        by (by vm_compute).
      by rewrite Hrun in Hok. }
  exists old', w'. split; [done|].
  assert (∀ b n, b ∈ rows sample_old → n ∈ rows sample_new_elsewhere →
                 at_col "parcel_id" b ≠ at_col "parcel_id" n) as Hdisj.
  { intros b n Hb Hn. cbn in Hb, Hn.
    apply list_elem_of_singleton in Hn as ->.
    repeat (apply elem_of_cons in Hb as [->|Hb]; [by vm_compute|]).
    by apply elem_of_nil in Hb. }
  destruct (remove_developed_disjoint_unchanged _ _ _ _ _ _ Hdisj Hrun)
    as (Hold & Htabs & _).
  split; [done|]. by apply Htabs.
Defined.

(** ** The record of dropped buildings *)

(** The record after one call that got as far as recording. *)
Lemma dropped_after_call (old new : DataFrame) (ts : list string) (w : world) :
  "dropped_buildings" ∉ ts →
  "parcel_id" ∈ columns old → "parcel_id" ∈ columns new →
  TABLES (_remove_developed_buildings old new ts w).2 !! "dropped_buildings"
  = Some (recorded (drop_frame old new) w).
Proof.
  intros Hnot Ho Hn. destruct (remove_run old new ts w Ho Hn) as [out ->].
  destruct (for_each ts _ _) as [r w1] eqn:Hloop.
  apply (unplace_loop_frame _ _ _ _ _ "dropped_buildings") in Hloop; [|done].
  cbn [TABLES] in Hloop. rewrite lookup_insert_eq in Hloop.
  by destruct r.
Qed.

(** Whatever its outcome, a call only puts rows in front of the record. *)
Lemma dropped_grows (old new : DataFrame) (ts : list string) (w : world) :
  "dropped_buildings" ∉ ts →
  ∃ front, dropped (_remove_developed_buildings old new ts w).2
           = front ++ dropped w.
Proof.
  intros Hnot.
  destruct (decide ("parcel_id" ∈ columns old)) as [Ho|Ho].
  2:{ rewrite remove_run_missing_old by done. by exists []. }
  destruct (decide ("parcel_id" ∈ columns new)) as [Hn|Hn].
  2:{ rewrite remove_run_missing_new by done. by exists []. }
  exists (removed_rows old new). unfold dropped at 1.
  rewrite dropped_after_call by done. by rewrite dropped_recorded.
Qed.

Lemma run_removals_grows (cs : list removal) (w : world) :
  (∀ c, c ∈ cs → "dropped_buildings" ∉ removal_unplace c) →
  ∃ front, dropped (run_removals cs w) = front ++ dropped w.
Proof.
  revert w. induction cs as [|c cs IH]; intros w Hnot; [by exists []|].
  cbn [run_removals].
  destruct (IH (_remove_developed_buildings (removal_old c) (removal_new c)
                  (removal_unplace c) w).2) as [front1 ->].
  { intros c' Hc'. apply Hnot. by right. }
  destruct (dropped_grows (removal_old c) (removal_new c) (removal_unplace c) w)
    as [front2 ->].
  { apply Hnot. by left. }
  exists (front1 ++ front2). by rewrite app_assoc.
Qed.

(** C10: a call of [_remove_developed_buildings] that does not name the
    record itself among [unplace_agents] puts the full rows of the buildings
    it removes in front of the rows already registered under
    ["dropped_buildings"], creating the table when there is none; so over any
    sequence of such calls the recorded rows only grow, and every building
    removed by any call of the sequence is still recorded at its end. *)
Theorem dropped_buildings_accumulate :
  (∀ old new unplace_agents w,
     "dropped_buildings" ∉ unplace_agents →
     "parcel_id" ∈ columns old → "parcel_id" ∈ columns new →
     let w' := (_remove_developed_buildings old new unplace_agents w).2 in
     is_Some (TABLES w' !! "dropped_buildings")
     ∧ dropped w' = removed_rows old new ++ dropped w)
  ∧ (∀ cs w,
       (∀ c, c ∈ cs → "dropped_buildings" ∉ removal_unplace c) →
       dropped w ⊆ dropped (run_removals cs w)
       ∧ ∀ c, c ∈ cs →
           "parcel_id" ∈ columns (removal_old c) →
           "parcel_id" ∈ columns (removal_new c) →
           removed_rows (removal_old c) (removal_new c)
           ⊆ dropped (run_removals cs w)).
Proof.
  split.
  - intros old new ts w Hnot Ho Hn. cbn zeta. split.
    + by rewrite dropped_after_call.
    + unfold dropped at 1. rewrite dropped_after_call by done.
      by rewrite dropped_recorded.
  - intros cs w Hnot. split.
    + destruct (run_removals_grows cs w Hnot) as [front ->].
      intros r Hr. apply elem_of_app. by right.
    + revert w. induction cs as [|c cs IH]; intros w c' Hc' Ho Hn.
      { by apply elem_of_nil in Hc'. }
      cbn [run_removals].
      apply elem_of_cons in Hc' as [->|Hc'].
      * destruct (run_removals_grows cs
                    (_remove_developed_buildings (removal_old c) (removal_new c)
                       (removal_unplace c) w).2) as [front ->].
        { intros c' Hc'. apply Hnot. by right. }
        unfold dropped. rewrite dropped_after_call; [|apply Hnot; by left|done..].
        rewrite dropped_recorded. intros r Hr.
        apply elem_of_app. right. apply elem_of_app. by left.
      * apply IH; [|done..]. intros c'' Hc''. apply Hnot. by right.
Qed.

Lemma dropped_buildings_accumulate_witness :
  dropped
    (run_removals [Removal sample_old sample_new ["households"];
                   Removal sample_old sample_new_elsewhere ["households"]]
       sample_world)
  = [building 2 20; building 3 20]
  ∧ removed_rows sample_old sample_new
    ⊆ dropped
        (run_removals [Removal sample_old sample_new ["households"];
                       Removal sample_old sample_new_elsewhere ["households"]]
           sample_world).
Proof.
  split; [by vm_compute|].
  refine (proj2 (proj2 dropped_buildings_accumulate
           [Removal sample_old sample_new ["households"];
            Removal sample_old sample_new_elsewhere ["households"]]
           sample_world _) (Removal sample_old sample_new ["households"]) _ _ _).
  - intros c Hc.
    repeat (apply elem_of_cons in Hc as [->|Hc];
            [cbn; by intros [[=]|[]%elem_of_nil]%elem_of_cons|]).
    by apply elem_of_nil in Hc.
  - by left.
  - cbn. by left.
  - cbn. by left.
Defined.

(** ** Statements that call no collaborator *)

Lemma quiet_bind {A B : Type} (m : M A) (f : A → M B) :
  quiet m → (∀ a, quiet (f a)) → quiet (m ≫= f).
Proof.
  intros Hm Hf w r w'. rewrite bind_run.
  destruct (m w) as [[a|e] w1] eqn:Hrun.
  - intros Hrest. apply Hf in Hrest. apply Hm in Hrun. congruence.
  - intros [= <- <-]. by apply Hm in Hrun.
Qed.

Lemma quiet_ret {A : Type} (a : A) : quiet (mret a).
Proof. by intros w r w' [= <- <-]. Qed.

Lemma quiet_raise {A : Type} (e : exn) : quiet (raise (A := A) e).
Proof. by intros w r w' [= <- <-]. Qed.

Lemma quiet_lift {A : Type} (x : res A) : quiet (lift x).
Proof. by intros w r w' [= <- <-]. Qed.

Lemma quiet_registry : quiet registry.
Proof. by intros w r w' [= <- <-]. Qed.

Lemma quiet_print t xs : quiet (print t xs).
Proof. by intros w r w' [= <- <-]. Qed.

Lemma quiet_print_format t xs : quiet (print_format t xs).
Proof. intros w r w' Hrun. by apply print_format_tables in Hrun as (_ & _ & ->). Qed.

Lemma quiet_get_table name : quiet (get_table name).
Proof.
  intros w r w'. unfold get_table.
  by destruct (TABLES w !! name); intros [= <- <-].
Qed.

Lemma quiet_add_table name df : quiet (add_table name df).
Proof. by intros w r w' [= <- <-]. Qed.

Lemma quiet_is_registered name : quiet (is_registered name).
Proof. by intros w r w' [= <- <-]. Qed.

Lemma quiet_draw {A : Type} (f : N → res A * N) : quiet (draw f).
Proof.
  intros w r w'. unfold draw. destruct (f (rng w)). by intros [= <- <-].
Qed.

Lemma quiet_for_each {A : Type} (xs : list A) (body : A → M unit) :
  (∀ x, quiet (body x)) → quiet (for_each xs body).
Proof.
  intros Hbody. induction xs as [|x xs IH]; [apply quiet_ret|].
  cbn [for_each]. apply quiet_bind; [apply Hbody|]. intros _. apply IH.
Qed.

Ltac quiet_step :=
  first
    [ apply quiet_ret | apply quiet_raise | apply quiet_lift
    | apply quiet_registry | apply quiet_print | apply quiet_print_format
    | apply quiet_get_table | apply quiet_add_table | apply quiet_is_registered
    | apply quiet_draw
    | apply quiet_bind; [|intros ?]
    | apply quiet_for_each; intros ? ].

Ltac quiet_cases :=
  match goal with
  | |- quiet (match ?x with _ => _ end) => destruct x
  | |- quiet (if ?b then _ else _) => destruct b
  end.

Ltac solve_quiet := repeat (first [quiet_step | quiet_cases]).

Lemma quiet_wrapper_len name : quiet (wrapper_len name).
Proof. unfold wrapper_len. solve_quiet. Qed.

Lemma quiet_wrapper_index name : quiet (wrapper_index name).
Proof. unfold wrapper_index. solve_quiet. Qed.

Lemma quiet_wrapper_getitem name c : quiet (wrapper_getitem name c).
Proof. unfold wrapper_getitem. solve_quiet. Qed.

Lemma quiet_update_col {dtypes : Dtypes} name c s d cast :
  quiet (update_col_from_series name c s d cast).
Proof. unfold update_col_from_series. solve_quiet. Qed.

Lemma quiet_add_column name c s : quiet (add_column name c s).
Proof. unfold add_column. solve_quiet. Qed.

Lemma quiet_print_unplaced df fieldname : quiet (_print_number_unplaced df fieldname).
Proof.
  unfold _print_number_unplaced.
  apply quiet_bind; [apply quiet_wrapper_getitem|]. intros ?. solve_quiet.
Qed.

Lemma quiet_check_columns df n cols fail : quiet (check_columns df n cols fail).
Proof.
  revert fail. induction cols as [|c cols IH]; intros fail; cbn [check_columns].
  - apply quiet_ret.
  - case_bool_decide; [|apply IH].
    apply quiet_bind; [apply quiet_print|]. intros _. apply IH.
Qed.

Lemma quiet_check_nas df : quiet (check_nas df).
Proof.
  unfold check_nas. apply quiet_bind; [apply quiet_check_columns|].
  intros []; solve_quiet.
Qed.

Lemma quiet_remove_developed old new ts :
  quiet (_remove_developed_buildings old new ts).
Proof.
  unfold _remove_developed_buildings, record_dropped, unplace_one.
  solve_quiet.
Qed.

(** ** Statements that do not draw *)

Lemma drawless_bind {A B : Type} (m : M A) (f : A → M B) :
  drawless m → (∀ a, drawless (f a)) → drawless (m ≫= f).
Proof.
  intros Hm Hf w r w'. rewrite bind_run.
  destruct (m w) as [[a|e] w1] eqn:Hrun.
  - intros Hrest. apply Hf in Hrest. apply Hm in Hrun. congruence.
  - intros [= <- <-]. by apply Hm in Hrun.
Qed.

Lemma drawless_ret {A : Type} (a : A) : drawless (mret a).
Proof. by intros w r w' [= <- <-]. Qed.

Lemma drawless_raise {A : Type} (e : exn) : drawless (raise (A := A) e).
Proof. by intros w r w' [= <- <-]. Qed.

Lemma drawless_lift {A : Type} (x : res A) : drawless (lift x).
Proof. by intros w r w' [= <- <-]. Qed.

Lemma drawless_registry : drawless registry.
Proof. by intros w r w' [= <- <-]. Qed.

Lemma drawless_note c : drawless (note c).
Proof. by intros w r w' [= <- <-]. Qed.

Lemma drawless_print t xs : drawless (print t xs).
Proof. by intros w r w' [= <- <-]. Qed.

Lemma drawless_printed {A : Type} (x : res A * list line) : drawless (printed x).
Proof. by intros w r w' [= <- <-]. Qed.

Lemma drawless_print_format t xs : drawless (print_format t xs).
Proof. intros w r w' Hrun. by apply print_format_tables in Hrun as (_ & ? & _). Qed.

Lemma drawless_get_table name : drawless (get_table name).
Proof.
  intros w r w'. unfold get_table.
  destruct (TABLES w !! name); by intros [= <- <-].
Qed.

Lemma drawless_add_table name df : drawless (add_table name df).
Proof. by intros w r w' [= <- <-]. Qed.

Lemma drawless_is_registered name : drawless (is_registered name).
Proof. by intros w r w' [= <- <-]. Qed.

Lemma drawless_for_each {A : Type} (xs : list A) (body : A → M unit) :
  (∀ x, drawless (body x)) → drawless (for_each xs body).
Proof.
  intros Hbody. induction xs as [|x xs IH]; [apply drawless_ret|].
  cbn [for_each]. apply drawless_bind; [apply Hbody|]. intros _. apply IH.
Qed.

Ltac drawless_step :=
  first
    [ apply drawless_ret | apply drawless_raise | apply drawless_lift
    | apply drawless_registry | apply drawless_note | apply drawless_print
    | apply drawless_printed | apply drawless_print_format
    | apply drawless_get_table | apply drawless_add_table
    | apply drawless_is_registered
    | apply drawless_bind; [|intros ?]
    | apply drawless_for_each; intros ? ].

Ltac drawless_cases :=
  match goal with
  | |- drawless (match ?x with _ => _ end) => destruct x
  | |- drawless (if ?b then _ else _) => destruct b
  end.

Ltac solve_drawless := repeat (first [drawless_step | drawless_cases]).

Lemma drawless_remove_developed old new ts :
  drawless (_remove_developed_buildings old new ts).
Proof.
  unfold _remove_developed_buildings, record_dropped, unplace_one.
  solve_drawless.
Qed.

Lemma drawless_update_col {dtypes : Dtypes} name c s d cast :
  drawless (update_col_from_series name c s d cast).
Proof. unfold update_col_from_series. solve_drawless. Qed.

Lemma drawless_wrapper_getitem name c : drawless (wrapper_getitem name c).
Proof. unfold wrapper_getitem. solve_drawless. Qed.

Lemma drawless_print_unplaced df fieldname :
  drawless (_print_number_unplaced df fieldname).
Proof.
  unfold _print_number_unplaced.
  apply drawless_bind; [apply drawless_wrapper_getitem|]. intros ?.
  apply drawless_print_format.
Qed.

(** ** The developer driver: how many units to build *)

Section DevelopmentProperties.
Context {developer : Developer}.

Lemma target_units_of_nonzero agents buildings supply_fname vacancy (n : Z) w :
  n ≠ 0 →
  target_units_of agents buildings supply_fname vacancy (Some n) w = (Ok n, w).
Proof. intros Hn. unfold target_units_of. cbn. by rewrite decide_False. Qed.

Lemma target_units_of_computed agents buildings supply_fname vacancy w
    (agents_df buildings_df : DataFrame) (supply : Series) :
  TABLES w !! agents = Some agents_df →
  TABLES w !! buildings = Some buildings_df →
  getitem buildings_df supply_fname = Ok supply →
  target_units_of agents buildings supply_fname vacancy None w
  = printed (compute_units_to_build (len agents_df) (sum_cells supply.*2)
               vacancy) w.
Proof.
  intros Ha Hb Hs. unfold target_units_of. cbn [truthy].
  unfold wrapper_len, wrapper_getitem.
  rewrite !bind_run. unfold get_table at 1. rewrite Ha.
  unfold mret at 1, M_ret at 1. rewrite !bind_run. unfold get_table. rewrite Hb.
  unfold lift. by rewrite Hs.
Qed.

(** What [run_developer] does once the target is known: it notes the call,
    hands the target to [pick] and, unless buildings were picked, returns
    with the developer's feasibility registered.  Nothing after [pick]
    draws or calls a collaborator. *)
Lemma run_developer_picks forms agents buildings supply_fname options feasibility
    year vacancy callback1 callback2 remove unplace num (w w1 : world)
    (feasibility_df : DataFrame) (target : Z) :
  TABLES w !! feasibility = Some feasibility_df →
  target_units_of agents buildings supply_fname vacancy num w = (Ok target, w1) →
  let run := run_developer forms agents buildings supply_fname options
               feasibility year vacancy callback1 callback2 remove unplace num in
  calls (run w).2 = calls w1 ++ [CallPick target]
  ∧ ∀ picked g, pick feasibility_df forms target options (rng w1) = (picked, g) →
      rng (run w).2 = g
      ∧ match picked with
        | Raise e =>
            run w = (Raise e, World (TABLES w1) (stdout w1) g
                                    (calls w1 ++ [CallPick target]))
        | Ok (new_buildings, dev_feasibility) =>
            (∀ df, new_buildings = Some df → len df = 0) →
            run w = (Ok new_buildings,
                     World (<["feasibility" := dev_feasibility]> (TABLES w1))
                           (stdout w1) g (calls w1 ++ [CallPick target]))
        end.
Proof.
  intros Hf Ht run.
  assert (∃ rest : option DataFrame * DataFrame → M (option DataFrame),
            run w
            = match pick feasibility_df forms target options (rng w1) with
              | (Ok a, g) =>
                  rest a (World (TABLES w1) (stdout w1) g
                                (calls w1 ++ [CallPick target]))
              | (Raise e, g) =>
                  (Raise e, World (TABLES w1) (stdout w1) g
                                  (calls w1 ++ [CallPick target]))
              end
            ∧ (∀ a, quiet (rest a) ∧ drawless (rest a))
            ∧ (∀ new_buildings dev_feasibility w2,
                 (∀ df, new_buildings = Some df → len df = 0) →
                 rest (new_buildings, dev_feasibility) w2
                 = (Ok new_buildings,
                    World (<["feasibility" := dev_feasibility]> (TABLES w2))
                          (stdout w2) (rng w2) (calls w2))))
    as (rest & Hrun & Hrest & Hnone).
  { eexists. split; [|split].
    - unfold run, run_developer.
      rewrite bind_run. unfold get_table at 1. rewrite Hf.
      rewrite bind_run, Ht. rewrite bind_run. unfold note at 1.
      rewrite bind_run. unfold draw at 1. cbn [TABLES rng calls stdout].
      destruct (pick feasibility_df forms target options (rng w1))
        as [[a|e] g]; reflexivity.
    - intros [new_buildings dev_feasibility]. split.
      + apply quiet_bind; [apply quiet_add_table|]. intros _.
        destruct new_buildings as [new_buildings|]; [|apply quiet_ret].
        case_bool_decide; [apply quiet_ret|].
        apply quiet_bind; [apply quiet_lift|]. intros _.
        apply quiet_bind; [apply quiet_lift|]. intros new_supply.
        apply quiet_bind; [apply quiet_print_format|]. intros _.
        apply quiet_bind; [apply quiet_print_format|]. intros _.
        apply quiet_bind; [apply quiet_get_table|]. intros old_buildings.
        apply quiet_bind; [apply quiet_lift|]. intros new_buildings'.
        apply quiet_bind.
        { destruct remove; [apply quiet_remove_developed|apply quiet_ret]. }
        intros old_buildings'. destruct (merge _ _) as [all_buildings new_index].
        case_bool_decide; solve_quiet.
      + apply drawless_bind; [apply drawless_add_table|]. intros _.
        destruct new_buildings as [new_buildings|]; [|apply drawless_ret].
        case_bool_decide; [apply drawless_ret|].
        apply drawless_bind; [apply drawless_lift|]. intros _.
        apply drawless_bind; [apply drawless_lift|]. intros new_supply.
        apply drawless_bind; [apply drawless_print_format|]. intros _.
        apply drawless_bind; [apply drawless_print_format|]. intros _.
        apply drawless_bind; [apply drawless_get_table|]. intros old_buildings.
        apply drawless_bind; [apply drawless_lift|]. intros new_buildings'.
        apply drawless_bind.
        { destruct remove; [apply drawless_remove_developed|apply drawless_ret]. }
        intros old_buildings'. destruct (merge _ _) as [all_buildings new_index].
        case_bool_decide; solve_drawless.
    - intros new_buildings dev_feasibility w2 Hnothing. cbv beta iota.
      rewrite bind_run. unfold add_table at 1. cbn [TABLES rng calls stdout].
      destruct new_buildings as [new_buildings|]; [|done].
      by rewrite bool_decide_eq_true_2 by by apply Hnothing. }
  rewrite Hrun.
  destruct (pick feasibility_df forms target options (rng w1)) as [rp g0].
  split.
  - destruct rp as [a|e]; [|done].
    destruct (rest a _) as [r w3] eqn:Hrest_run.
    apply (proj1 (Hrest a)) in Hrest_run. cbn [snd]. by rewrite Hrest_run.
  - intros picked g [= <- <-]. split.
    + destruct rp as [a|e]; [|done].
      destruct (rest a _) as [r w3] eqn:Hrest_run.
      apply (proj2 (Hrest a)) in Hrest_run. cbn [snd]. by rewrite Hrest_run.
    + destruct rp as [[new_buildings dev_feasibility]|e]; [|done].
      intros Hnothing. by rewrite Hnone.
Qed.

(** C9: [num_units_to_build = 0] does not ask for zero units.  A zero runs
    [run_developer] exactly as [None] does: the target is computed by
    [compute_units_to_build] from the number of agents, the current supply
    and the target vacancy; when that raises, the run raises before [pick]
    is called; otherwise it is the computed target that [pick] is handed,
    so that what [pick] does with it is what the run does: it raises what
    [pick] raises, moves the generator as [pick] does and, nothing being
    picked, returns with the feasibility [pick] left.  A value other than
    zero is handed to [pick] as it is, and nothing is computed. *)
Theorem zero_units_to_build_is_computed
    forms agents buildings supply_fname options feasibility year vacancy
    callback1 callback2 remove unplace (w : world)
    (feasibility_df agents_df buildings_df : DataFrame) (supply : Series) :
  TABLES w !! feasibility = Some feasibility_df →
  TABLES w !! agents = Some agents_df →
  TABLES w !! buildings = Some buildings_df →
  getitem buildings_df supply_fname = Ok supply →
  let computed :=
    compute_units_to_build (len agents_df) (sum_cells supply.*2) vacancy in
  let run := run_developer forms agents buildings supply_fname options
               feasibility year vacancy callback1 callback2 remove unplace in
  run (Some 0) w = run None w
  ∧ (∀ e, computed.1 = Raise e →
       run None w = (Raise e, World (TABLES w) (stdout w ++ computed.2)
                                    (rng w) (calls w)))
  ∧ (∀ target, computed.1 = Ok target →
       calls (run None w).2 = calls w ++ [CallPick target]
       ∧ ∀ picked g,
           pick feasibility_df forms target options (rng w) = (picked, g) →
           rng (run None w).2 = g
           ∧ match picked with
             | Raise e =>
                 run None w
                 = (Raise e, World (TABLES w) (stdout w ++ computed.2) g
                                   (calls w ++ [CallPick target]))
             | Ok (new_buildings, dev_feasibility) =>
                 (∀ df, new_buildings = Some df → len df = 0) →
                 run None w
                 = (Ok new_buildings,
                    World (<["feasibility" := dev_feasibility]> (TABLES w))
                          (stdout w ++ computed.2) g
                          (calls w ++ [CallPick target]))
             end)
  ∧ (∀ n, n ≠ 0 →
       calls (run (Some n) w).2 = calls w ++ [CallPick n]
       ∧ ∀ picked g,
           pick feasibility_df forms n options (rng w) = (picked, g) →
           rng (run (Some n) w).2 = g
           ∧ match picked with
             | Raise e =>
                 run (Some n) w
                 = (Raise e, World (TABLES w) (stdout w) g
                                   (calls w ++ [CallPick n]))
             | Ok (new_buildings, dev_feasibility) =>
                 (∀ df, new_buildings = Some df → len df = 0) →
                 run (Some n) w
                 = (Ok new_buildings,
                    World (<["feasibility" := dev_feasibility]> (TABLES w))
                          (stdout w) g (calls w ++ [CallPick n]))
             end).
Proof.
  intros Hf Ha Hb Hs computed run.
  assert (run (Some 0) w = run None w) as Hsame by reflexivity.
  split; [done|].
  pose proof (target_units_of_computed agents buildings supply_fname vacancy w
                agents_df buildings_df supply Ha Hb Hs) as Htarget.
  fold computed in Htarget. split; [|split].
  - intros e He. unfold run, run_developer.
    rewrite bind_run. unfold get_table at 1. rewrite Hf.
    rewrite bind_run, Htarget. unfold printed. by rewrite He.
  - intros target Hcomputed.
    assert (target_units_of agents buildings supply_fname vacancy None w
            = (Ok target, World (TABLES w) (stdout w ++ computed.2) (rng w)
                                (calls w))) as Ht.
    { rewrite Htarget. unfold printed. by rewrite Hcomputed. }
    apply (run_developer_picks forms agents buildings supply_fname options
             feasibility year vacancy callback1 callback2 remove unplace None
             w _ feasibility_df target Hf Ht).
  - intros n Hn.
    apply (run_developer_picks forms agents buildings supply_fname options
             feasibility year vacancy callback1 callback2 remove unplace
             (Some n) w w feasibility_df n Hf).
    by apply target_units_of_nonzero.
Qed.

End DevelopmentProperties.

Lemma zero_units_to_build_is_computed_witness :
  calls (run_developer (developer := idle_developer) (OneForm "residential")
           "households" "buildings" "residential_units" tt "feasibility"
           None (decimal 1 10) None None true ["households"] (Some 0)
           developer_world).2
  = [CallPick 1]
  ∧ (run_developer (developer := idle_developer) (OneForm "residential")
       "households" "buildings" "residential_units" tt "feasibility"
       None (decimal 1 10) None None true ["households"] (Some 0)
       developer_world).1
    = Ok None.
Proof.
  destruct (zero_units_to_build_is_computed (developer := idle_developer)
              (OneForm "residential") "households" "buildings"
              "residential_units" tt "feasibility" None (decimal 1 10) None
              None true ["households"] developer_world sample_feasibility
              sample_households sample_supply [(1, Num 2); (2, Num 1)]
              eq_refl eq_refl eq_refl eq_refl)
    as (Hsame & _ & Hpick & _).
  rewrite Hsame.
  destruct (Hpick 1) as [Hcalls Hrun]; [by vm_compute|].
  split; [exact Hcalls|].
  destruct (Hrun (Ok (None, sample_feasibility)) 0%N eq_refl) as [_ Hnone].
  rewrite Hnone; [done|]. by intros df [=].
Defined.

(** ** The NA check of joined frames *)

Lemma at_col_replace_inf (c : string) (r : row) :
  at_col c (Row (label r)
              ((λ v, match v with PosInf | NegInf => NaN | _ => v end) <$> vals r))
  = match at_col c r with PosInf | NegInf => NaN | v => v end.
Proof.
  unfold at_col. cbn. rewrite lookup_fmap.
  by destruct (vals r !! c) as [[]|].
Qed.

(** A column of the cleaned frame counts short exactly when the column
    holds a missing or infinite value. *)
Lemma count_short (df : DataFrame) (c : string) :
  len df ≠ count (replace_inf df) c ↔ Exists (λ r, is_na (at_col c r)) (rows df).
Proof.
  unfold len, count, replace_inf. cbn [rows].
  induction (rows df) as [|r rs IH].
  - cbn. split; [done|]. by intros ?%Exists_nil.
  - rewrite fmap_cons, filter_cons, Exists_cons, at_col_replace_inf.
    pose proof (length_filter (λ r : row, at_col c r ≠ NaN)
                  ((λ r, Row (label r)
                      ((λ v, match v with PosInf | NegInf => NaN | _ => v end)
                         <$> vals r)) <$> rs)) as Hle.
    rewrite length_fmap in Hle.
    case_decide as Hna.
    + cbn [length]. split.
      * intros Hne. right. apply IH. lia.
      * intros [Hr|Hrs].
        -- exfalso. destruct Hr as [Hr|[Hr|Hr]]; by rewrite Hr in Hna.
        -- apply IH in Hrs. lia.
    + cbn [length]. split; [|lia]. intros _. left.
      unfold is_na.
      destruct (at_col c r); try (exfalso; apply Hna; discriminate);
        auto.
Qed.

Lemma check_columns_run (df : DataFrame) (cols : list string) (fail : bool)
    (w : world) :
  ∃ out,
    check_columns (replace_inf df) (len df) cols fail w
    = (Ok (bool_decide
             (fail = true
              ∨ Exists (λ c, Exists (λ r, is_na (at_col c r)) (rows df)) cols)),
       World (TABLES w) out (rng w) (calls w))
    ∧ (¬ Exists (λ c, Exists (λ r, is_na (at_col c r)) (rows df)) cols →
       out = stdout w).
Proof.
  revert fail w. induction cols as [|c cols IH]; intros fail w.
  - exists (stdout w). cbn. split; [|done]. destruct w. cbn. do 2 f_equal.
    destruct fail.
    + by rewrite bool_decide_eq_true_2 by by left.
    + rewrite bool_decide_eq_false_2; [done|].
      intros [?|?%Exists_nil]; done.
  - cbn [check_columns]. case_bool_decide as Hshort.
    + apply count_short in Hshort.
      rewrite bind_run. unfold print at 1.
      edestruct (IH true) as [out [-> _]]. cbn [TABLES rng calls].
      exists out. split.
      * do 2 f_equal. rewrite !bool_decide_eq_true_2; [done|..].
        -- right. by left.
        -- by left.
      * intros Hnone. exfalso. apply Hnone. by left.
    + destruct (IH fail w) as [out [-> Hout]]. exists out. split.
      * do 2 f_equal. apply bool_decide_ext. rewrite Exists_cons.
        rewrite <- count_short. tauto.
      * intros Hnone. apply Hout. intros Hex. apply Hnone. by right.
Qed.

Lemma check_nas_run (df : DataFrame) (w : world) :
  if decide (has_na df) then
    ∃ out, check_nas df w
           = (Raise (AssertionError "NAs were found in dataframe, please fix"),
              World (TABLES w) out (rng w) (calls w))
  else check_nas df w = (Ok tt, w).
Proof.
  unfold check_nas. rewrite bind_run.
  destruct (check_columns_run df (columns df) false w) as [out [Hrun Hout]].
  change (columns (replace_inf df)) with (columns df). rewrite Hrun.
  unfold has_na. destruct (decide (Exists _ (columns df))) as [Hna|Hna].
  - rewrite bool_decide_eq_true_2 by (by right). by exists out.
  - rewrite bool_decide_eq_false_2 by (intros [?|?]; done).
    rewrite Hout by done. by destruct w.
Qed.

Section FrameProperties.
Context {orca : Orca} {urbansim : Urbansim}.

(** C8: [to_frame] checks every frame it produces.  A frame it returns is
    the joined frame itself, with no missing or infinite value in any column;
    and once the join has produced a frame, [to_frame] raises if and only if
    some column of that frame holds a missing or infinite value, and what it
    raises then is the failed assertion of [check_nas]. *)
Theorem to_frame_raises_iff_na
    (tbl : option string) (join_tbls : join_arg) (cfg : string)
    (additional_columns : list string) (w : world) :
  (∀ df w', to_frame tbl join_tbls cfg additional_columns w = (Ok df, w') →
     joined_frame tbl join_tbls cfg additional_columns w = (Ok df, w')
     ∧ ¬ has_na df)
  ∧ (∀ df w1,
       joined_frame tbl join_tbls cfg additional_columns w = (Ok df, w1) →
       ((∃ e w', to_frame tbl join_tbls cfg additional_columns w = (Raise e, w'))
        ↔ has_na df)
       ∧ (has_na df →
          ∃ w', to_frame tbl join_tbls cfg additional_columns w
                = (Raise (AssertionError "NAs were found in dataframe, please fix"),
                   w')
                ∧ TABLES w' = TABLES w1)
       ∧ (¬ has_na df →
          to_frame tbl join_tbls cfg additional_columns w = (Ok df, w1))).
Proof.
  assert (∀ df w1,
    joined_frame tbl join_tbls cfg additional_columns w = (Ok df, w1) →
    (has_na df →
       ∃ w', to_frame tbl join_tbls cfg additional_columns w
             = (Raise (AssertionError "NAs were found in dataframe, please fix"),
                w')
             ∧ TABLES w' = TABLES w1)
    ∧ (¬ has_na df →
       to_frame tbl join_tbls cfg additional_columns w = (Ok df, w1))) as Hcases.
  { intros df w1 Hjoin. unfold to_frame. rewrite bind_run, Hjoin, bind_run.
    pose proof (check_nas_run df w1) as Hcheck.
    case_decide as Hna.
    - destruct Hcheck as [out ->]. split; [|done]. intros _. by eexists.
    - rewrite Hcheck. split; [done|]. by intros _. }
  split.
  - intros df w' Hrun.
    destruct (joined_frame tbl join_tbls cfg additional_columns w)
      as [[df1|e] w1] eqn:Hjoin.
    + destruct (Hcases df1 w1 eq_refl) as [Hbad Hgood].
      destruct (decide (has_na df1)) as [Hna|Hna].
      * destruct (Hbad Hna) as [w2 [Hraise _]]. congruence.
      * rewrite (Hgood Hna) in Hrun. by injection Hrun as <- <-.
    + unfold to_frame in Hrun. rewrite bind_run, Hjoin in Hrun. done.
  - intros df w1 Hjoin. destruct (Hcases df w1 Hjoin) as [Hbad Hgood].
    split; [|done]. split.
    + intros (e & w' & Hraise).
      destruct (decide (has_na df)) as [Hna|Hna]; [done|].
      rewrite (Hgood Hna) in Hraise. done.
    + intros Hna. destruct (Hbad Hna) as [w' [Hraise _]]. by eexists _, _.
Qed.

End FrameProperties.

Lemma to_frame_raises_iff_na_witness :
  ∃ w', to_frame (orca := plain_orca) (urbansim := sample_urbansim) (Some "households") (JoinList [])
          "hlcm.yaml" ["building_id"; "income"] gappy_world
        = (Raise (AssertionError "NAs were found in dataframe, please fix"), w')
        ∧ TABLES w' = TABLES gappy_world.
Proof.
  refine (proj1 (proj2
    (proj2 (to_frame_raises_iff_na (orca := plain_orca) (urbansim := sample_urbansim)
              (Some "households") (JoinList []) "hlcm.yaml" ["building_id"; "income"]
              gappy_world) sample_gappy gappy_world _)) _).
  - by vm_compute.
  - unfold has_na. apply Exists_cons. right. apply Exists_cons. left.
    apply Exists_cons. right. apply Exists_cons. left. by left.
Defined.

(** ** The transition controller without its control-total column *)

Section TransitionProperties.
Context {orca : Orca} {transitions : Transition}.

(** The line printed for each linked table: two fields, one tuple. *)
Lemma linked_line_raises (table_name : string) (n : Z) (w : world) :
  print_format "Total {} before transition: {:,}"
    [APair (AStr table_name) (AInt n)] w
  = (Raise (IndexError "Replacement index out of range"), w).
Proof. reflexivity. Qed.

(** Without the key the call never gets to the transition model: it raises
    and leaves the registry, the generator and the call log as they were. *)
Lemma full_transition_missing_total agents agent_controls year settings
    location_fname linked_tables (w : world) :
  settings !! "total_column" = None →
  ∃ e w', full_transition agents agent_controls year settings location_fname
            linked_tables w = (Raise e, w')
          ∧ TABLES w' = TABLES w ∧ rng w' = rng w ∧ calls w' = calls w.
Proof.
  intros Hkey. unfold full_transition.
  rewrite bind_run. unfold get_table at 1.
  destruct (TABLES w !! agent_controls) as [ct|]; [|by eexists _, _].
  rewrite bind_run. unfold get_table at 1.
  destruct (TABLES w !! agents) as [local|]; [|by eexists _, _].
  rewrite bind_run.
  assert (∃ r, (match settings !! "add_columns" with
                | None => mret []
                | Some (SList cols) => mret cols
                | Some (SStr _) => raise (TypeError "can only concatenate list to list")
                end : M (list string)) w = (r, w)) as [r ->].
  { destruct (settings !! "add_columns") as [[]|]; by eexists. }
  destruct r as [add_columns|e]; [|by eexists _, _].
  rewrite bind_run. unfold registry at 1. rewrite bind_run. unfold lift at 1.
  destruct (wrapper_to_frame _ _ _) as [hh|e]; [|by eexists _, _].
  rewrite bind_run.
  rewrite print_format_run by (vm_compute; reflexivity).
  rewrite bind_run.
  destruct (default [] linked_tables) as [|[table_name [table col]] rest].
  - cbn [for_each]. unfold mret at 1, M_ret at 1.
    rewrite bind_run, Hkey. unfold raise. by eexists _, _.
  - cbn [for_each]. rewrite bind_run, linked_line_raises. by eexists _, _.
Qed.

(** With no linked table, and the two tables and the frame of the agents at
    hand, what is raised is the missing key. *)
Lemma full_transition_missing_total_key agents agent_controls year settings
    location_fname linked_tables (w : world) (ct local hh : DataFrame)
    (add_columns : list string) :
  settings !! "total_column" = None →
  default [] linked_tables = [] →
  TABLES w !! agent_controls = Some ct →
  TABLES w !! agents = Some local →
  (settings !! "add_columns" = None ∧ add_columns = []
   ∨ settings !! "add_columns" = Some (SList add_columns)) →
  wrapper_to_frame (TABLES w) agents (columns local ++ add_columns) = Ok hh →
  ∃ w', full_transition agents agent_controls year settings location_fname
          linked_tables w = (Raise (KeyError "total_column"), w')
        ∧ TABLES w' = TABLES w.
Proof.
  intros Hkey Hlinked Hct Hlocal Hadd Hhh. unfold full_transition.
  rewrite bind_run. unfold get_table at 1. rewrite Hct.
  rewrite bind_run. unfold get_table at 1. rewrite Hlocal.
  rewrite bind_run.
  assert ((match settings !! "add_columns" with
           | None => mret []
           | Some (SList cols) => mret cols
           | Some (SStr _) => raise (TypeError "can only concatenate list to list")
           end : M (list string)) w = (Ok add_columns, w)) as ->.
  { by destruct Hadd as [[-> ->]| ->]. }
  rewrite bind_run. unfold registry at 1. rewrite bind_run. unfold lift at 1.
  rewrite Hhh, bind_run.
  rewrite print_format_run by (vm_compute; reflexivity).
  rewrite bind_run, Hlinked. cbn [for_each]. unfold mret at 1, M_ret at 1.
  rewrite bind_run, Hkey. unfold raise. by eexists.
Qed.

(** C7, at the inputs where the code departs from it: when a linked table
    is passed, [full_transition] raises the [IndexError] of the malformed
    line printed before the transition, whether or not the settings hold the
    key ["total_column"]; the registry is left as it was. *)
Theorem full_transition_linked_tables_raise_index_error
    agents agent_controls year settings location_fname
    (entry : string * (DataFrame * string))
    (rest : list (string * (DataFrame * string))) (w : world)
    (ct local hh : DataFrame) (add_columns : list string) :
  TABLES w !! agent_controls = Some ct →
  TABLES w !! agents = Some local →
  (settings !! "add_columns" = None ∧ add_columns = []
   ∨ settings !! "add_columns" = Some (SList add_columns)) →
  wrapper_to_frame (TABLES w) agents (columns local ++ add_columns) = Ok hh →
  ∃ w', full_transition agents agent_controls year settings location_fname
          (Some (entry :: rest)) w
        = (Raise (IndexError "Replacement index out of range"), w')
        ∧ TABLES w' = TABLES w.
Proof.
  intros Hct Hlocal Hadd Hhh. unfold full_transition.
  rewrite bind_run. unfold get_table at 1. rewrite Hct.
  rewrite bind_run. unfold get_table at 1. rewrite Hlocal.
  rewrite bind_run.
  assert ((match settings !! "add_columns" with
           | None => mret []
           | Some (SList cols) => mret cols
           | Some (SStr _) => raise (TypeError "can only concatenate list to list")
           end : M (list string)) w = (Ok add_columns, w)) as ->.
  { by destruct Hadd as [[-> ->]| ->]. }
  rewrite bind_run. unfold registry at 1. rewrite bind_run. unfold lift at 1.
  rewrite Hhh, bind_run.
  rewrite print_format_run by (vm_compute; reflexivity).
  rewrite bind_run. destruct entry as [table_name [table col]].
  change (default [] (Some ((table_name, (table, col)) :: rest)))
    with ((table_name, (table, col)) :: rest).
  cbn [for_each]. rewrite bind_run, linked_line_raises. by eexists.
Qed.

End TransitionProperties.

Lemma full_transition_linked_tables_raise_index_error_witness :
  ∃ w', full_transition (orca := plain_orca)
          (transitions := still_transition)
          "households" "household_controls" 2015 ∅ "building_id"
          (Some [("persons", (sample_persons, "household_id"))])
          transition_world
        = (Raise (IndexError "Replacement index out of range"), w')
        ∧ TABLES w' = TABLES transition_world.
Proof.
  refine (full_transition_linked_tables_raise_index_error
            (orca := plain_orca) (transitions := still_transition)
            "households" "household_controls" 2015 ∅ "building_id"
            ("persons", (sample_persons, "household_id")) [] transition_world
            sample_controls sample_households sample_households [] _ _ _ _).
  - by vm_compute.
  - by vm_compute.
  - left. by vm_compute.
  - by vm_compute.
Defined.

(** The same settings without a linked table raise the missing key. *)
Example full_transition_missing_key_example :
  (full_transition (orca := plain_orca) (transitions := still_transition)
     "households" "household_controls" 2015 ∅ "building_id" None
     transition_world).1
  = Raise (KeyError "total_column").
Proof. by vm_compute. Qed.

(** ** Reads and writes through a wrapper *)

Lemma wrapper_len_run name df w :
  TABLES w !! name = Some df → wrapper_len name w = (Ok (len df), w).
Proof.
  intros Hdf. unfold wrapper_len. rewrite bind_run. unfold get_table.
  by rewrite Hdf.
Qed.

Lemma wrapper_index_run name df w :
  TABLES w !! name = Some df → wrapper_index name w = (Ok (index df), w).
Proof.
  intros Hdf. unfold wrapper_index. rewrite bind_run. unfold get_table.
  by rewrite Hdf.
Qed.

Lemma wrapper_getitem_run name c df w :
  TABLES w !! name = Some df →
  wrapper_getitem name c w = (getitem df c, w).
Proof.
  intros Hdf. unfold wrapper_getitem. rewrite bind_run. unfold get_table.
  by rewrite Hdf.
Qed.

Lemma getitem_ok df c :
  c ∈ columns df → getitem df c = Ok ((λ r, (label r, at_col c r)) <$> rows df).
Proof. intros Hc. unfold getitem. by rewrite decide_True. Qed.

Lemma print_unplaced_run name fieldname df w :
  TABLES w !! name = Some df → fieldname ∈ columns df →
  ∃ out, _print_number_unplaced name fieldname w
         = (Ok tt, World (TABLES w) out (rng w) (calls w)).
Proof.
  intros Hdf Hc. unfold _print_number_unplaced.
  rewrite bind_run, (wrapper_getitem_run _ _ df) by done.
  rewrite getitem_ok by done.
  rewrite print_format_run by (vm_compute; reflexivity). by eexists.
Qed.





(** ** Relocation *)




Section RelocationProperties.
Context {sampler : Sampler} {dtypes : Dtypes}.


End RelocationProperties.




(** ** Taking statements apart *)

Lemma bind_ok_inv {A B : Type} (m : M A) (f : A → M B) (w w' : world) (b : B) :
  (m ≫= f) w = (Ok b, w') →
  ∃ a w1, m w = (Ok a, w1) ∧ f a w1 = (Ok b, w').
Proof.
  rewrite bind_run. destruct (m w) as [[a|e] w1]; [|done].
  intros Hrest. by exists a, w1.
Qed.

Lemma lift_ok_inv {A : Type} (x : res A) (w w' : world) (a : A) :
  lift x w = (Ok a, w') → x = Ok a ∧ w' = w.
Proof. by intros [= -> ->]. Qed.

Lemma ret_ok_inv {A : Type} (x a : A) (w w' : world) :
  mret (M := M) x w = (Ok a, w') → a = x ∧ w' = w.
Proof. by intros [= -> ->]. Qed.

(** ** Series *)

Lemma series_get_None (s : Series) (l : Z) : l ∉ s.*1 → series_get s l = None.
Proof.
  induction s as [|[l' v] s IH]; [done|]. cbn.
  intros Hnot. apply not_elem_of_cons in Hnot as [Hne Hnot].
  rewrite decide_False by done. by apply IH.
Qed.

Lemma series_get_elem (s : Series) (l : Z) (v : cell) :
  NoDup s.*1 → (l, v) ∈ s → series_get s l = Some v.
Proof.
  induction s as [|[l' v'] s IH]; [by intros _ ?%elem_of_nil|].
  cbn. intros [Hnot Hnodup]%NoDup_cons [Heq|Hin]%elem_of_cons.
  - injection Heq as <- <-. by rewrite decide_True.
  - rewrite decide_False; [by apply IH|].
    intros ->. apply Hnot. apply list_elem_of_fmap. by exists (l, v).
Qed.

Lemma positive_NoDup (s : Series) : NoDup s.*1 → NoDup (positive s).*1.
Proof.
  unfold positive. induction s as [|[l v] s IH]; [done|].
  rewrite fmap_cons. intros [Hnot Hnodup]%NoDup_cons. rewrite filter_cons.
  case_decide; [|by apply IH]. rewrite fmap_cons.
  apply NoDup_cons. split; [|by apply IH]. cbn [fst].
  intros [[l' v'] [Heq [_ Hin]%list_elem_of_filter]]%list_elem_of_fmap.
  cbn in Heq. subst. apply Hnot. apply list_elem_of_fmap. by exists (l', v').
Qed.

Lemma positive_get (s : Series) (l : Z) (v : cell) :
  NoDup s.*1 → (l, v) ∈ s →
  series_get (positive s) l = if cell_pos v then Some v else None.
Proof.
  intros Hnodup Hin. destruct (cell_pos v) eqn:Hpos.
  - apply series_get_elem; [by apply positive_NoDup|].
    by apply list_elem_of_filter.
  - apply series_get_None.
    intros [[l' v'] [Heq [Hpos' Hin']%list_elem_of_filter]]%list_elem_of_fmap.
    cbn in Heq, Hpos'. subst.
    assert (series_get s l' = Some v) as H1 by by apply series_get_elem.
    assert (series_get s l' = Some v') as H2 by by apply series_get_elem.
    congruence.
Qed.

Lemma filter_all {A : Type} (P : A → Prop) `{∀ x, Decision (P x)} (l : list A) :
  Forall P l → filter P l = l.
Proof.
  induction 1 as [|x l Hx Hl IH]; [done|].
  by rewrite filter_cons_True, IH.
Qed.

Lemma filter_none {A : Type} (P : A → Prop) `{∀ x, Decision (P x)} (l : list A) :
  Forall (λ x, ¬ P x) l → filter P l = [].
Proof.
  induction 1 as [|x l Hx Hl IH]; [done|].
  by rewrite filter_cons_False.
Qed.

(** ** [np.repeat] *)

(** How often [np_repeat] repeats a label. *)
Lemma np_repeat_count (s : Series) (idx : list Z) (l : Z) :
  NoDup s.*1 → np_repeat s = Ok idx →
  length (filter (λ i, i = l) idx)
  = match series_get s l with
    | Some (Num z) => Z.to_nat z
    | _ => 0%nat
    end.
Proof.
  revert idx. induction s as [|[l' v] s IH]; intros idx.
  - intros _ [= <-]. done.
  - cbn [fmap list_fmap fst]. intros [Hnot Hnodup]%NoDup_cons.
    cbn [np_repeat series_get]. destruct v as [z| | | |]; try done.
    case_bool_decide; [done|].
    destruct (np_repeat s) as [rest|] eqn:Hrest; [|done].
    cbn. intros [= <-]. rewrite filter_app, length_app.
    rewrite (IH rest) by done.
    destruct (decide (l' = l)) as [->|Hne].
    + rewrite series_get_None by done.
      rewrite filter_all, length_replicate by (by apply Forall_replicate).
      lia.
    + rewrite filter_none; [done|]. apply Forall_replicate. congruence.
Qed.

Lemma np_repeat_total (s : Series) (idx : list Z) :
  np_repeat s = Ok idx → Z.of_nat (length idx) = sum_cells s.*2 ∧ 0 ≤ sum_cells s.*2.
Proof.
  revert idx. induction s as [|[l v] s IH]; intros idx.
  - intros [= <-]. done.
  - cbn [np_repeat]. destruct v as [z| | | |]; try done.
    case_bool_decide; [done|].
    destruct (np_repeat s) as [rest|] eqn:Hrest; [|done].
    cbn. intros [= <-]. destruct (IH rest eq_refl) as [Hlen Hsum].
    unfold sum_cells in Hlen, Hsum.
    rewrite length_app, length_replicate. lia.
Qed.

(** ** Looking rows up by label *)

Lemma filter_label_unique (rs : list row) (l : Z) :
  NoDup (label <$> rs) → l ∈ label <$> rs →
  ∃ r, filter (λ r, label r = l) rs = [r] ∧ label r = l ∧ r ∈ rs.
Proof.
  induction rs as [|r rs IH]; [by intros _ ?%elem_of_nil|].
  rewrite fmap_cons. intros [Hnot Hnodup]%NoDup_cons Hin.
  rewrite filter_cons. case_decide as Heq.
  - exists r. split; [|split; [done|by left]]. f_equal.
    apply filter_none, Forall_forall. intros r' Hr' Heq'.
    apply Hnot. apply list_elem_of_fmap. exists r'. split; [congruence|done].
  - apply elem_of_cons in Hin as [->|Hin]; [done|].
    destruct (IH Hnodup Hin) as (r' & Hfilter & Hlabel & Hr').
    exists r'. split; [done|]. split; [done|]. by right.
Qed.

(** With unique labels [loc] returns one row for each label asked for, in
    the order asked. *)
Lemma loc_unique (df located : DataFrame) (labels : list Z) :
  NoDup (index df) → loc df labels = Ok located →
  index located = labels
  ∧ index_name located = index_name df ∧ columns located = columns df
  ∧ ∀ r, r ∈ rows located → r ∈ rows df.
Proof.
  intros Hnodup. unfold loc.
  destruct (res_map _ labels) as [rss|] eqn:Hmap; [|done].
  cbn. intros [= <-]. cbn [index_name columns]. unfold index. cbn [rows].
  split; [|split; [done|split; [done|]]].
  - revert rss Hmap. induction labels as [|l labels IH]; intros rss.
    + by intros [= <-].
    + cbn [res_map].
      destruct (filter (λ r, label r = l) (rows df)) as [|r0 found] eqn:Hfound;
        [done|].
      cbn. destruct (res_map _ labels) as [rss'|] eqn:Hmap'; [|done].
      cbn. intros [= <-].
      change (mjoin ((r0 :: found) :: rss')) with ((r0 :: found) ++ mjoin rss').
      rewrite fmap_app, (IH rss' eq_refl).
      destruct (filter_label_unique (rows df) l Hnodup) as (r & Hr & Hlabel & _).
      { assert (r0 ∈ filter (λ r, label r = l) (rows df)) as Hr0
          by (rewrite Hfound; by left).
        apply list_elem_of_filter in Hr0 as [<- Hr0].
        apply list_elem_of_fmap. by exists r0. }
      rewrite Hr in Hfound. injection Hfound as <- <-. cbn. by rewrite Hlabel.
  - revert rss Hmap. induction labels as [|l labels IH]; intros rss.
    + intros [= <-] r Hr. by apply elem_of_nil in Hr.
    + cbn [res_map].
      destruct (filter (λ r, label r = l) (rows df)) as [|r0 found] eqn:Hfound;
        [done|].
      cbn. destruct (res_map _ labels) as [rss'|] eqn:Hmap'; [|done].
      cbn. intros [= <-] r.
      change (mjoin ((r0 :: found) :: rss')) with ((r0 :: found) ++ mjoin rss').
      intros [Hr|Hr]%elem_of_app; [|by apply (IH rss' eq_refl)].
      rewrite <- Hfound in Hr. by apply list_elem_of_filter in Hr as [_ ?].
Qed.

(** ** Renumbered rows *)

Lemma renumber_count (name : string) (l i : Z) (rs : list row) :
  length (filter (λ u, at_col name u = Num l) (renumber name i rs))
  = length (filter (λ j, j = l) (label <$> rs)).
Proof.
  revert i. induction rs as [|r rs IH]; intros i; [done|].
  cbn [renumber]. rewrite fmap_cons, !filter_cons.
  assert (at_col name (Row i (<[name := Num (label r)]> (vals r)))
          = Num (label r)) as ->.
  { unfold at_col. cbn [vals]. by rewrite lookup_insert_eq. }
  destruct (decide (label r = l)) as [Heq|Hne].
  - rewrite decide_True by by rewrite Heq. cbn [length]. by rewrite IH.
  - rewrite decide_False by (intros [=]; done). apply IH.
Qed.

Lemma renumber_elem (name : string) (i : Z) (rs : list row) (u : row) :
  u ∈ renumber name i rs →
  ∃ r, r ∈ rs ∧ vals u = <[name := Num (label r)]> (vals r).
Proof.
  revert i. induction rs as [|r rs IH]; intros i; [by intros ?%elem_of_nil|].
  cbn [renumber]. intros [->|Hu]%elem_of_cons.
  - exists r. split; [by left|done].
  - destruct (IH _ Hu) as (r' & Hr' & Hvals). exists r'. split; [by right|done].
Qed.

Lemma renumber_length (name : string) (i : Z) (rs : list row) :
  length (renumber name i rs) = length rs.
Proof. revert i. induction rs as [|r rs IH]; intros i; cbn; [done|]. by rewrite IH. Qed.

Lemma filter_filter_count (P : Z → Prop) `{∀ x, Decision (P x)} (idx : list Z) (l : Z) :
  length (filter (λ i, i = l) (filter P idx))
  = if decide (P l) then length (filter (λ i, i = l) idx) else 0%nat.
Proof.
  induction idx as [|i idx IH]; [by destruct (decide (P l))|].
  rewrite !filter_cons. destruct (decide (P i)) as [Hi|Hi].
  - rewrite filter_cons. destruct (decide (i = l)) as [->|Hne].
    + rewrite decide_True by done. cbn [length]. rewrite IH.
      by rewrite decide_True.
    + exact IH.
  - rewrite IH. destruct (decide (i = l)) as [->|Hne]; [|done].
    by destruct (decide (P l)).
Qed.

(** ** Inversions of the small statements *)

Lemma print_format_ok_inv t xs w w' :
  print_format t xs w = (Ok tt, w') →
  w' = World (TABLES w) (stdout w ++ [Line t xs]) (rng w) (calls w).
Proof.
  unfold print_format. rewrite bind_run. unfold lift.
  destruct (check_fields _ _ _); [|done]. by intros [= <-].
Qed.

Lemma print_ok_inv t xs w w' :
  print t xs w = (Ok tt, w') →
  w' = World (TABLES w) (stdout w ++ [Line t xs]) (rng w) (calls w).
Proof. by intros [= <-]. Qed.

Lemma get_table_ok_inv name w w' df :
  get_table name w = (Ok df, w') → w' = w ∧ TABLES w !! name = Some df.
Proof.
  unfold get_table. destruct (TABLES w !! name); [|done]. by intros [= -> ->].
Qed.

Lemma wrapper_getitem_ok_inv name c w w' s :
  wrapper_getitem name c w = (Ok s, w') →
  w' = w ∧ ∃ df, TABLES w !! name = Some df ∧ getitem df c = Ok s.
Proof.
  unfold wrapper_getitem. intros (df & w1 & Hget & Hitem)%bind_ok_inv.
  apply get_table_ok_inv in Hget as [-> Hdf].
  apply lift_ok_inv in Hitem as [Hitem ->]. split; [done|]. by exists df.
Qed.

Lemma wrapper_len_ok_inv name w w' n :
  wrapper_len name w = (Ok n, w') →
  w' = w ∧ ∃ df, TABLES w !! name = Some df ∧ n = len df.
Proof.
  unfold wrapper_len. intros (df & w1 & Hget & Hret)%bind_ok_inv.
  apply get_table_ok_inv in Hget as [-> Hdf].
  apply ret_ok_inv in Hret as [-> ->]. split; [done|]. by exists df.
Qed.

Lemma check_nas_ok_inv df w w' :
  check_nas df w = (Ok tt, w') → w' = w ∧ ¬ has_na df.
Proof.
  intros Hrun. pose proof (check_nas_run df w) as Hcheck.
  destruct (decide (has_na df)) as [Hna|Hna].
  - destruct Hcheck as [out Hraise]. congruence.
  - rewrite Hcheck in Hrun. by injection Hrun as <-.
Qed.

Section ChoiceProperties.
Context {orca : Orca} {urbansim : Urbansim}.

Lemma joined_frame_world tbl join_tbls cfg additional_columns w r w' :
  joined_frame tbl join_tbls cfg additional_columns w = (r, w') → w' = w.
Proof.
  unfold joined_frame. rewrite bind_run. unfold lift at 1.
  destruct (yaml_to_class cfg) as [klass|]; [|by intros [= _ <-]].
  rewrite bind_run. unfold lift at 1.
  destruct (from_yaml klass cfg) as [m|]; [|by intros [= _ <-]].
  rewrite bind_run. unfold registry at 1.
  rewrite bind_run. unfold lift at 1.
  destruct (columns_used m) as [used|]; [|by intros [= _ <-]].
  destruct (omap id (tbl :: _)) as [|t [|t' ts]]; by intros [= _ <-].
Qed.

Lemma to_frame_ok_inv tbl join_tbls cfg additional_columns w w' df :
  to_frame tbl join_tbls cfg additional_columns w = (Ok df, w') →
  w' = w ∧ ¬ has_na df.
Proof.
  unfold to_frame. intros (df1 & w1 & Hjoin & Hrest)%bind_ok_inv.
  apply joined_frame_world in Hjoin as ->.
  apply bind_ok_inv in Hrest as ([] & w2 & Hcheck & Hret).
  apply check_nas_ok_inv in Hcheck as [-> Hna].
  by apply ret_ok_inv in Hret as [-> ->].
Qed.

(** What a successful run of [candidate_units] computed. *)
Lemma candidate_units_inv (s : Series) (locations_df units : DataFrame)
    (missing : Z) (w w' : world) :
  candidate_units s locations_df w = (Ok (units, missing), w') →
  w' = w
  ∧ ∃ idx located,
      np_repeat s = Ok idx
      ∧ loc locations_df (filter (λ i, i ∈ index locations_df) idx) = Ok located
      ∧ reset_index located = Ok units.
Proof.
  unfold candidate_units. intros (idx & w1 & Hrepeat & Hrest)%bind_ok_inv.
  apply lift_ok_inv in Hrepeat as [Hrepeat ->].
  apply bind_ok_inv in Hrest as (located & w1 & Hloc & Hrest).
  apply lift_ok_inv in Hloc as [Hloc ->].
  apply bind_ok_inv in Hrest as (units1 & w1 & Hreset & Hrest).
  apply lift_ok_inv in Hreset as [Hreset ->].
  apply bind_ok_inv in Hrest as ([] & w1 & Hcheck & Hret).
  apply check_nas_ok_inv in Hcheck as [-> _].
  apply ret_ok_inv in Hret as [[= -> ->] ->]. split; [done|].
  exists idx, located. split; [done|]. split; [|done].
  rewrite select_fmap in Hloc. rewrite <- Hloc. f_equal.
  apply list_filter_iff. intros i. by rewrite bool_decide_eq_true.
Qed.

(** The rows of the candidate units, building by building, when the
    labels of the locations frame and of the vacancies are unique. *)
Lemma candidate_units_rows (s : Series) (locations_df units : DataFrame)
    (missing : Z) (w w' : world) :
  NoDup (index locations_df) → NoDup s.*1 →
  candidate_units s locations_df w = (Ok (units, missing), w') →
  (∀ l, length (units_of (index_name locations_df) l units)
        = if decide (l ∈ index locations_df) then
            match series_get s l with
            | Some (Num z) => Z.to_nat z
            | _ => 0%nat
            end
          else 0%nat)
  ∧ (∀ u, u ∈ rows units →
       ∃ r, r ∈ rows locations_df
            ∧ vals u = <[index_name locations_df := Num (label r)]> (vals r)).
Proof.
  intros Hnodup Hlabels Hrun.
  apply candidate_units_inv in Hrun as (_ & idx & located & Hrepeat & Hloc & Hreset).
  apply loc_unique in Hloc as (Hindex & Hname & Hcols & Hrows); [|done].
  unfold reset_index in Hreset. case_decide; [done|]. injection Hreset as <-.
  rewrite Hname. unfold units_of. cbn [rows]. split.
  - intros l. rewrite renumber_count. fold (index located). rewrite Hindex.
    rewrite filter_filter_count. case_decide; [|done].
    by apply np_repeat_count.
  - intros u (r & Hr & Hvals)%renumber_elem. exists r. split; [by apply Hrows|done].
Qed.

Lemma np_repeat_labels (s : Series) (idx : list Z) (i : Z) :
  np_repeat s = Ok idx → i ∈ idx → i ∈ s.*1.
Proof.
  revert idx. induction s as [|[l v] s IH]; intros idx.
  - intros [= <-] Hi. by apply elem_of_nil in Hi.
  - cbn [np_repeat]. destruct v as [z| | | |]; try done.
    case_bool_decide; [done|].
    destruct (np_repeat s) as [rest|] eqn:Hrest; [|done].
    cbn. intros [= <-] [Hi|Hi]%elem_of_app.
    + apply elem_of_replicate in Hi as [-> _]. by left.
    + right. by apply (IH rest).
Qed.

(** When no vacant building is missing from the locations frame, there are
    as many candidate units as vacant units. *)
Lemma candidate_units_len (s : Series) (locations_df units : DataFrame)
    (missing : Z) (w w' : world) :
  NoDup (index locations_df) →
  candidate_units s locations_df w = (Ok (units, missing), w') →
  0 ≤ sum_cells s.*2
  ∧ ((∀ l, l ∈ s.*1 → l ∈ index locations_df) → len units = sum_cells s.*2).
Proof.
  intros Hnodup Hrun.
  apply candidate_units_inv in Hrun as (_ & idx & located & Hrepeat & Hloc & Hreset).
  split; [by apply (np_repeat_total s idx)|]. intros Hall.
  apply loc_unique in Hloc as (Hindex & Hname & Hcols & Hrows); [|done].
  unfold reset_index in Hreset. case_decide; [done|]. injection Hreset as <-.
  unfold len. cbn [rows]. rewrite renumber_length.
  rewrite <- (length_fmap label). fold (index located). rewrite Hindex.
  rewrite filter_all; [by apply np_repeat_total|].
  apply Forall_forall. intros i Hi. apply Hall. by eapply np_repeat_labels.
Qed.

Lemma candidate_units_total (s : Series) (locations_df units : DataFrame)
    (missing : Z) (w w' : world) :
  candidate_units s locations_df w = (Ok (units, missing), w') →
  0 ≤ sum_cells s.*2.
Proof.
  intros Hrun.
  apply candidate_units_inv in Hrun as (_ & idx & located & Hrepeat & _).
  by apply (np_repeat_total s idx).
Qed.

End ChoiceProperties.

(** ** Statements that only add output *)

Lemma extends_bind {A B : Type} (m : M A) (f : A → M B) :
  extends m → (∀ a, extends (f a)) → extends (m ≫= f).
Proof.
  intros Hm Hf w r w'. rewrite bind_run.
  destruct (m w) as [[a|e] w1] eqn:Hrun.
  - intros Hrest. apply Hf in Hrest as [more2 ->].
    apply Hm in Hrun as [more1 ->]. exists (more1 ++ more2). by rewrite app_assoc.
  - intros [= <- <-]. by apply Hm in Hrun.
Qed.

Lemma extends_same {A : Type} (m : M A) :
  (∀ w r w', m w = (r, w') → stdout w' = stdout w) → extends m.
Proof.
  intros Hsame w r w' Hrun. exists []. rewrite app_nil_r. by eapply Hsame.
Qed.

Lemma extends_ret {A : Type} (a : A) : extends (mret a).
Proof. apply extends_same. by intros w r w' [= <- <-]. Qed.

Lemma extends_raise {A : Type} (e : exn) : extends (raise (A := A) e).
Proof. apply extends_same. by intros w r w' [= <- <-]. Qed.

Lemma extends_lift {A : Type} (x : res A) : extends (lift x).
Proof. apply extends_same. by intros w r w' [= <- <-]. Qed.

Lemma extends_registry : extends registry.
Proof. apply extends_same. by intros w r w' [= <- <-]. Qed.

Lemma extends_note c : extends (note c).
Proof. apply extends_same. by intros w r w' [= <- <-]. Qed.

Lemma extends_print t xs : extends (print t xs).
Proof. intros w r w' [= <- <-]. by eexists. Qed.

Lemma extends_print_format t xs : extends (print_format t xs).
Proof.
  unfold print_format. apply extends_bind; [apply extends_lift|].
  intros _. apply extends_print.
Qed.

Lemma extends_get_table name : extends (get_table name).
Proof.
  apply extends_same. intros w r w'. unfold get_table.
  by destruct (TABLES w !! name); intros [= <- <-].
Qed.

Lemma extends_add_table name df : extends (add_table name df).
Proof. apply extends_same. by intros w r w' [= <- <-]. Qed.

Lemma extends_draw {A : Type} (f : N → res A * N) : extends (draw f).
Proof.
  apply extends_same. intros w r w'. unfold draw.
  destruct (f (rng w)). by intros [= <- <-].
Qed.

Ltac extends_step :=
  first
    [ apply extends_ret | apply extends_raise | apply extends_lift
    | apply extends_registry | apply extends_note | apply extends_print
    | apply extends_print_format | apply extends_get_table
    | apply extends_add_table | apply extends_draw
    | apply extends_bind; [|intros ?] ].

Ltac extends_cases :=
  match goal with
  | |- extends (match ?x with _ => _ end) => destruct x
  | |- extends (if ?b then _ else _) => destruct b
  end.

Ltac solve_extends := repeat (first [extends_step | extends_cases]).

Section SupplyProperties.
Context {orca : Orca} {urbansim : Urbansim} {dtypes : Dtypes}.

Lemma extends_correct_supply correction cfg buildings movers units :
  extends (correct_supply correction cfg buildings movers units).
Proof.
  unfold correct_supply, print_describe, wrapper_getitem, wrapper_index,
    add_column, update_col_from_series.
  solve_extends.
Qed.

Lemma quiet_clip_prices correction buildings :
  quiet (clip_prices correction buildings).
Proof.
  unfold clip_prices. destruct (price_col correction); [|apply quiet_raise].
  apply quiet_bind; [apply quiet_get_table|]. intros ?.
  apply quiet_bind; [apply quiet_lift|]. intros ?.
  apply quiet_update_col.
Qed.

Lemma drawless_clip_prices correction buildings :
  drawless (clip_prices correction buildings).
Proof.
  unfold clip_prices. destruct (price_col correction); [|apply drawless_raise].
  apply drawless_bind; [apply drawless_get_table|]. intros ?.
  apply drawless_bind; [apply drawless_lift|]. intros ?.
  apply drawless_update_col.
Qed.

End SupplyProperties.

(** ** The inputs of the choice *)

Lemma mask_movers (out_fname : string) (choosers_df : DataFrame) :
  mask_rows choosers_df
    ((λ p : Z * cell, bool_decide (p.2 = Num (-1)))
       <$> ((λ r, (label r, at_col out_fname r)) <$> rows choosers_df))
  = movers_frame out_fname choosers_df.
Proof.
  unfold mask_rows, movers_frame, all_movers. f_equal.
  rewrite <- list_fmap_compose, select_fmap.
  apply list_filter_iff. intros r. cbn. by rewrite bool_decide_eq_true.
Qed.

Section ChoiceInputs.
Context {orca : Orca} {urbansim : Urbansim} {dtypes : Dtypes}.

Lemma choice_inputs_inv cfg choosers buildings join_tbls out_fname supply_fname
    vacant_fname enable_supply_correction move_in_year
    (w w1 : world) (movers units : DataFrame) :
  choice_inputs cfg choosers buildings join_tbls out_fname supply_fname
    vacant_fname enable_supply_correction move_in_year w = (Ok (movers, units), w1) →
  ∃ choosers_df locations_df buildings_df vacant_units missing w0 wc,
    to_frame (Some choosers) (JoinList []) cfg [out_fname; "move_in_year"] w
    = (Ok choosers_df, w)
    ∧ to_frame (Some buildings) join_tbls cfg
        (location_columns supply_fname vacant_fname enable_supply_correction) w
      = (Ok locations_df, w)
    ∧ TABLES w !! buildings = Some buildings_df
    ∧ getitem buildings_df vacant_fname = Ok vacant_units
    ∧ out_fname ∈ columns choosers_df
    ∧ candidate_units (positive vacant_units) locations_df wc
      = (Ok (units, missing), wc)
    ∧ movers = movers_for_choice out_fname choosers_df
                 (sum_cells (positive vacant_units).*2)
    ∧ TABLES w0 = TABLES w ∧ rng w0 = rng w ∧ calls w0 = calls w
    ∧ overfull_line vacant_units ∈ stdout w0
    ∧ match enable_supply_correction with
      | Some correction =>
          ∃ w0', correct_supply correction cfg buildings
                   (movers_frame out_fname choosers_df) units w0 = (Ok tt, w0')
                 ∧ TABLES w1 = TABLES w0' ∧ rng w1 = rng w0'
                 ∧ calls w1 = calls w0'
                 ∧ ∃ more, stdout w1 = stdout w0 ++ more
      | None =>
          TABLES w1 = TABLES w ∧ rng w1 = rng w ∧ calls w1 = calls w
          ∧ ∃ more, stdout w1 = stdout w0 ++ more
      end.
Proof.
  unfold choice_inputs. intros H.
  apply bind_ok_inv in H as (choosers_df & wa & Hchoosers & H).
  pose proof (to_frame_ok_inv _ _ _ _ _ _ _ Hchoosers) as [-> _].
  apply bind_ok_inv in H as (locations_df & wa & Hlocations & H).
  pose proof (to_frame_ok_inv _ _ _ _ _ _ _ Hlocations) as [-> _].
  apply bind_ok_inv in H as (available & wa & Havail & H).
  apply wrapper_getitem_ok_inv in Havail as [-> _].
  apply bind_ok_inv in H as (vacant_units & wa & Hvacant & H).
  apply wrapper_getitem_ok_inv in Hvacant as [-> (buildings_df & Hbdf & Hvacant)].
  apply bind_ok_inv in H as ([] & w2 & Hp & H).
  apply print_format_ok_inv in Hp as ->.
  apply bind_ok_inv in H as ([] & w3 & Hp & H).
  apply print_format_ok_inv in Hp as ->.
  apply bind_ok_inv in H as (n_choosers & w3 & Hlen & H).
  apply wrapper_len_ok_inv in Hlen as [-> _].
  apply bind_ok_inv in H as ([] & w4 & Hp & H).
  apply print_format_ok_inv in Hp as ->.
  apply bind_ok_inv in H as ([] & w5 & Hp & H).
  apply print_format_ok_inv in Hp. cbn [TABLES stdout rng calls] in Hp.
  apply bind_ok_inv in H as ([units' missing] & w6 & Hcand & H).
  pose proof (candidate_units_inv _ _ _ _ _ _ Hcand) as [-> _].
  apply bind_ok_inv in H as ([] & w6 & Hp6 & H).
  apply print_format_ok_inv in Hp6.
  apply bind_ok_inv in H as ([] & w7 & Hp7 & H).
  apply print_format_ok_inv in Hp7.
  apply bind_ok_inv in H as ([] & w8 & Hwarn & H).
  assert (TABLES w8 = TABLES w7 ∧ rng w8 = rng w7 ∧ calls w8 = calls w7
          ∧ ∃ more, stdout w8 = stdout w7 ++ more) as (Ht8 & Hr8 & Hc8 & more8 & Ho8).
  { case_bool_decide.
    - apply bind_ok_inv in Hwarn as ([] & wx & Hx & Hwarn).
      apply print_ok_inv in Hx as ->.
      apply bind_ok_inv in Hwarn as ([] & wy & Hy & Hwarn).
      apply print_ok_inv in Hy as ->. apply print_ok_inv in Hwarn as ->.
      cbn. repeat split. eexists. by rewrite <- !app_assoc.
    - apply ret_ok_inv in Hwarn as [_ ->]. repeat split. exists [].
      by rewrite app_nil_r. }
  apply bind_ok_inv in H as (placed & w9 & Hplaced & H).
  apply lift_ok_inv in Hplaced as [Hplaced ->].
  assert (out_fname ∈ columns choosers_df) as Hout.
  { unfold getitem in Hplaced. by case_decide. }
  rewrite getitem_ok in Hplaced by done. injection Hplaced as <-.
  rewrite mask_movers in H.
  apply bind_ok_inv in H as ([] & w9 & Hp9 & H).
  apply print_format_ok_inv in Hp9.
  apply bind_ok_inv in H as ([] & w10 & Hcorrect & H).
  apply bind_ok_inv in H as (movers' & w11 & Htrunc & H).
  apply ret_ok_inv in H as [[= <- <-] <-].
  assert (movers = movers_for_choice out_fname choosers_df
                     (sum_cells (positive vacant_units).*2)
          ∧ TABLES w1 = TABLES w10 ∧ rng w1 = rng w10 ∧ calls w1 = calls w10
          ∧ ∃ more, stdout w1 = stdout w10 ++ more)
    as (Hmovers & Ht1 & Hr1 & Hc1 & more1 & Ho1).
  { unfold movers_for_choice, positive. case_bool_decide.
    - apply bind_ok_inv in Htrunc as ([] & wx & Hx & Htrunc).
      apply print_ok_inv in Hx as ->.
      apply bind_ok_inv in Htrunc as ([] & wy & Hy & Htrunc).
      apply print_ok_inv in Hy as ->. apply ret_ok_inv in Htrunc as [-> ->].
      cbn. repeat split. eexists. by rewrite <- !app_assoc.
    - apply ret_ok_inv in Htrunc as [-> ->]. repeat split. exists [].
      by rewrite app_nil_r. }
  exists choosers_df, locations_df, buildings_df, vacant_units, missing, w9, w5.
  split; [done|]. split; [done|]. split; [done|]. split; [done|].
  split; [done|]. split; [done|]. split; [done|].
  assert (TABLES w9 = TABLES w ∧ rng w9 = rng w ∧ calls w9 = calls w)
    as (Ht9 & Hr9 & Hc9).
  { subst w9. cbn. rewrite Ht8, Hr8, Hc8. subst w7. cbn. subst w6. cbn.
    subst w5. by cbn. }
  split; [done|]. split; [done|]. split; [done|]. split.
  { subst w9. cbn. rewrite Ho8. subst w7. cbn. subst w6. cbn. subst w5. cbn.
    unfold overfull_line. rewrite !elem_of_app. do 4 left. right. by left. }
  destruct enable_supply_correction as [correction|].
  - exists w10. split; [done|]. split; [done|]. split; [done|]. split; [done|].
    pose proof (extends_correct_supply _ _ _ _ _ _ _ _ Hcorrect) as [more Hmore].
    exists (more ++ more1). by rewrite Ho1, Hmore, <- app_assoc.
  - apply ret_ok_inv in Hcorrect as [_ ->].
    rewrite Ht1, Hr1, Hc1. split; [done|]. split; [done|]. split; [done|].
    by exists more1.
Qed.

End ChoiceInputs.

(** ** The choice and what it is called with *)

Section ChoiceCall.
Context {orca : Orca} {urbansim : Urbansim} {dtypes : Dtypes}.

Lemma lcm_simulate_unfold cfg choosers buildings join_tbls out_fname supply_fname
    vacant_fname enable_supply_correction cast alternative_ratio move_in_year w :
  lcm_simulate cfg choosers buildings join_tbls out_fname supply_fname vacant_fname
    enable_supply_correction cast alternative_ratio move_in_year w
  = match choice_inputs (config cfg) choosers buildings join_tbls out_fname
            supply_fname vacant_fname enable_supply_correction move_in_year w with
    | (Ok (movers, units), w1) =>
        choose_and_write (config cfg) choosers buildings out_fname vacant_fname
          enable_supply_correction cast alternative_ratio move_in_year
          movers units w1
    | (Raise e, w1) => (Raise e, w1)
    end.
Proof.
  unfold lcm_simulate. rewrite bind_run.
  by destruct (choice_inputs _ _ _ _ _ _ _ _ _ w) as [[[movers units]|e] w1].
Qed.

(** After the call of the predictor is noted, nothing else is. *)
Lemma choose_and_write_calls cfg choosers buildings out_fname vacant_fname
    enable_supply_correction cast alternative_ratio move_in_year movers units
    (klass : model_class) (w : world) :
  yaml_to_class cfg = Ok klass →
  calls (choose_and_write cfg choosers buildings out_fname vacant_fname
           enable_supply_correction cast alternative_ratio move_in_year
           movers units w).2
  = calls w ++ [CallPredict movers units (TABLES w)].
Proof.
  intros Hklass. unfold choose_and_write.
  rewrite bind_run. unfold lift at 1. rewrite Hklass.
  rewrite bind_run. unfold registry at 1.
  rewrite bind_run. unfold note at 1.
  match goal with
  | |- calls (?rest ?w1).2 = _ =>
      assert (quiet rest) as Hquiet; [|
        destruct (rest w1) as [r w2] eqn:Hrun;
        apply Hquiet in Hrun; cbn [snd]; by rewrite Hrun]
  end.
  apply quiet_bind; [apply quiet_draw|]. intros new_units.
  apply quiet_bind; [apply quiet_lift|]. intros chosen.
  apply quiet_bind; [apply quiet_lift|]. intros chosen_units.
  apply quiet_bind; [apply quiet_lift|]. intros chosen_ids.
  apply quiet_bind; [apply quiet_update_col|]. intros _.
  apply quiet_bind; [apply quiet_print_unplaced|]. intros _.
  apply quiet_bind.
  { destruct (truthy move_in_year); [|apply quiet_ret].
    apply quiet_bind; [apply quiet_update_col|]. intros _. solve_quiet. }
  intros _. apply quiet_bind.
  { destruct enable_supply_correction; [apply quiet_clip_prices|apply quiet_ret]. }
  intros _. apply quiet_bind; [apply quiet_wrapper_getitem|]. intros ?.
  solve_quiet.
Qed.

(** The predictor is applied to the movers and units that
    [choose_and_write] is given, on the generator state it starts from; the
    state the predictor leaves is the one the run ends with, and when the
    predictor raises the run stops there, with the registry untouched. *)
Lemma choose_and_write_predict cfg choosers buildings out_fname vacant_fname
    enable_supply_correction cast alternative_ratio move_in_year movers units
    (klass : model_class) (w : world) (predicted : res Series) (g : N) :
  yaml_to_class cfg = Ok klass →
  predict_from_cfg klass movers units cfg alternative_ratio (rng w)
  = (predicted, g) →
  let run := choose_and_write cfg choosers buildings out_fname vacant_fname
               enable_supply_correction cast alternative_ratio move_in_year
               movers units in
  rng (run w).2 = g
  ∧ ∀ e, predicted = Raise e →
      run w = (Raise e, World (TABLES w) (stdout w) g
                              (calls w ++ [CallPredict movers units (TABLES w)])).
Proof.
  intros Hklass Hpredict run.
  assert (∀ out, run w = out →
            rng out.2 = g
            ∧ ∀ e, predicted = Raise e →
                out = (Raise e,
                       World (TABLES w) (stdout w) g
                         (calls w ++ [CallPredict movers units (TABLES w)])))
    as Hout; [|by apply Hout].
  intros out Hrun. unfold run, choose_and_write in Hrun.
  rewrite bind_run in Hrun. unfold lift at 1 in Hrun. rewrite Hklass in Hrun.
  rewrite bind_run in Hrun. unfold registry at 1 in Hrun.
  rewrite bind_run in Hrun. unfold note at 1 in Hrun. cbv beta iota in Hrun.
  rewrite draw_bind_run in Hrun. cbn [TABLES rng calls stdout] in Hrun.
  rewrite Hpredict in Hrun. destruct predicted as [new_units|e].
  - split; [|done].
    match type of Hrun with
    | ?rest ?w1 = _ => assert (drawless rest) as Hrest
    end.
    { apply drawless_bind; [apply drawless_lift|]. intros chosen.
      apply drawless_bind; [apply drawless_lift|]. intros chosen_units.
      apply drawless_bind; [apply drawless_lift|]. intros chosen_ids.
      apply drawless_bind; [apply drawless_update_col|]. intros _.
      apply drawless_bind; [apply drawless_print_unplaced|]. intros _.
      apply drawless_bind.
      { destruct (truthy move_in_year); [|apply drawless_ret].
        apply drawless_bind; [apply drawless_update_col|]. intros _.
        solve_drawless. }
      intros _. apply drawless_bind.
      { destruct enable_supply_correction;
          [apply drawless_clip_prices|apply drawless_ret]. }
      intros _. apply drawless_bind; [apply drawless_wrapper_getitem|]. intros ?.
      solve_drawless. }
    destruct out as [r w2]. by apply Hrest in Hrun.
  - subst out. split; [done|]. by intros e' [= ->].
Qed.

(** The same for [lcm_simulate], from the inputs [choice_inputs] hands over. *)
Lemma lcm_simulate_predict cfg choosers buildings join_tbls out_fname
    supply_fname vacant_fname enable_supply_correction cast alternative_ratio
    move_in_year (w w1 : world) (movers units : DataFrame) (klass : model_class)
    (predicted : res Series) (g : N) :
  choice_inputs (config cfg) choosers buildings join_tbls out_fname supply_fname
    vacant_fname enable_supply_correction move_in_year w
  = (Ok (movers, units), w1) →
  yaml_to_class (config cfg) = Ok klass →
  predict_from_cfg klass movers units (config cfg) alternative_ratio (rng w1)
  = (predicted, g) →
  let run := lcm_simulate cfg choosers buildings join_tbls out_fname supply_fname
               vacant_fname enable_supply_correction cast alternative_ratio
               move_in_year in
  rng (run w).2 = g
  ∧ ∀ e, predicted = Raise e →
      run w = (Raise e, World (TABLES w1) (stdout w1) g
                              (calls w1 ++ [CallPredict movers units (TABLES w1)])).
Proof.
  intros Hinputs Hklass Hpredict run. unfold run.
  rewrite lcm_simulate_unfold, Hinputs.
  by apply (choose_and_write_predict _ _ _ _ _ _ _ _ _ _ _ klass w1 predicted g).
Qed.

(** The one call of the predictor in [lcm_simulate] is made with the movers
    and units that [choice_inputs] hands over, on the registry it leaves. *)
Lemma lcm_simulate_predict_call cfg choosers buildings join_tbls out_fname
    supply_fname vacant_fname enable_supply_correction cast alternative_ratio
    move_in_year (w w1 : world) (movers units : DataFrame) (klass : model_class) :
  choice_inputs (config cfg) choosers buildings join_tbls out_fname supply_fname
    vacant_fname enable_supply_correction move_in_year w
  = (Ok (movers, units), w1) →
  yaml_to_class (config cfg) = Ok klass →
  calls (lcm_simulate cfg choosers buildings join_tbls out_fname supply_fname
           vacant_fname enable_supply_correction cast alternative_ratio
           move_in_year w).2
  = calls w1 ++ [CallPredict movers units (TABLES w1)].
Proof.
  intros Hinputs Hklass. rewrite lcm_simulate_unfold, Hinputs.
  by apply choose_and_write_calls with klass.
Qed.

(** C2, amended: in [lcm_simulate], with unique labels in the buildings
    table and in the joined locations frame, a building with vacancy v > 0
    that is present in the locations frame contributes exactly v candidate
    units, each carrying the attributes of that building's row of the
    locations frame; a building with zero or negative vacancy contributes
    none, and neither does a building that the locations frame lacks; the
    number of buildings with negative vacancy is printed as a count. *)
Theorem candidate_units_per_vacant_unit
    cfg choosers buildings join_tbls out_fname supply_fname vacant_fname
    enable_supply_correction cast alternative_ratio move_in_year
    (w w1 : world) (movers units : DataFrame) :
  choice_inputs (config cfg) choosers buildings join_tbls out_fname supply_fname
    vacant_fname enable_supply_correction move_in_year w
  = (Ok (movers, units), w1) →
  ∃ locations_df buildings_df vacant_units,
    to_frame (Some buildings) join_tbls (config cfg)
      (location_columns supply_fname vacant_fname enable_supply_correction) w
    = (Ok locations_df, w)
    ∧ TABLES w !! buildings = Some buildings_df
    ∧ getitem buildings_df vacant_fname = Ok vacant_units
    ∧ (∀ klass, yaml_to_class (config cfg) = Ok klass →
         calls (lcm_simulate cfg choosers buildings join_tbls out_fname
                  supply_fname vacant_fname enable_supply_correction cast
                  alternative_ratio move_in_year w).2
         = calls w1 ++ [CallPredict movers units (TABLES w1)])
    ∧ overfull_line vacant_units ∈ stdout w1
    ∧ (NoDup (index locations_df) → NoDup (index buildings_df) →
       ∀ l v, (l, v) ∈ vacant_units →
         (cell_pos v = false →
          units_of (index_name locations_df) l units = [])
         ∧ (l ∉ index locations_df →
            units_of (index_name locations_df) l units = [])
         ∧ (∀ z, v = Num z → 0 < z → l ∈ index locations_df →
              Z.of_nat (length (units_of (index_name locations_df) l units)) = z
              ∧ ∀ u, u ∈ units_of (index_name locations_df) l units →
                  ∃ r, r ∈ rows locations_df ∧ label r = l
                       ∧ vals u
                         = <[index_name locations_df := Num l]> (vals r))).
Proof.
  intros Hinputs.
  destruct (choice_inputs_inv _ _ _ _ _ _ _ _ _ _ _ _ _ Hinputs)
    as (choosers_df & locations_df & buildings_df & vacant_units & missing
        & w0 & wc & _ & Hlocations & Hbdf & Hvacant & _ & Hcand & _
        & _ & _ & _ & Hline & Hrest).
  exists locations_df, buildings_df, vacant_units.
  split; [done|]. split; [done|]. split; [done|]. split.
  { intros klass Hklass. by eapply lcm_simulate_predict_call. }
  split.
  { assert (∃ more, stdout w1 = stdout w0 ++ more) as [more ->].
    { destruct enable_supply_correction; [|by destruct Hrest as (_ & _ & _ & ?)].
      by destruct Hrest as (w0' & _ & _ & _ & _ & ?). }
    apply elem_of_app. by left. }
  intros Hnodup_loc Hnodup_b l v Hin.
  assert (NoDup vacant_units.*1) as Hnodup_v.
  { unfold getitem in Hvacant. case_decide; [|done]. injection Hvacant as <-.
    by rewrite <- list_fmap_compose. }
  destruct (candidate_units_rows _ _ _ _ _ _ Hnodup_loc
              (positive_NoDup _ Hnodup_v) Hcand) as [Hcount Hattrs].
  specialize (Hcount l). rewrite (positive_get _ _ v) in Hcount by done.
  split; [|split].
  - intros Hpos. rewrite Hpos in Hcount. apply nil_length_inv.
    by destruct (decide (l ∈ index locations_df)).
  - intros Hnot. apply nil_length_inv. by rewrite decide_False in Hcount.
  - intros z -> Hz Hl. rewrite decide_True in Hcount by done.
    cbn [cell_pos] in Hcount. rewrite bool_decide_eq_true_2 in Hcount by done.
    split; [lia|]. intros u [Hu Hrow]%list_elem_of_filter.
    destruct (Hattrs u Hrow) as (r & Hr & Hvals). exists r. split; [done|].
    assert (label r = l) as Hlabel.
    { unfold at_col in Hu. rewrite Hvals, lookup_insert_eq in Hu.
      by injection Hu. }
    split; [done|]. by rewrite Hvals, Hlabel.
Qed.

(** C3, amended: in [lcm_simulate] the movers are the agents whose output
    field is -1; when there are more of them than the positive vacancies
    add up to, the choice gets exactly that many of them, the head of the
    mover table, and otherwise it gets them all.  These movers and the
    candidate units are the frames the choice predictor is applied to: the
    generator state the run ends with is the one the predictor leaves when
    given them, and an exception of the predictor on them is the exception
    of the run.  With unique labels in the locations frame and no vacant
    building missing from it, the positive vacancies add up to the number of
    candidate units. *)
Theorem movers_truncated_to_vacancy
    cfg choosers buildings join_tbls out_fname supply_fname vacant_fname
    enable_supply_correction cast alternative_ratio move_in_year
    (w w1 : world) (movers units : DataFrame) :
  choice_inputs (config cfg) choosers buildings join_tbls out_fname supply_fname
    vacant_fname enable_supply_correction move_in_year w
  = (Ok (movers, units), w1) →
  ∃ choosers_df locations_df buildings_df vacant_units,
    to_frame (Some choosers) (JoinList []) (config cfg)
      [out_fname; "move_in_year"] w = (Ok choosers_df, w)
    ∧ to_frame (Some buildings) join_tbls (config cfg)
        (location_columns supply_fname vacant_fname enable_supply_correction) w
      = (Ok locations_df, w)
    ∧ TABLES w !! buildings = Some buildings_df
    ∧ getitem buildings_df vacant_fname = Ok vacant_units
    ∧ (∀ klass, yaml_to_class (config cfg) = Ok klass →
         let run := lcm_simulate cfg choosers buildings join_tbls out_fname
                      supply_fname vacant_fname enable_supply_correction cast
                      alternative_ratio move_in_year in
         calls (run w).2 = calls w1 ++ [CallPredict movers units (TABLES w1)]
         ∧ ∀ predicted g,
             predict_from_cfg klass movers units (config cfg) alternative_ratio
               (rng w1) = (predicted, g) →
             rng (run w).2 = g
             ∧ ∀ e, predicted = Raise e →
                 run w = (Raise e,
                          World (TABLES w1) (stdout w1) g
                            (calls w1 ++ [CallPredict movers units (TABLES w1)])))
    ∧ let total := sum_cells (positive vacant_units).*2 in
      let every := all_movers out_fname choosers_df in
      0 ≤ total
      ∧ (Z.of_nat (length every) > total →
         rows movers = take (Z.to_nat total) every ∧ len movers = total)
      ∧ (Z.of_nat (length every) ≤ total → rows movers = every)
      ∧ (NoDup (index locations_df) →
         (∀ l, l ∈ (positive vacant_units).*1 → l ∈ index locations_df) →
         len units = total).
Proof.
  intros Hinputs.
  destruct (choice_inputs_inv _ _ _ _ _ _ _ _ _ _ _ _ _ Hinputs)
    as (choosers_df & locations_df & buildings_df & vacant_units & missing
        & w0 & wc & Hchoosers & Hlocations & Hbdf & Hvacant & _ & Hcand
        & Hmovers & _).
  exists choosers_df, locations_df, buildings_df, vacant_units.
  split; [done|]. split; [done|]. split; [done|]. split; [done|]. split.
  { intros klass Hklass run. split; [by eapply lcm_simulate_predict_call|].
    intros predicted g Hpredict.
    by apply (lcm_simulate_predict _ _ _ _ _ _ _ _ _ _ _ _ _ _ _ _ _ _
                Hinputs Hklass Hpredict). }
  cbn zeta. pose proof (candidate_units_total _ _ _ _ _ _ Hcand) as Htotal.
  split; [done|]. rewrite Hmovers. unfold movers_for_choice.
  change (len (movers_frame out_fname choosers_df))
    with (Z.of_nat (length (all_movers out_fname choosers_df))).
  split; [|split].
  - intros Hmore. rewrite bool_decide_eq_true_2 by done.
    unfold head. rewrite bool_decide_eq_true_2 by done.
    split; [done|]. unfold len. cbn [rows movers_frame].
    rewrite length_take. lia.
  - intros Hfew. rewrite bool_decide_eq_false_2 by lia. done.
  - intros Hnodup Hall.
    by destruct (candidate_units_len _ _ _ _ _ _ Hnodup Hcand) as [_ ->].
Qed.

End ChoiceCall.

(** The example of the specification: building 1 with five vacant units and
    building 2 overfull by one give five candidate units, all of building 1,
    and an overfull count of one. *)
Lemma candidate_units_per_vacant_unit_witness :
  ∃ movers units w1,
    choice_inputs (orca := plain_orca) (urbansim := sample_urbansim) (dtypes := sample_dtypes)
      "hlcm.yaml" "households" "buildings" (JoinList []) "building_id"
      "residential_units" "vacant_units" None None choice_world
    = (Ok (movers, units), w1)
    ∧ len units = 5
    ∧ Z.of_nat (length (units_of "building_id" 1 units)) = 5
    ∧ units_of "building_id" 2 units = []
    ∧ Line "    but there are {:,} overfull buildings" [AInt 1] ∈ stdout w1.
Proof.
  destruct (choice_inputs (orca := plain_orca) (urbansim := sample_urbansim) (dtypes := sample_dtypes)
      "hlcm.yaml" "households" "buildings" (JoinList []) "building_id"
      "residential_units" "vacant_units" None None choice_world)
    as [[[movers units]|e] w1] eqn:Hrun.
  2:{ exfalso.
      assert (is_ok (choice_inputs (orca := plain_orca)
                (urbansim := sample_urbansim) (dtypes := sample_dtypes)
                "hlcm.yaml" "households" "buildings" (JoinList []) "building_id"
                "residential_units" "vacant_units" None None choice_world).1
              = true) as Hok by (by vm_compute).
      by rewrite Hrun in Hok. }
  exists movers, units, w1. split; [done|]. split.
  { assert (match (choice_inputs (orca := plain_orca)
                (urbansim := sample_urbansim) (dtypes := sample_dtypes)
                "hlcm.yaml" "households" "buildings" (JoinList []) "building_id"
                "residential_units" "vacant_units" None None choice_world).1 with
            | Ok inputs => len inputs.2
            | Raise _ => 0
            end = 5) as Hlen by (by vm_compute).
    by rewrite Hrun in Hlen. }
  destruct (candidate_units_per_vacant_unit (orca := plain_orca)
              (urbansim := sample_urbansim) (dtypes := sample_dtypes) "hlcm.yaml" "households" "buildings"
              (JoinList []) "building_id" "residential_units" "vacant_units"
              None false (float_of_Z 2) None _ _ _ _ Hrun)
    as (locations_df & buildings_df & vacant_units & Hloc & Hbdf & Hvac & _
        & Hline & Hrows).
  assert (locations_df
          = restrict choice_buildings ["residential_units"; "vacant_units"])
    as ->.
  { assert (to_frame (orca := plain_orca) (urbansim := sample_urbansim)
              (Some "buildings") (JoinList []) "hlcm.yaml"
              (location_columns "residential_units" "vacant_units" None)
              choice_world
            = (Ok (restrict choice_buildings
                     ["residential_units"; "vacant_units"]), choice_world))
      as Heq by (by vm_compute).
    change (config "hlcm.yaml") with "hlcm.yaml" in Hloc. congruence. }
  assert (buildings_df = choice_buildings) as ->.
  { assert (TABLES choice_world !! "buildings" = Some choice_buildings) as Heq
      by (by vm_compute).
    congruence. }
  assert (vacant_units = [(1, Num 5); (2, Num (-1))]) as ->.
  { assert (getitem choice_buildings "vacant_units"
            = Ok [(1, Num 5); (2, Num (-1))]) as Heq by (by vm_compute).
    congruence. }
  assert (NoDup (index choice_buildings)) as Hnodup
    by (apply (bool_decide_unpack (NoDup (index choice_buildings)));
        by vm_compute).
  split; [|split].
  - destruct (Hrows Hnodup Hnodup 1 (Num 5)) as (_ & _ & Hfive);
      [by left|].
    destruct (Hfive 5 eq_refl) as [Hcount _];
      [lia|by apply (bool_decide_unpack (1 ∈ index choice_buildings))|].
    exact Hcount.
  - destruct (Hrows Hnodup Hnodup 2 (Num (-1))) as (Hnone & _);
      [right; by left|].
    by apply Hnone.
  - exact Hline.
Defined.

(** C2 as stated fails: in [crowded_world] building 1 has five vacant units,
    yet no candidate unit of the choice stands for it, because the join with
    the zones table leaves the building out of the locations frame. *)
Lemma candidate_units_missing_building :
  column_of (TABLES crowded_world) "buildings" "vacant_units" = [Num 5; Num 2]
  ∧ (λ c, (length (units_of "building_id" 1 c.1.2), len c.1.2))
      <$> predict_calls
            (calls (lcm_simulate (orca := joining_orca)
                      (urbansim := sample_urbansim) (dtypes := sample_dtypes) "hlcm.yaml" "households"
                      "buildings" (JoinList [Some "zones"]) "building_id"
                      "residential_units" "vacant_units" None false (float_of_Z 2) None
                      crowded_world).2)
    = [(0%nat, 2)].
Proof. split; by vm_compute. Qed.

(** Three movers face two vacant units: the choice gets the first two
    movers, and the predictor, which advances the generator by the number of
    movers it is given, leaves it at two. *)
Lemma movers_truncated_to_vacancy_witness :
  ∃ movers units w1,
    choice_inputs (orca := plain_orca) (urbansim := counting_urbansim)
      (dtypes := sample_dtypes)
      "hlcm.yaml" "households" "buildings" (JoinList []) "building_id"
      "residential_units" "vacant_units" None None scarce_world
    = (Ok (movers, units), w1)
    ∧ column_of (TABLES scarce_world) "households" "building_id"
      = [Num (-1); Num (-1); Num (-1)]
    ∧ index movers = [100; 101]
    ∧ len units = 2
    ∧ rng (lcm_simulate (orca := plain_orca) (urbansim := counting_urbansim)
             (dtypes := sample_dtypes) "hlcm.yaml" "households" "buildings"
             (JoinList []) "building_id" "residential_units" "vacant_units"
             None false (float_of_Z 2) None scarce_world).2
      = 2%N.
Proof.
  destruct (choice_inputs (orca := plain_orca) (urbansim := counting_urbansim)
      (dtypes := sample_dtypes)
      "hlcm.yaml" "households" "buildings" (JoinList []) "building_id"
      "residential_units" "vacant_units" None None scarce_world)
    as [[[movers units]|e] w1] eqn:Hrun.
  2:{ exfalso.
      assert (is_ok (choice_inputs (orca := plain_orca)
                (urbansim := counting_urbansim) (dtypes := sample_dtypes)
                "hlcm.yaml" "households" "buildings" (JoinList []) "building_id"
                "residential_units" "vacant_units" None None scarce_world).1
              = true) as Hok by (by vm_compute).
      by rewrite Hrun in Hok. }
  exists movers, units, w1. split; [done|]. split; [by vm_compute|].
  assert (rng (choice_inputs (orca := plain_orca)
                 (urbansim := counting_urbansim) (dtypes := sample_dtypes)
                 "hlcm.yaml" "households" "buildings" (JoinList []) "building_id"
                 "residential_units" "vacant_units" None None scarce_world).2
          = 0%N) as Hrng1 by (by vm_compute).
  rewrite Hrun in Hrng1. cbn [snd] in Hrng1.
  destruct (movers_truncated_to_vacancy (orca := plain_orca)
              (urbansim := counting_urbansim) (dtypes := sample_dtypes)
              "hlcm.yaml" "households" "buildings"
              (JoinList []) "building_id" "residential_units" "vacant_units"
              None false (float_of_Z 2) None _ _ _ _ Hrun)
    as (choosers_df & locations_df & buildings_df & vacant_units & Hch & Hloc
        & Hbdf & Hvac & Hpredict & _ & Hmore & _ & Hunits).
  assert (choosers_df
          = restrict (Frame "household_id" ["building_id"; "move_in_year"]
                        [household 100 (-1) 2010; household 101 (-1) 2010;
                         household 102 (-1) 2010])
                     ["building_id"; "move_in_year"]) as ->.
  { assert (to_frame (orca := plain_orca) (urbansim := counting_urbansim)
              (Some "households") (JoinList []) "hlcm.yaml"
              ["building_id"; "move_in_year"] scarce_world
            = (Ok (restrict
                     (Frame "household_id" ["building_id"; "move_in_year"]
                        [household 100 (-1) 2010; household 101 (-1) 2010;
                         household 102 (-1) 2010])
                     ["building_id"; "move_in_year"]), scarce_world)) as Heq
      by (by vm_compute).
    change (config "hlcm.yaml") with "hlcm.yaml" in Hch. congruence. }
  assert (locations_df
          = restrict (Frame "building_id" building_columns
                        [priced_building 1 5 2 1 75;
                         priced_building 2 3 (-1) 2 100])
                     ["residential_units"; "vacant_units"]) as ->.
  { assert (to_frame (orca := plain_orca) (urbansim := counting_urbansim)
              (Some "buildings") (JoinList []) "hlcm.yaml"
              (location_columns "residential_units" "vacant_units" None)
              scarce_world
            = (Ok (restrict (Frame "building_id" building_columns
                               [priced_building 1 5 2 1 75;
                                priced_building 2 3 (-1) 2 100])
                            ["residential_units"; "vacant_units"]),
               scarce_world)) as Heq by (by vm_compute).
    change (config "hlcm.yaml") with "hlcm.yaml" in Hloc. congruence. }
  assert (vacant_units = [(1, Num 2); (2, Num (-1))]) as ->.
  { assert (TABLES scarce_world !! "buildings" ≫= (λ df, Some (getitem df "vacant_units"))
            = Some (Ok [(1, Num 2); (2, Num (-1))])) as Heq by (by vm_compute).
    rewrite Hbdf in Heq. cbn in Heq. congruence. }
  destruct Hmore as [Hrows Hlen]; [by vm_compute|].
  assert (index movers = [100; 101]) as Hindex.
  { unfold index. rewrite Hrows. by vm_compute. }
  split; [exact Hindex|]. split.
  - rewrite Hunits; [by vm_compute| |].
    + apply (bool_decide_unpack (NoDup [1; 2])). by vm_compute.
    + intros l Hl.
      assert ((positive [(1, Num 2); (2, Num (-1))]).*1 = [1]) as Heq
        by (by vm_compute).
      rewrite Heq in Hl. apply list_elem_of_singleton in Hl as ->.
      apply (bool_decide_unpack (1 ∈ [1; 2])). by vm_compute.
  - destruct (Hpredict MNLDiscreteChoiceModel eq_refl) as [_ Happlied].
    destruct (Happlied _ _ eq_refl) as [Hrng _].
    rewrite Hrng, Hrng1.
    assert (length (rows movers) = 2%nat) as ->; [|done].
    change (rows movers) with (rows movers). 
    rewrite <- (length_fmap label). fold (index movers). by rewrite Hindex.
Defined.

(** C3 as stated fails: in [short_world] four movers face one candidate
    unit, and the movers are truncated, yet to three of them and not to one,
    because the positive vacancies add up to three; a predictor that
    advances the generator by the number of movers it is given leaves it at
    three. *)
Lemma movers_truncated_beyond_candidate_units :
  column_of (TABLES short_world) "households" "building_id"
  = [Num (-1); Num (-1); Num (-1); Num (-1)]
  ∧ (λ c, (index c.1.1, len c.1.2))
      <$> predict_calls
            (calls (lcm_simulate (orca := joining_orca)
                      (urbansim := sample_urbansim) (dtypes := sample_dtypes)
                      "hlcm.yaml" "households"
                      "buildings" (JoinList [Some "zones"]) "building_id"
                      "residential_units" "vacant_units" None false
                      (float_of_Z 2) None short_world).2)
    = [([100; 101; 102], 1)]
  ∧ rng (lcm_simulate (orca := joining_orca) (urbansim := counting_urbansim)
           (dtypes := sample_dtypes) "hlcm.yaml" "households" "buildings"
           (JoinList [Some "zones"]) "building_id" "residential_units"
           "vacant_units" None false (float_of_Z 2) None short_world).2
    = 3%N.
Proof. repeat split; by vm_compute. Qed.

(** Nor are the movers cut down to the candidate units when the vacancies
    suffice: in [crowded_world] three movers face two candidate units, yet
    all three go into the choice, because the positive vacancies add up to
    seven. *)
Lemma movers_exceed_candidate_units :
  (λ c, (len c.1.1, len c.1.2))
    <$> predict_calls
          (calls (lcm_simulate (orca := joining_orca)
                    (urbansim := sample_urbansim) (dtypes := sample_dtypes)
                    "hlcm.yaml" "households"
                    "buildings" (JoinList [Some "zones"]) "building_id"
                    "residential_units" "vacant_units" None false
                    (float_of_Z 2) None crowded_world).2)
  = [(3, 2)].
Proof. by vm_compute. Qed.

(** ** Statements that leave a table alone *)

Lemma stable_bind {A B : Type} (t : string) (m : M A) (f : A → M B) :
  stable t m → (∀ a, stable t (f a)) → stable t (m ≫= f).
Proof.
  intros Hm Hf w r w'. rewrite bind_run.
  destruct (m w) as [[a|e] w1] eqn:Hrun.
  - intros Hrest. apply Hf in Hrest. apply Hm in Hrun. congruence.
  - intros [= <- <-]. by apply Hm in Hrun.
Qed.

Lemma stable_ret {A : Type} t (a : A) : stable t (mret a).
Proof. by intros w r w' [= <- <-]. Qed.

Lemma stable_raise {A : Type} t (e : exn) : stable t (raise (A := A) e).
Proof. by intros w r w' [= <- <-]. Qed.

Lemma stable_lift {A : Type} t (x : res A) : stable t (lift x).
Proof. by intros w r w' [= <- <-]. Qed.

Lemma stable_registry t : stable t registry.
Proof. by intros w r w' [= <- <-]. Qed.

Lemma stable_note t c : stable t (note c).
Proof. by intros w r w' [= <- <-]. Qed.

Lemma stable_print t s xs : stable t (print s xs).
Proof. by intros w r w' [= <- <-]. Qed.

Lemma stable_print_format t s xs : stable t (print_format s xs).
Proof. intros w r w' Hrun. by apply print_format_tables in Hrun as (-> & _). Qed.

Lemma stable_get_table t name : stable t (get_table name).
Proof.
  intros w r w'. unfold get_table.
  by destruct (TABLES w !! name); intros [= <- <-].
Qed.

Lemma stable_add_table t name df : name ≠ t → stable t (add_table name df).
Proof. intros Hne w r w' [= <- <-]. cbn. by rewrite lookup_insert_ne. Qed.

Lemma stable_draw {A : Type} t (f : N → res A * N) : stable t (draw f).
Proof.
  intros w r w'. unfold draw. destruct (f (rng w)). by intros [= <- <-].
Qed.

Lemma stable_wrapper_getitem t name c : stable t (wrapper_getitem name c).
Proof.
  unfold wrapper_getitem. apply stable_bind; [apply stable_get_table|].
  intros ?. apply stable_lift.
Qed.

Lemma stable_update_col {dtypes : Dtypes} t name c s d cast :
  name ≠ t → stable t (update_col_from_series name c s d cast).
Proof.
  intros Hne. unfold update_col_from_series.
  apply stable_bind; [apply stable_get_table|]. intros ?.
  apply stable_bind; [apply stable_lift|]. intros ?.
  apply stable_bind.
  { case_decide; [|apply stable_ret].
    destruct cast; [apply stable_lift|apply stable_raise]. }
  intros ?. apply stable_bind; [apply stable_lift|]. intros ?.
  by apply stable_add_table.
Qed.

Lemma stable_print_unplaced t df fieldname :
  stable t (_print_number_unplaced df fieldname).
Proof.
  unfold _print_number_unplaced.
  apply stable_bind; [apply stable_wrapper_getitem|]. intros ?.
  apply stable_print_format.
Qed.

(** ** The final clip *)





(** ** Prices: what the choice is given and what is stored in the end *)


Section PriceProperties.
Context {orca : Orca} {urbansim : Urbansim} {dtypes : Dtypes}.




End PriceProperties.


(** When the predictor raises, the run stops before the clip: the buildings
    keep the corrected price of 150. *)
Example prices_unclipped_when_choice_fails :
  let out := lcm_simulate (orca := plain_orca) (urbansim := failing_urbansim)
               (dtypes := sample_dtypes) "hlcm.yaml" "households" "buildings"
               (JoinList []) "building_id" "residential_units" "vacant_units"
               (Some sample_correction) false (float_of_Z 2) None choice_world in
  out.1 = Raise (ValueError "no alternatives")
  ∧ column_of (TABLES out.2) "buildings" "price" = [Num 150; Num 100].
Proof. split; by vm_compute. Qed.


(** * Further properties of the code *)

(** ** What [check_nas] prints *)

Lemma count_na_count (df : DataFrame) (c : string) :
  count (replace_inf df) c + na_count df c = len df.
Proof.
  unfold count, na_count, len, replace_inf. cbn [rows].
  induction (rows df) as [|r rs IH]; [done|].
  rewrite fmap_cons, !filter_cons, at_col_replace_inf. cbn [length].
  destruct (decide (is_na (at_col c r))) as [Hna|Hna].
  - rewrite decide_False.
    + cbn [length]. lia.
    + intros Hne. apply Hne. by destruct Hna as [->|[->| ->]].
  - rewrite decide_True.
    + cbn [length]. lia.
    + unfold is_na in Hna. destruct (at_col c r); try done; exfalso; auto.
Qed.

Lemma na_count_pos (df : DataFrame) (c : string) :
  0 < na_count df c ↔ Exists (λ r, is_na (at_col c r)) (rows df).
Proof.
  rewrite <- count_short. pose proof (count_na_count df c).
  assert (0 ≤ na_count df c) by (unfold na_count; lia). lia.
Qed.

Lemma check_columns_report (df : DataFrame) (cols : list string) (fail : bool)
    (w : world) :
  check_columns (replace_inf df) (len df) cols fail w
  = (Ok (bool_decide
           (fail = true
            ∨ Exists (λ c, Exists (λ r, is_na (at_col c r)) (rows df)) cols)),
     World (TABLES w)
           (stdout w
            ++ ((λ c, Line "Found %d nas or inf (out of %d) in column %s"
                           [AInt (na_count df c); AInt (len df); AStr c])
                  <$> filter (λ c, 0 < na_count df c) cols))
           (rng w) (calls w)).
Proof.
  revert fail w. induction cols as [|c cols IH]; intros fail w.
  - cbn. rewrite app_nil_r. destruct w. cbn. destruct fail.
    + rewrite bool_decide_eq_true_2; [done|]. by left.
    + rewrite bool_decide_eq_false_2; [done|]. intros [?|?%Exists_nil]; done.
  - cbn [check_columns]. rewrite filter_cons. case_bool_decide as Hshort.
    + pose proof Hshort as Hex. apply count_short in Hex.
      rewrite decide_True by by apply na_count_pos.
      rewrite bind_run. unfold print at 1. rewrite IH. cbn [TABLES rng calls stdout].
      rewrite fmap_cons, <- app_assoc. cbn [app].
      replace (len df - count (replace_inf df) c) with (na_count df c)
        by (pose proof (count_na_count df c); lia).
      do 2 f_equal. rewrite !bool_decide_eq_true_2; [done|..].
      * right. by left.
      * by left.
    + rewrite decide_False.
      2:{ rewrite na_count_pos, <- count_short. by intros []. }
      rewrite IH. do 2 f_equal. apply bool_decide_ext. rewrite Exists_cons.
      rewrite <- count_short. intuition.
Qed.

(** X1: [check_nas] prints, for each column of the frame that holds a NaN
    or an infinity and in the order of the columns, the number of such
    cells, the number of rows and the column name, and then raises; on a
    frame without such cells it prints nothing and returns.  In both cases
    the registry is left alone. *)
Theorem check_nas_report (df : DataFrame) (w : world) :
  check_nas df w
  = (if decide (has_na df)
     then Raise (AssertionError "NAs were found in dataframe, please fix")
     else Ok tt,
     World (TABLES w) (stdout w ++ na_report df) (rng w) (calls w))
  ∧ (¬ has_na df → na_report df = []).
Proof.
  split.
  - unfold check_nas. rewrite bind_run.
    change (columns (replace_inf df)) with (columns df).
    rewrite check_columns_report. unfold has_na, na_report.
    destruct (decide (Exists _ (columns df))) as [Hna|Hna].
    + by rewrite bool_decide_eq_true_2 by (by right).
    + by rewrite bool_decide_eq_false_2 by (intros [?|?]; done).
  - intros Hna. unfold na_report. rewrite filter_none; [done|].
    apply Forall_forall. intros c Hc Hpos. apply Hna. unfold has_na.
    apply Exists_exists. exists c. split; [done|]. by apply na_count_pos.
Qed.

(** ** Redevelopment removal: failures, output and repetition *)

Lemma unplace_one_out (d : DataFrame) (tbl : string) (w w' : world) (r : res unit) :
  unplace_one d tbl w = (r, w') →
  rng w' = rng w
  ∧ ∃ more, stdout w' = stdout w ++ more ∧ Forall unplaced_text more
            ∧ (is_ok r = true → length more = 2%nat).
Proof.
  unfold unplace_one. rewrite bind_run. unfold get_table.
  destruct (TABLES w !! tbl) as [agents|] eqn:Ht.
  2:{ intros [= <- <-]. split; [done|]. exists []. by rewrite app_nil_r. }
  rewrite bind_run. unfold lift, column. case_decide as Hc.
  2:{ intros [= <- <-]. split; [done|]. exists []. by rewrite app_nil_r. }
  rewrite bind_run, print_format_run by reflexivity.
  rewrite bind_run. unfold add_table at 1. cbn [TABLES stdout rng calls].
  rewrite print_format_run by reflexivity. cbn [TABLES stdout rng calls].
  intros [= <- <-]. split; [done|]. rewrite <- app_assoc. eexists. split; [done|].
  split; [|done]. repeat constructor; first [by left | by right].
Qed.

Lemma unplace_loop_out (d : DataFrame) (ts : list string) (w w' : world)
    (r : res unit) :
  for_each ts (unplace_one d) w = (r, w') →
  rng w' = rng w
  ∧ ∃ more, stdout w' = stdout w ++ more ∧ Forall unplaced_text more
            ∧ (is_ok r = true → length more = (2 * length ts)%nat).
Proof.
  revert w. induction ts as [|t ts IH]; intros w.
  - cbn. intros [= <- <-]. split; [done|]. exists []. by rewrite app_nil_r.
  - cbn [for_each]. rewrite bind_run.
    destruct (unplace_one d t w) as [[[]|e] w1] eqn:Hone.
    + apply unplace_one_out in Hone as (Hrng & m1 & Hout & Htext & Hlen).
      intros Hrest. apply IH in Hrest as (Hrng' & m2 & Hout' & Htext' & Hlen').
      split; [congruence|]. exists (m1 ++ m2). rewrite Hout', Hout, app_assoc.
      split; [done|]. split; [by apply Forall_app|].
      intros Hok. rewrite length_app, Hlen, Hlen' by done. cbn [length]. lia.
    + apply unplace_one_out in Hone as (Hrng & m1 & Hout & Htext & _).
      intros [= <- <-]. split; [done|]. exists m1. by split.
Qed.

(** A loop that fails names a table that is not registered or that has no
    [building_id] column. *)
Lemma unplace_loop_raise (d : DataFrame) (ts : list string) (w w' : world)
    (e : exn) :
  for_each ts (unplace_one d) w = (Raise e, w') →
  ∃ t, t ∈ ts
       ∧ ((e = KeyError t ∧ TABLES w' !! t = None)
          ∨ (e = AttributeError "building_id"
             ∧ ∃ agents, TABLES w' !! t = Some agents
                         ∧ "building_id" ∉ columns agents)).
Proof.
  revert w. induction ts as [|t ts IH]; intros w.
  - cbn. intros [=].
  - cbn [for_each]. rewrite bind_run.
    pose proof (unplace_one_run d t w) as Hone.
    destruct (TABLES w !! t) as [agents|] eqn:Ht.
    2:{ rewrite Hone. intros [= <- <-]. exists t. split; [by left|]. by left. }
    case_decide as Hc.
    2:{ rewrite Hone. intros [= <- <-]. exists t. split; [by left|].
        right. split; [done|]. by exists agents. }
    destruct Hone as [out ->]. intros Hrest.
    apply IH in Hrest as (u & Hu & Hcase). exists u. split; [by right|done].
Qed.

(** The loop succeeds on tables that are registered with a [building_id]
    column, and leaves them so. *)
Lemma unplace_loop_placeable (d : DataFrame) (ts : list string) (w : world) :
  (∀ t, t ∈ ts → placeable w t) →
  ∃ w', for_each ts (unplace_one d) w = (Ok tt, w').
Proof.
  revert w. induction ts as [|t ts IH]; intros w Hts.
  - by exists w.
  - cbn [for_each]. rewrite bind_run.
    pose proof (unplace_one_run d t w) as Hone.
    destruct (Hts t) as (agents & Ht & Hc); [by left|].
    rewrite Ht, decide_True in Hone by done. destruct Hone as [out ->].
    apply IH. intros u Hu. unfold placeable. cbn [TABLES].
    destruct (decide (u = t)) as [->|Hne].
    + exists (unplaced (index d) agents). by rewrite lookup_insert_eq.
    + destruct (Hts u) as (a & Ha & Hca); [by right|].
      exists a. by rewrite lookup_insert_ne.
Qed.

Lemma unplace_loop_ok_placeable (d : DataFrame) (ts : list string) (w w' : world) :
  for_each ts (unplace_one d) w = (Ok tt, w') →
  ∀ t, t ∈ ts → placeable w' t.
Proof.
  intros Hrun t Hin.
  pose proof (unplace_loop_ok _ _ _ _ Hrun) as [Htabs _].
  revert w Hrun Htabs. induction ts as [|u ts IH]; intros w Hrun Htabs.
  - by apply elem_of_nil in Hin.
  - cbn [for_each] in Hrun. rewrite bind_run in Hrun.
    pose proof (unplace_one_run d u w) as Hone.
    destruct (TABLES w !! u) as [agents|] eqn:Hu.
    2:{ by rewrite Hone in Hrun. }
    case_decide as Hc.
    2:{ by rewrite Hone in Hrun. }
    destruct (decide (t ∈ ts)) as [Hts|Hts].
    + destruct Hone as [out Hone]. rewrite Hone in Hrun.
      apply (IH Hts _ Hrun). by apply unplace_loop_ok in Hrun as [? _].
    + apply elem_of_cons in Hin as [->|?]; [|done].
      exists (unplaced (index d) agents). split; [|done].
      rewrite Htabs, decide_True by by left. by rewrite Hu.
Qed.

Lemma len_kept_frame (old new : DataFrame) :
  len old - len (kept_frame old new)
  = Z.of_nat (length (removed_rows old new)).
Proof.
  unfold len, kept_frame, removed_rows. cbn [rows].
  pose proof (filter_app_complement
                (λ b, at_col "parcel_id" b ∈ parcels new) (rows old)) as Hperm.
  apply Permutation_length in Hperm. rewrite length_app in Hperm.
  unfold not in *. lia.
Qed.

(** The run with its output written out. *)
Lemma remove_run_out (old new : DataFrame) (ts : list string) (w : world) :
  "parcel_id" ∈ columns old → "parcel_id" ∈ columns new →
  _remove_developed_buildings old new ts w
  = match for_each ts (unplace_one (drop_frame old new))
            (World (<["dropped_buildings" := recorded (drop_frame old new) w]>
                      (TABLES w))
                   (stdout w
                    ++ if decide (removed_rows old new = []) then []
                       else [dropped_line
                               (Z.of_nat (length (removed_rows old new)))])
                   (rng w) (calls w)) with
    | (Ok _, w') => (Ok (kept_frame old new), w')
    | (Raise e, w') => (Raise e, w')
    end.
Proof.
  intros Ho Hn. unfold _remove_developed_buildings.
  rewrite bind_run. unfold lift at 1, column at 1. rewrite decide_True by done.
  rewrite bind_run. unfold lift at 1, column at 1. rewrite decide_True by done.
  assert (mask_rows old (isin (at_col "parcel_id" <$> rows old)
                              (at_col "parcel_id" <$> rows new))
          = drop_frame old new) as ->.
  { unfold mask_rows, drop_frame, removed_rows, parcels. by rewrite select_isin. }
  assert (mask_rows old (negb <$> isin (at_col "parcel_id" <$> rows old)
                                       (at_col "parcel_id" <$> rows new))
          = kept_frame old new) as ->.
  { unfold mask_rows, kept_frame, parcels. by rewrite select_not_isin. }
  rewrite bind_run, record_dropped_run.
  rewrite bind_run, len_kept_frame.
  case_bool_decide as Hpos.
  - rewrite print_format_run by reflexivity.
    cbn [TABLES stdout rng calls]. rewrite bind_run.
    rewrite decide_False by (intros Hnil; rewrite Hnil in Hpos; cbn in Hpos; lia).
    unfold dropped_line.
    destruct (for_each ts _ _) as [[[]|e] w']; reflexivity.
  - unfold mret at 1, M_ret at 1. rewrite bind_run.
    rewrite decide_True by (destruct (removed_rows old new); [done|cbn in Hpos; lia]).
    rewrite app_nil_r.
    destruct (for_each ts _ _) as [[[]|e] w']; reflexivity.
Qed.

(** X2: a call of [_remove_developed_buildings] that raises does so in one
    of two ways.  Either a frame has no [parcel_id] column: the error is an
    AttributeError for it and nothing was touched.  Or a table named in
    [unplace_agents] is not registered (KeyError with its name) or has no
    [building_id] column (AttributeError): then the removed buildings are
    already recorded under [dropped_buildings], in front of the rows that
    were there, although the caller gets no table back. *)
Theorem remove_developed_failures
    (old new : DataFrame) (unplace_agents : list string) (w w' : world) (e : exn) :
  _remove_developed_buildings old new unplace_agents w = (Raise e, w') →
  (e = AttributeError "parcel_id" ∧ w' = w
   ∧ ("parcel_id" ∉ columns old ∨ "parcel_id" ∉ columns new))
  ∨ ("parcel_id" ∈ columns old ∧ "parcel_id" ∈ columns new
     ∧ ("dropped_buildings" ∉ unplace_agents →
        dropped w' = removed_rows old new ++ dropped w)
     ∧ ∃ t, t ∈ unplace_agents
            ∧ ((e = KeyError t ∧ TABLES w' !! t = None)
               ∨ (e = AttributeError "building_id"
                  ∧ ∃ agents, TABLES w' !! t = Some agents
                              ∧ "building_id" ∉ columns agents))).
Proof.
  intros Hrun.
  destruct (decide ("parcel_id" ∈ columns old)) as [Ho|Ho].
  2:{ rewrite remove_run_missing_old in Hrun by done.
      injection Hrun as <- <-. left. auto. }
  destruct (decide ("parcel_id" ∈ columns new)) as [Hn|Hn].
  2:{ rewrite remove_run_missing_new in Hrun by done.
      injection Hrun as <- <-. left. auto. }
  right. split; [done|]. split; [done|]. split.
  - intros Hnot.
    pose proof (dropped_after_call old new unplace_agents w Hnot Ho Hn) as Hrec.
    rewrite Hrun in Hrec. cbn in Hrec. unfold dropped at 1. rewrite Hrec.
    by rewrite dropped_recorded.
  - rewrite remove_run_out in Hrun by done.
    destruct (for_each unplace_agents _ _) as [[[]|e1] w1] eqn:Hloop; [done|].
    injection Hrun as <- <-. by apply unplace_loop_raise in Hloop.
Qed.

Lemma remove_developed_failures_witness :
  ∃ w', _remove_developed_buildings sample_old sample_new ["jobs"] sample_world
        = (Raise (KeyError "jobs"), w')
        ∧ dropped w' = removed_rows sample_old sample_new ++ dropped sample_world.
Proof.
  destruct (_remove_developed_buildings sample_old sample_new ["jobs"]
              sample_world) as [[old'|e] w'] eqn:Hrun.
  { exfalso.
    assert (is_ok (_remove_developed_buildings sample_old sample_new ["jobs"]
                     sample_world).1 = false) as Hok by (by vm_compute).
    by rewrite Hrun in Hok. }
  exists w'.
  destruct (remove_developed_failures _ _ _ _ _ _ Hrun)
    as [(_ & _ & [Hc|Hc])|(_ & _ & Hdrop & t & Ht & Hcase)].
  - exfalso. apply Hc. apply (bool_decide_unpack _). by vm_compute.
  - exfalso. apply Hc. apply (bool_decide_unpack _). by vm_compute.
  - apply list_elem_of_singleton in Ht as ->. split.
    + destruct Hcase as [[-> _]|[_ (agents & Hreg & _)]]; [done|].
      exfalso.
      assert ((_remove_developed_buildings sample_old sample_new ["jobs"]
                 sample_world).2.(TABLES) !! "jobs" = None) as Hnone
        by (by vm_compute).
      rewrite Hrun in Hnone. cbn in Hnone. congruence.
    + apply Hdrop. apply (bool_decide_unpack _). by vm_compute.
Defined.

(** X3: a successful call of [_remove_developed_buildings] splits the old
    buildings: the rows it returns together with the removed rows are the
    rows it was given, each once.  It prints the number of removed
    buildings when there is one, and no such line otherwise; all that
    follows on the output are the two lines of each table of
    [unplace_agents]. *)
Theorem remove_developed_partition
    (old new : DataFrame) (unplace_agents : list string) (w w' : world)
    (old' : DataFrame) :
  _remove_developed_buildings old new unplace_agents w = (Ok old', w') →
  rows old ≡ₚ rows old' ++ removed_rows old new
  ∧ len old' = len old - Z.of_nat (length (removed_rows old new))
  ∧ ∃ more,
      stdout w'
      = stdout w
        ++ (if decide (removed_rows old new = []) then []
            else [dropped_line (Z.of_nat (length (removed_rows old new)))])
        ++ more
      ∧ Forall unplaced_text more
      ∧ length more = (2 * length unplace_agents)%nat.
Proof.
  intros Hrun. pose proof (remove_ok_columns _ _ _ _ _ _ Hrun) as [Ho Hn].
  rewrite remove_run_out in Hrun by done.
  destruct (for_each unplace_agents _ _) as [[[]|e] w1] eqn:Hloop; [|done].
  injection Hrun as <- <-. split; [|split].
  - unfold kept_frame, removed_rows. cbn [rows].
    rewrite (Permutation_app_comm (filter _ _)).
    symmetry. apply filter_app_complement.
  - pose proof (len_kept_frame old new). lia.
  - apply unplace_loop_out in Hloop as (_ & more & Hout & Htext & Hlen).
    cbn [stdout] in Hout. exists more. rewrite Hout, <- app_assoc.
    split; [done|]. split; [done|]. by apply Hlen.
Qed.

Lemma remove_developed_partition_witness :
  ∃ old' w',
    _remove_developed_buildings sample_old sample_new ["households"] sample_world
    = (Ok old', w')
    ∧ len old' = 1
    ∧ dropped_line 2 ∈ stdout w'.
Proof.
  destruct (_remove_developed_buildings sample_old sample_new ["households"]
              sample_world) as [[old'|e] w'] eqn:Hrun.
  2:{ exfalso.
      assert (is_ok (_remove_developed_buildings sample_old sample_new
                       ["households"] sample_world).1 = true) as Hok
        by (by vm_compute).
      by rewrite Hrun in Hok. }
  exists old', w'. split; [done|].
  destruct (remove_developed_partition _ _ _ _ _ _ Hrun)
    as (_ & Hlen & more & Hout & _).
  split.
  - rewrite Hlen. by vm_compute.
  - rewrite Hout.
    assert (removed_rows sample_old sample_new = [building 2 20; building 3 20])
      as -> by (by vm_compute).
    rewrite decide_False by done. cbn [length]. set_solver.
Defined.

Lemma remove_developed_rng (old new : DataFrame) (ts : list string) (w w' : world)
    (r : res DataFrame) :
  _remove_developed_buildings old new ts w = (r, w') → rng w' = rng w.
Proof.
  intros Hrun.
  destruct (decide ("parcel_id" ∈ columns old)) as [Ho|Ho].
  2:{ rewrite remove_run_missing_old in Hrun by done. by injection Hrun as <- <-. }
  destruct (decide ("parcel_id" ∈ columns new)) as [Hn|Hn].
  2:{ rewrite remove_run_missing_new in Hrun by done. by injection Hrun as <- <-. }
  rewrite remove_run_out in Hrun by done.
  destruct (for_each ts _ _) as [r1 w1] eqn:Hloop.
  apply unplace_loop_out in Hloop as [Hrng _]. cbn [rng] in Hrng.
  by destruct r1; injection Hrun as <- <-.
Qed.

Lemma stable_remove_developed (t : string) (old new : DataFrame) (ts : list string) :
  t ∉ ts → t ≠ "dropped_buildings" →
  stable t (_remove_developed_buildings old new ts).
Proof.
  intros Hnot Hne w r w' Hrun.
  destruct (decide ("parcel_id" ∈ columns old)) as [Ho|Ho].
  2:{ rewrite remove_run_missing_old in Hrun by done. by injection Hrun as <- <-. }
  destruct (decide ("parcel_id" ∈ columns new)) as [Hn|Hn].
  2:{ rewrite remove_run_missing_new in Hrun by done. by injection Hrun as <- <-. }
  rewrite remove_run_out in Hrun by done.
  destruct (for_each ts _ _) as [r1 w1] eqn:Hloop.
  apply (unplace_loop_frame _ _ _ _ _ t) in Hloop; [|done].
  cbn [TABLES] in Hloop. rewrite lookup_insert_ne in Hloop by done.
  by destruct r1; injection Hrun as <- <-.
Qed.

(** X4: whatever its outcome, [_remove_developed_buildings] leaves the
    random state and the log of collaborator calls alone, and changes no
    registered table other than the record of dropped buildings and the
    tables named in [unplace_agents]. *)
Theorem remove_developed_frame
    (old new : DataFrame) (unplace_agents : list string) (w w' : world)
    (r : res DataFrame) :
  _remove_developed_buildings old new unplace_agents w = (r, w') →
  rng w' = rng w ∧ calls w' = calls w
  ∧ ∀ t, t ∉ unplace_agents → t ≠ "dropped_buildings" →
         TABLES w' !! t = TABLES w !! t.
Proof.
  intros Hrun. split; [|split].
  - by apply remove_developed_rng in Hrun.
  - by apply (quiet_remove_developed old new unplace_agents w r w').
  - intros t Hnot Hne.
    by apply (stable_remove_developed t old new unplace_agents Hnot Hne w r w').
Qed.

Lemma kept_frame_parcels (old new : DataFrame) (b n : row) :
  b ∈ rows (kept_frame old new) → n ∈ rows new →
  at_col "parcel_id" b ≠ at_col "parcel_id" n.
Proof.
  unfold kept_frame. cbn [rows]. intros [Hb _]%list_elem_of_filter Hn Heq.
  apply Hb. unfold parcels. apply list_elem_of_fmap. by exists n.
Qed.

(** X5: removal is idempotent.  After a successful call of
    [_remove_developed_buildings] a second call with the returned table,
    the same new buildings and the same [unplace_agents] succeeds, returns
    the table it was given, records no row as dropped and changes no other
    registered table. *)
Theorem remove_developed_again
    (old new : DataFrame) (unplace_agents : list string) (w w' : world)
    (old' : DataFrame) :
  "dropped_buildings" ∉ unplace_agents →
  _remove_developed_buildings old new unplace_agents w = (Ok old', w') →
  ∃ w'',
    _remove_developed_buildings old' new unplace_agents w' = (Ok old', w'')
    ∧ dropped w'' = dropped w'
    ∧ ∀ t, t ≠ "dropped_buildings" → TABLES w'' !! t = TABLES w' !! t.
Proof.
  intros Hnot Hrun. pose proof (remove_ok_columns _ _ _ _ _ _ Hrun) as [Ho Hn].
  apply remove_ok_inv in Hrun as [-> [out Hloop]].
  pose proof (unplace_loop_ok_placeable _ _ _ _ Hloop) as Hplace.
  assert (removed_rows (kept_frame old new) new = []) as Hnone.
  { apply removed_rows_disjoint. intros b n. apply kept_frame_parcels. }
  assert (kept_frame (kept_frame old new) new = kept_frame old new) as Hkept.
  { apply kept_frame_disjoint. intros b n. apply kept_frame_parcels. }
  rewrite (remove_run_out (kept_frame old new) new) by done.
  rewrite Hnone, Hkept. cbn [decide_rel]. rewrite decide_True by done.
  match goal with
  | |- context [for_each _ _ ?w2] =>
      destruct (unplace_loop_placeable
                  (drop_frame (kept_frame old new) new) unplace_agents w2)
        as [w'' Hagain]
  end.
  { intros t Ht. destruct (Hplace t Ht) as (agents & Hreg & Hc).
    exists agents. cbn [TABLES]. rewrite lookup_insert_ne; [done|].
    intros <-. done. }
  rewrite Hagain. exists w''. split; [done|].
  apply unplace_loop_ok in Hagain as [Htabs _]. cbn [TABLES] in Htabs.
  rewrite index_drop_frame, Hnone in Htabs.
  assert (∀ t, TABLES w'' !! t
               = <["dropped_buildings"
                   := recorded (drop_frame (kept_frame old new) new) w']>
                   (TABLES w') !! t) as Hsame.
  { intros t. rewrite Htabs. case_decide; [|done].
    destruct (_ !! t) as [df|]; cbn; [|done]. by rewrite unplaced_nil. }
  split.
  - unfold dropped at 1. rewrite Hsame, lookup_insert_eq.
    rewrite dropped_recorded. cbn [rows drop_frame]. by rewrite Hnone.
  - intros t Hne. by rewrite Hsame, lookup_insert_ne.
Qed.

Lemma remove_developed_again_witness :
  ∃ old' w' w'',
    _remove_developed_buildings sample_old sample_new ["households"] sample_world
    = (Ok old', w')
    ∧ _remove_developed_buildings old' sample_new ["households"] w'
      = (Ok old', w'')
    ∧ dropped w'' = dropped w'.
Proof.
  destruct (_remove_developed_buildings sample_old sample_new ["households"]
              sample_world) as [[old'|e] w'] eqn:Hrun.
  2:{ exfalso.
      assert (is_ok (_remove_developed_buildings sample_old sample_new
                       ["households"] sample_world).1 = true) as Hok
        by (by vm_compute).
      by rewrite Hrun in Hok. }
  assert ("dropped_buildings" ∉ ["households"]) as Hnot
    by (apply (bool_decide_unpack _); by vm_compute).
  destruct (remove_developed_again _ _ _ _ _ _ Hnot Hrun) as (w'' & Hagain & Hdrop & _).
  by exists old', w', w''.
Defined.

Lemma remove_developed_frame_witness :
  rng (_remove_developed_buildings sample_old sample_new ["households"]
         sample_world).2 = rng sample_world
  ∧ TABLES (_remove_developed_buildings sample_old sample_new ["households"]
              sample_world).2 !! "jobs" = TABLES sample_world !! "jobs".
Proof.
  destruct (_remove_developed_buildings sample_old sample_new ["households"]
              sample_world) as [r w'] eqn:Hrun.
  destruct (remove_developed_frame _ _ _ _ _ _ Hrun) as (Hrng & _ & Htabs).
  split; [done|]. apply Htabs; [|done].
  apply (bool_decide_unpack _). by vm_compute.
Defined.

(** ** The developer driver and scheduled development events *)

Section DevelopmentMore.
Context {developer : Developer}.

Lemma target_units_of_world agents buildings supply_fname vacancy num w w'
    (r : res Z) :
  target_units_of agents buildings supply_fname vacancy num w = (r, w') →
  ∃ more, w' = World (TABLES w) (stdout w ++ more) (rng w) (calls w).
Proof.
  assert (∃ more, w = World (TABLES w) (stdout w ++ more) (rng w) (calls w))
    as Hsame.
  { exists []. rewrite app_nil_r. by destruct w. }
  unfold target_units_of. destruct (truthy num) as [n|].
  - by intros [= <- <-].
  - rewrite bind_run. unfold wrapper_len. rewrite bind_run. unfold get_table at 1.
    destruct (TABLES w !! agents) as [adf|]; [|by intros [= <- <-]].
    unfold mret at 1, M_ret at 1. rewrite bind_run.
    unfold wrapper_getitem. rewrite bind_run. unfold get_table.
    destruct (TABLES w !! buildings) as [bdf|]; [|by intros [= <- <-]].
    unfold lift. destruct (getitem bdf supply_fname); [|by intros [= <- <-]].
    unfold printed. intros [= <- <-]. by eexists.
Qed.

(** X6: [num_units_to_build] being [None] or zero, [run_developer] needs
    the supply column of the buildings table: when the table lacks it the
    call raises a KeyError for the column before the developer is asked to
    pick, and nothing is changed. *)
Theorem run_developer_missing_supply
    forms agents buildings supply_fname options feasibility year vacancy
    callback1 callback2 remove unplace num (w : world)
    (feasibility_df agents_df buildings_df : DataFrame) :
  TABLES w !! feasibility = Some feasibility_df →
  TABLES w !! agents = Some agents_df →
  TABLES w !! buildings = Some buildings_df →
  supply_fname ∉ columns buildings_df →
  num = None ∨ num = Some 0 →
  run_developer forms agents buildings supply_fname options feasibility year
    vacancy callback1 callback2 remove unplace num w
  = (Raise (KeyError supply_fname), w).
Proof.
  intros Hf Ha Hb Hc Hnum. unfold run_developer.
  rewrite bind_run. unfold get_table at 1. rewrite Hf. rewrite bind_run.
  assert (truthy num = None) as Htruthy by (by destruct Hnum as [-> | ->]).
  unfold target_units_of. rewrite Htruthy.
  rewrite bind_run, (wrapper_len_run _ _ _ Ha).
  rewrite bind_run, (wrapper_getitem_run _ _ _ _ Hb).
  unfold getitem. by rewrite decide_False.
Qed.

(** X7: when the developer picks nothing ([None] or a frame without rows)
    [run_developer] returns what was picked, having replaced the table
    registered as [feasibility] by the developer's and noted the call of
    [pick]: the buildings table is not rewritten, no building is removed,
    no agent is unplaced and nothing is printed after the target is
    known. *)
Theorem run_developer_nothing_built
    forms agents buildings supply_fname options feasibility year vacancy
    callback1 callback2 remove unplace num (w w1 : world)
    (feasibility_df dev_feasibility : DataFrame) (target : Z)
    (picked : option DataFrame) (g : N) :
  TABLES w !! feasibility = Some feasibility_df →
  target_units_of agents buildings supply_fname vacancy num w = (Ok target, w1) →
  pick feasibility_df forms target options (rng w)
  = (Ok (picked, dev_feasibility), g) →
  (∀ new_buildings, picked = Some new_buildings → len new_buildings = 0) →
  run_developer forms agents buildings supply_fname options feasibility year
    vacancy callback1 callback2 remove unplace num w
  = (Ok picked,
     World (<["feasibility" := dev_feasibility]> (TABLES w)) (stdout w1) g
           (calls w ++ [CallPick target])).
Proof.
  intros Hf Ht Hpick Hnone.
  destruct (target_units_of_world _ _ _ _ _ _ _ _ Ht) as [more ->].
  unfold run_developer.
  rewrite bind_run. unfold get_table at 1. rewrite Hf.
  rewrite bind_run, Ht. rewrite bind_run. unfold note at 1.
  rewrite bind_run. unfold draw at 1. cbn [rng TABLES stdout calls].
  rewrite Hpick. rewrite bind_run. unfold add_table at 1.
  cbn [rng TABLES stdout calls].
  destruct picked as [new_buildings|]; [|done].
  by rewrite bool_decide_eq_true_2 by by apply Hnone.
Qed.


End DevelopmentMore.

Lemma run_developer_missing_supply_witness :
  run_developer (developer := idle_developer) (OneForm "residential")
    "households" "buildings" "job_spaces" tt "feasibility"
    None (decimal 1 10) None None true ["households"] (Some 0) developer_world
  = (Raise (KeyError "job_spaces"), developer_world).
Proof.
  apply (run_developer_missing_supply (developer := idle_developer)
           (OneForm "residential") "households" "buildings" "job_spaces" tt
           "feasibility" None (decimal 1 10) None None true ["households"] (Some 0)
           developer_world sample_feasibility sample_households sample_supply).
  - by vm_compute.
  - by vm_compute.
  - by vm_compute.
  - apply (bool_decide_unpack _). by vm_compute.
  - by right.
Defined.

Lemma run_developer_nothing_built_witness :
  run_developer (developer := idle_developer) (OneForm "residential")
    "households" "buildings" "residential_units" tt "feasibility"
    None (decimal 1 10) None None true ["households"] (Some 5) developer_world
  = (Ok None,
     World (<["feasibility" := sample_feasibility]> (TABLES developer_world))
           [] 0%N [CallPick 5]).
Proof.
  apply (run_developer_nothing_built (developer := idle_developer)
           (OneForm "residential") "households" "buildings" "residential_units"
           tt "feasibility" None (decimal 1 10) None None true ["households"]
           (Some 5) developer_world developer_world sample_feasibility
           sample_feasibility 5 None 0%N).
  - by vm_compute.
  - by vm_compute.
  - by vm_compute.
  - intros new_buildings [=].
Defined.


(** ** What a failure leaves behind *)





Section DevelopmentFailures.
Context {developer : Developer}.


(** X9: a successful call of [scheduled_development_events] returns the new
    buildings cut down to the columns of the buildings table and registers,
    under the name [buildings], what [merge] makes of the old buildings and
    these; with [remove_developed_buildings] the old buildings handed to
    [merge] are those on no parcel of a new building, and without it no
    other registered table is changed. *)
Theorem scheduled_events_registered
    (buildings : string) (new_buildings : DataFrame) (remove : bool)
    (unplace_agents : list string) (w w' : world) (ret : DataFrame) :
  scheduled_development_events buildings new_buildings remove unplace_agents w
  = (Ok ret, w') →
  ∃ old,
    TABLES w !! buildings = Some old
    ∧ select_columns new_buildings (columns old) = Ok ret
    ∧ TABLES w' !! "buildings"
      = Some (merge (if remove then kept_frame old ret else old) ret).1
    ∧ (remove = false →
       ∀ t, t ≠ "buildings" → TABLES w' !! t = TABLES w !! t).
Proof.
  intros Hrun. unfold scheduled_development_events in Hrun.
  apply bind_ok_inv in Hrun as ([] & w1 & Hp & Hrun).
  apply print_format_ok_inv in Hp as ->.
  apply bind_ok_inv in Hrun as (old & w1 & Hold & Hrun).
  apply get_table_ok_inv in Hold as [-> Hold]. cbn [TABLES] in Hold.
  apply bind_ok_inv in Hrun as (new & w1 & Hnew & Hrun).
  apply lift_ok_inv in Hnew as [Hnew ->].
  apply bind_ok_inv in Hrun as (units & w1 & Hunits & Hrun).
  apply lift_ok_inv in Hunits as [_ ->].
  apply bind_ok_inv in Hrun as ([] & w1 & Hp & Hrun).
  apply print_format_ok_inv in Hp as ->.
  apply bind_ok_inv in Hrun as (sqft & w1 & Hsqft & Hrun).
  apply lift_ok_inv in Hsqft as [_ ->].
  apply bind_ok_inv in Hrun as ([] & w1 & Hp & Hrun).
  apply print_format_ok_inv in Hp as ->. cbn [TABLES stdout rng calls] in Hrun.
  apply bind_ok_inv in Hrun as (old' & w1 & Hremove & Hrun).
  apply bind_ok_inv in Hrun as (units' & w2 & Hunits & Hrun).
  apply lift_ok_inv in Hunits as [_ ->].
  apply bind_ok_inv in Hrun as ([] & w2 & Hp & Hrun).
  apply print_format_ok_inv in Hp as ->.
  apply bind_ok_inv in Hrun as (sqft' & w2 & Hsqft & Hrun).
  apply lift_ok_inv in Hsqft as [_ ->].
  apply bind_ok_inv in Hrun as ([] & w2 & Hp & Hrun).
  apply print_format_ok_inv in Hp as ->. cbn [TABLES stdout rng calls] in Hrun.
  apply bind_ok_inv in Hrun as ([] & w2 & Hadd & Hrun).
  unfold add_table in Hadd. injection Hadd as <-.
  apply ret_ok_inv in Hrun as [-> ->].
  exists old. split; [done|]. split; [done|]. cbn [TABLES].
  rewrite lookup_insert_eq. destruct remove.
  - apply remove_ok_inv in Hremove as [-> _]. split; [done|]. intros [=].
  - apply ret_ok_inv in Hremove as [-> ->]. split; [done|].
    intros _ t Hne. cbn [TABLES]. by rewrite lookup_insert_ne.
Qed.


End DevelopmentFailures.

Lemma scheduled_events_registered_witness :
  ∃ ret w',
    scheduled_development_events (developer := building_developer) "buildings"
      sample_proposal true ["households"] stock_world = (Ok ret, w')
    ∧ columns ret = columns sample_stock
    ∧ index <$> TABLES w' !! "buildings" = Some [1; 2].
Proof.
  destruct (scheduled_development_events (developer := building_developer)
              "buildings" sample_proposal true ["households"] stock_world)
    as [[ret|e] w'] eqn:Hrun.
  2:{ exfalso.
      assert (is_ok (scheduled_development_events
                       (developer := building_developer) "buildings"
                       sample_proposal true ["households"] stock_world).1
              = true) as Hok by (by vm_compute).
      by rewrite Hrun in Hok. }
  exists ret, w'. split; [done|].
  destruct (scheduled_events_registered (developer := building_developer)
              _ _ _ _ _ _ _ Hrun) as (old & Hold & Hret & Hreg & _).
  assert (TABLES stock_world !! "buildings" = Some sample_stock) as Hstock
    by (by vm_compute).
  rewrite Hstock in Hold. injection Hold as <-. split.
  - unfold select_columns in Hret. case_bool_decide; [|done].
    by injection Hret as <-.
  - assert (index <$> TABLES (scheduled_development_events
                       (developer := building_developer) "buildings"
                       sample_proposal true ["households"] stock_world).2
                        !! "buildings" = Some [1; 2]) as Hok
      by (by vm_compute).
    by rewrite Hrun in Hok.
Defined.


(** ** Relocation with any sampler *)



Section RelocationMore.
Context {sampler : Sampler} {dtypes : Dtypes}.


(** X12: when the table of agents has no column of the given name,
    [simple_relocation] raises a KeyError for it after its first line of
    output and before it samples: the generator state, the log of calls and
    the registry are as they were. *)
Theorem simple_relocation_missing_field
    (choosers : string) (relocation_rate : float) (fieldname : string)
    (cast : bool) (w : world) (df : DataFrame) :
  TABLES w !! choosers = Some df →
  fieldname ∉ columns df →
  simple_relocation choosers relocation_rate fieldname cast w
  = (Raise (KeyError fieldname),
     World (TABLES w) (stdout w ++ [Line "Total agents: %d" [AInt (len df)]])
           (rng w) (calls w)).
Proof.
  intros Hdf Hc. unfold simple_relocation.
  rewrite bind_run, (wrapper_len_run _ df) by done.
  rewrite bind_run. unfold print at 1.
  rewrite bind_run. unfold _print_number_unplaced at 1.
  rewrite bind_run, (wrapper_getitem_run _ _ df) by done.
  unfold getitem. by rewrite decide_False.
Qed.

(** X21: without [cast], a location column that is not of integers makes
    [simple_relocation] raise a ValueError for the mismatch of dtypes: the
    agents have been sampled, so the generator has moved on, but no agent is
    marked. *)
Theorem simple_relocation_dtype_mismatch
    (choosers : string) (relocation_rate : float) (fieldname : string)
    (w : world) (df : DataFrame) (size : Z) (ids : list Z) (g : N) :
  TABLES w !! choosers = Some df →
  fieldname ∈ columns df →
  column_dtype df fieldname ≠ Int64 →
  int_of_float (float_mul relocation_rate (float_of_Z (len df))) = Ok size →
  random_choice (index df) size (rng w) = (Ok ids, g) →
  ∃ w',
    simple_relocation choosers relocation_rate fieldname false w
    = (Raise (ValueError "Data type mismatch"), w')
    ∧ TABLES w' = TABLES w
    ∧ rng w' = g
    ∧ calls w' = calls w ++ [CallChoice (index df) size].
Proof.
  intros Hdf Hc Hdtype Hint Hchoice. unfold simple_relocation.
  rewrite bind_run, (wrapper_len_run _ df) by done.
  rewrite bind_run. unfold print at 1.
  match goal with |- context [World ?t ?o ?g ?c] => set (w1 := World t o g c) end.
  rewrite bind_run.
  destruct (print_unplaced_run choosers fieldname df w1) as [out2 ->]; [done..|].
  cbn [TABLES rng calls w1]. rewrite bind_run. unfold print at 1.
  cbn [TABLES rng calls stdout].
  match goal with |- context [World ?t ?o ?g ?c] => set (w3 := World t o g c) end.
  rewrite bind_run, (wrapper_index_run _ df) by done.
  rewrite bind_run, (wrapper_len_run _ df) by done.
  rewrite bind_run. unfold lift at 1. rewrite Hint.
  rewrite bind_run. unfold np_random_choice. rewrite bind_run.
  unfold note at 1, draw at 1. cbn [TABLES rng calls stdout w3].
  rewrite Hchoice. rewrite bind_run.
  unfold update_col_from_series. rewrite bind_run. unfold get_table at 1.
  cbn [TABLES]. rewrite Hdf.
  rewrite bind_run. unfold lift at 1. rewrite getitem_ok by done.
  rewrite bind_run. rewrite decide_True by done.
  eexists. split; [reflexivity|]. done.
Qed.

End RelocationMore.


Lemma simple_relocation_missing_field_witness :
  simple_relocation (sampler := head_sampler) (dtypes := sample_dtypes) "households" (decimal 1 2)
    "zone_id" false sample_world
  = (Raise (KeyError "zone_id"),
     World (TABLES sample_world) [Line "Total agents: %d" [AInt 4]] 0%N []).
Proof.
  apply (simple_relocation_missing_field (sampler := head_sampler) (dtypes := sample_dtypes) "households"
           (decimal 1 2) "zone_id" false sample_world sample_households).
  - by vm_compute.
  - apply (bool_decide_unpack _). by vm_compute.
Defined.

Lemma simple_relocation_dtype_mismatch_witness :
  ∃ w',
    simple_relocation (sampler := head_sampler) (dtypes := sample_dtypes)
      "households" (decimal 1 2) "building_id" false float_world
    = (Raise (ValueError "Data type mismatch"), w')
    ∧ TABLES w' = TABLES float_world
    ∧ rng w' = 1%N
    ∧ calls w' = [CallChoice [100; 101] 1].
Proof.
  apply (simple_relocation_dtype_mismatch (sampler := head_sampler)
           (dtypes := sample_dtypes) "households" (decimal 1 2) "building_id"
           float_world float_households 1 [100] 1%N).
  - by vm_compute.
  - apply (bool_decide_unpack _). by vm_compute.
  - by vm_compute.
  - by vm_compute.
  - by vm_compute.
Defined.

(** ** Transitions *)

Lemma loc_assign_ok (df df' : DataFrame) (labels : list Z) (c : string) (v : cell) :
  loc_assign df labels c v = Ok df' →
  labels ⊆ index df
  ∧ index df' = index df
  ∧ (∀ r, r ∈ rows df' → label r ∈ labels → at_col c r = v)
  ∧ (∀ r, r ∈ rows df' → label r ∉ labels → r ∈ rows df).
Proof.
  unfold loc_assign. case_bool_decide as Hall; [|done]. intros [= <-].
  split; [|split; [|split]].
  - intros l Hl. rewrite Forall_forall in Hall. by apply Hall.
  - unfold index. cbn [rows]. rewrite <- list_fmap_compose.
    apply list_fmap_ext. intros i r _. cbn. by case_bool_decide.
  - cbn [rows]. intros r (r0 & -> & Hr0)%list_elem_of_fmap.
    case_bool_decide as Hin.
    + intros _. apply at_col_set_col.
    + intros Hl. done.
  - cbn [rows]. intros r (r0 & -> & Hr0)%list_elem_of_fmap.
    case_bool_decide as Hin; [|done]. intros Hl. done.
Qed.

Section TransitionMore.
Context {orca : Orca} {transitions : Transition}.



End TransitionMore.

Section SimpleTransitionProperties.
Context {orca : Orca} {growth : GrowthRate}.

(** X14: a successful [simple_transition] replaces the table by the one
    the growth model returned, in which the agents reported as added have
    -1 in the location field and the others are as the model left them;
    it prints the number of agents before and after, and changes no other
    table.  The model saw the local columns of the table. *)
Theorem simple_transition_success
    (tbl : string) (rate : float) (location_fname : string) (w w' : world) :
  simple_transition tbl rate location_fname w = (Ok tt, w') →
  ∃ local df new added new',
    TABLES w !! tbl = Some local
    ∧ wrapper_to_frame (TABLES w) tbl (columns local) = Ok df
    ∧ growth_transition rate df (rng w) = (Ok (new, added), rng w')
    ∧ stdout w'
      = stdout w ++ [Line "%d agents before transition" [AInt (len df)];
                     Line "%d agents after transition" [AInt (len new)]]
    ∧ TABLES w' = <[tbl := new']> (TABLES w)
    ∧ index new' = index new
    ∧ (∀ r, r ∈ rows new' → label r ∈ added →
            at_col location_fname r = Num (-1))
    ∧ (∀ r, r ∈ rows new' → label r ∉ added → r ∈ rows new).
Proof.
  intros Hrun. unfold simple_transition in Hrun.
  apply bind_ok_inv in Hrun as (local & w1 & Hlocal & Hrun).
  apply get_table_ok_inv in Hlocal as [-> Hlocal].
  apply bind_ok_inv in Hrun as (reg & w1 & Hreg & Hrun).
  unfold registry in Hreg. injection Hreg as <- <-.
  apply bind_ok_inv in Hrun as (df & w1 & Hdf & Hrun).
  apply lift_ok_inv in Hdf as [Hdf ->].
  apply bind_ok_inv in Hrun as ([] & w1 & Hp & Hrun).
  apply print_ok_inv in Hp as ->.
  apply bind_ok_inv in Hrun as ([new added] & w1 & Hdraw & Hrun).
  unfold draw in Hdraw. cbn [TABLES rng calls stdout] in Hdraw.
  destruct (growth_transition rate df (rng w)) as [rt g] eqn:Hgrowth.
  injection Hdraw as -> <-.
  apply bind_ok_inv in Hrun as ([] & w1 & Hp & Hrun).
  apply print_ok_inv in Hp as ->.
  apply bind_ok_inv in Hrun as (new' & w1 & Hassign & Hadd).
  apply lift_ok_inv in Hassign as [Hassign ->].
  unfold add_table in Hadd. injection Hadd as <-.
  cbn [TABLES rng calls stdout].
  apply loc_assign_ok in Hassign as (_ & Hindex & Hadded & Hothers).
  exists local, df, new, added, new'. rewrite <- app_assoc.
  by repeat split.
Qed.

End SimpleTransitionProperties.


Lemma simple_transition_success_witness :
  ∃ w' new',
    simple_transition (orca := plain_orca) (growth := copy_first)
      "households" (decimal 1 20) "building_id" sample_world = (Ok tt, w')
    ∧ TABLES w' !! "households" = Some new'
    ∧ ∀ r, r ∈ rows new' → label r = 900 → at_col "building_id" r = Num (-1).
Proof.
  destruct (simple_transition (orca := plain_orca) (growth := copy_first)
              "households" (decimal 1 20) "building_id" sample_world)
    as [[[]|e] w'] eqn:Hrun.
  2:{ exfalso.
      assert (is_ok (simple_transition (orca := plain_orca) (growth := copy_first)
                       "households" (decimal 1 20) "building_id" sample_world).1
              = true) as Hok by (by vm_compute).
      by rewrite Hrun in Hok. }
  destruct (simple_transition_success (orca := plain_orca) (growth := copy_first)
              _ _ _ _ _ Hrun)
    as (local & df & new & added & new' & Hlocal & Hdf & Hgrowth & _ & Htabs
        & _ & Hadded & _).
  exists w', new'. split; [done|]. split.
  - rewrite Htabs. apply lookup_insert_eq.
  - intros r Hr Hl. apply Hadded; [done|].
    assert (TABLES sample_world !! "households" = Some sample_households) as Hs
      by (by vm_compute).
    rewrite Hs in Hlocal. injection Hlocal as <-.
    assert (wrapper_to_frame (Orca := plain_orca) (TABLES sample_world)
              "households" (columns sample_households) = Ok sample_households)
      as Hframe by (by vm_compute).
    rewrite Hframe in Hdf. injection Hdf as <-.
    assert ((growth_transition (GrowthRate := copy_first) (decimal 1 20)
               sample_households (rng sample_world)).1
            = Ok (Frame "household_id" ["building_id"]
                    (rows sample_households ++ [Row 900 (vals (agent 100 1))]),
                  [900])) as Hg by (by vm_compute).
    rewrite Hgrowth in Hg. cbn [fst] in Hg. injection Hg as _ ->.
    rewrite Hl. by left.
Defined.

(** ** Location choice: what is read and what is written *)

Lemma read_only_bind {A B : Type} (m : M A) (f : A → M B) :
  read_only m → (∀ a, read_only (f a)) → read_only (m ≫= f).
Proof.
  intros Hm Hf w r w'. rewrite bind_run.
  destruct (m w) as [[a|e] w1] eqn:Hrun.
  - intros Hrest. apply Hf in Hrest as (-> & -> & ->). by apply Hm in Hrun.
  - intros [= <- <-]. by apply Hm in Hrun.
Qed.

Lemma read_only_same {A : Type} (m : M A) :
  (∀ w r w', m w = (r, w') → w' = w) → read_only m.
Proof. intros Hm w r w' Hrun. by apply Hm in Hrun as ->. Qed.

Lemma read_only_ret {A : Type} (a : A) : read_only (mret a).
Proof. apply read_only_same. by intros w r w' [= <- <-]. Qed.

Lemma read_only_raise {A : Type} (e : exn) : read_only (raise (A := A) e).
Proof. apply read_only_same. by intros w r w' [= <- <-]. Qed.

Lemma read_only_lift {A : Type} (x : res A) : read_only (lift x).
Proof. apply read_only_same. by intros w r w' [= <- <-]. Qed.

Lemma read_only_registry : read_only registry.
Proof. apply read_only_same. by intros w r w' [= <- <-]. Qed.

Lemma read_only_print t xs : read_only (print t xs).
Proof. by intros w r w' [= <- <-]. Qed.

Lemma read_only_print_format t xs : read_only (print_format t xs).
Proof. intros w r w'. apply print_format_tables. Qed.

Lemma read_only_get_table name : read_only (get_table name).
Proof.
  apply read_only_same. intros w r w'. unfold get_table.
  destruct (TABLES w !! name); by intros [= <- <-].
Qed.

Ltac read_only_step :=
  first
    [ apply read_only_ret | apply read_only_raise | apply read_only_lift
    | apply read_only_registry | apply read_only_print
    | apply read_only_print_format | apply read_only_get_table
    | apply read_only_bind; [|intros ?] ].

Ltac read_only_cases :=
  match goal with
  | |- read_only (match ?x with _ => _ end) => destruct x
  | |- read_only (if ?b then _ else _) => destruct b
  end.

Ltac solve_read_only := repeat (first [read_only_step | read_only_cases]).

Lemma read_only_wrapper_getitem name c : read_only (wrapper_getitem name c).
Proof. unfold wrapper_getitem. solve_read_only. Qed.

Lemma read_only_wrapper_len name : read_only (wrapper_len name).
Proof. unfold wrapper_len. solve_read_only. Qed.

Lemma read_only_check_nas df : read_only (check_nas df).
Proof.
  intros w r w' Hrun. pose proof (check_nas_run df w) as Hcheck.
  destruct (decide (has_na df)).
  - destruct Hcheck as [out Hcheck]. rewrite Hcheck in Hrun.
    by injection Hrun as <- <-.
  - rewrite Hcheck in Hrun. by injection Hrun as <- <-.
Qed.

Section ChoiceMore.
Context {orca : Orca} {urbansim : Urbansim} {dtypes : Dtypes}.

Lemma read_only_to_frame tbl join_tbls cfg additional_columns :
  read_only (to_frame tbl join_tbls cfg additional_columns).
Proof.
  unfold to_frame. apply read_only_bind.
  { apply read_only_same. apply joined_frame_world. }
  intros df. apply read_only_bind; [apply read_only_check_nas|]. intros _.
  apply read_only_ret.
Qed.

Lemma read_only_candidate_units s locations_df :
  read_only (candidate_units s locations_df).
Proof.
  unfold candidate_units.
  apply read_only_bind; [apply read_only_lift|]. intros idx.
  apply read_only_bind; [apply read_only_lift|]. intros located.
  apply read_only_bind; [apply read_only_lift|]. intros units.
  apply read_only_bind; [apply read_only_check_nas|]. intros _.
  apply read_only_ret.
Qed.

Lemma correct_supply_warm_start correction cfg buildings movers units w :
  warm_start correction = true →
  ∃ e, correct_supply correction cfg buildings movers units w = (Raise e, w).
Proof.
  intros Hwarm. unfold correct_supply. rewrite bind_run.
  destruct (price_col correction); [|by eexists].
  unfold mret at 1, M_ret at 1. rewrite bind_run.
  destruct (submarket_col correction); [|by eexists].
  unfold mret at 1, M_ret at 1. rewrite bind_run. unfold lift at 1.
  destruct (yaml_to_class cfg) as [klass|]; [|by eexists].
  rewrite bind_run. unfold lift at 1.
  destruct (from_yaml klass cfg); [|by eexists].
  rewrite Hwarm. by eexists.
Qed.

(** Without a supply correction, or with one that asks for a warm start,
    all that comes before the choice only reads and prints. *)
Lemma read_only_choice_inputs cfg choosers buildings join_tbls out_fname
    supply_fname vacant_fname enable_supply_correction move_in_year :
  (∀ correction, enable_supply_correction = Some correction →
                 warm_start correction = true) →
  read_only (choice_inputs cfg choosers buildings join_tbls out_fname
               supply_fname vacant_fname enable_supply_correction move_in_year).
Proof.
  intros Hwarm. unfold choice_inputs.
  apply read_only_bind; [apply read_only_to_frame|]. intros choosers_df.
  apply read_only_bind; [apply read_only_to_frame|]. intros locations_df.
  apply read_only_bind; [apply read_only_wrapper_getitem|]. intros available.
  apply read_only_bind; [apply read_only_wrapper_getitem|]. intros vacant.
  do 2 (apply read_only_bind; [apply read_only_print_format|]; intros _).
  apply read_only_bind; [apply read_only_wrapper_len|]. intros n.
  do 2 (apply read_only_bind; [apply read_only_print_format|]; intros _).
  apply read_only_bind; [apply read_only_candidate_units|].
  intros [units missing].
  do 2 (apply read_only_bind; [apply read_only_print_format|]; intros _).
  apply read_only_bind; [solve_read_only|]. intros _.
  apply read_only_bind; [apply read_only_lift|]. intros placed.
  apply read_only_bind; [apply read_only_print_format|]. intros _.
  apply read_only_bind.
  { destruct enable_supply_correction as [correction|]; [|apply read_only_ret].
    apply read_only_same. intros w r w' Hrun.
    destruct (correct_supply_warm_start correction cfg buildings
                (mask_rows choosers_df
                   ((λ p, bool_decide (p.2 = Num (-1))) <$> placed))
                units w (Hwarm _ eq_refl)) as [e He].
    rewrite He in Hrun. by injection Hrun as _ <-. }
  intros _. solve_read_only.
Qed.

(** X15: with a supply correction that sets [warm_start], [lcm_simulate]
    never returns: it raises, at the latest the NotImplementedError of the
    warm start, before the supply and demand balancer or the choice model
    is called, and it has written nothing to the registry. *)
Theorem lcm_simulate_warm_start_raises
    cfg choosers buildings join_tbls out_fname supply_fname vacant_fname
    correction cast alternative_ratio move_in_year (w : world) :
  warm_start correction = true →
  ∃ e w',
    lcm_simulate cfg choosers buildings join_tbls out_fname supply_fname
      vacant_fname (Some correction) cast alternative_ratio move_in_year w
    = (Raise e, w')
    ∧ TABLES w' = TABLES w ∧ rng w' = rng w ∧ calls w' = calls w.
Proof.
  intros Hwarm. rewrite lcm_simulate_unfold.
  destruct (choice_inputs _ _ _ _ _ _ _ _ _ w) as [[[movers units]|e] w1]
    eqn:Hinputs.
  - exfalso.
    destruct (choice_inputs_inv _ _ _ _ _ _ _ _ _ _ _ _ _ Hinputs)
      as (choosers_df & locations_df & buildings_df & vacant_units & missing
          & w0 & wc & _ & _ & _ & _ & _ & _ & _
          & _ & _ & _ & _ & (w0' & Hcorrect & _)).
    destruct (correct_supply_warm_start correction (config cfg) buildings
                (movers_frame out_fname choosers_df) units w0 Hwarm) as [e He].
    congruence.
  - exists e, w1. split; [done|].
    apply (read_only_choice_inputs (config cfg) choosers buildings join_tbls
             out_fname supply_fname vacant_fname (Some correction) move_in_year)
      in Hinputs; [done|].
    by intros c [= <-].
Qed.

(** X16: without a supply correction [lcm_simulate] writes to no table
    but the choosers': whatever its outcome, every other registered table
    is as it was. *)
Theorem lcm_simulate_writes_choosers_only
    cfg choosers buildings join_tbls out_fname supply_fname vacant_fname
    cast alternative_ratio move_in_year (w w' : world) (r : res unit) (t : string) :
  lcm_simulate cfg choosers buildings join_tbls out_fname supply_fname
    vacant_fname None cast alternative_ratio move_in_year w = (r, w') →
  t ≠ choosers →
  TABLES w' !! t = TABLES w !! t.
Proof.
  intros Hrun Hne. rewrite lcm_simulate_unfold in Hrun.
  destruct (choice_inputs _ _ _ _ _ _ _ _ _ w) as [[[movers units]|e] w1]
    eqn:Hinputs.
  2:{ injection Hrun as <- <-.
      apply read_only_choice_inputs in Hinputs as [-> _]; [done|]. by intros c. }
  apply read_only_choice_inputs in Hinputs as [<- _]; [|by intros c].
  revert Hrun.
  match goal with
  | |- ?m w1 = _ → _ => assert (stable t m) as Hstable; [|apply Hstable]
  end.
  unfold choose_and_write.
  apply stable_bind; [apply stable_lift|]. intros klass.
  apply stable_bind; [apply stable_registry|]. intros reg.
  apply stable_bind; [apply stable_note|]. intros _.
  apply stable_bind; [apply stable_draw|]. intros new_units.
  apply stable_bind; [apply stable_lift|]. intros chosen.
  apply stable_bind; [apply stable_lift|]. intros chosen_units.
  apply stable_bind; [apply stable_lift|]. intros chosen_ids.
  apply stable_bind; [by apply stable_update_col|]. intros _.
  apply stable_bind; [apply stable_print_unplaced|]. intros _.
  apply stable_bind.
  { destruct (truthy move_in_year); [|apply stable_ret].
    apply stable_bind; [by apply stable_update_col|]. intros _.
    apply stable_bind; [apply stable_registry|]. intros ?.
    apply stable_bind; [apply stable_lift|]. intros ?.
    apply stable_bind; [apply stable_lift|]. intros ?.
    apply stable_print_format. }
  intros _.
  apply stable_bind; [apply stable_ret|]. intros _.
  apply stable_bind; [apply stable_wrapper_getitem|]. intros vacant_units.
  apply stable_bind; [apply stable_print_format|]. intros _.
  apply stable_print_format.
Qed.

End ChoiceMore.

Lemma lcm_simulate_warm_start_raises_witness :
  ∃ w',
    lcm_simulate (orca := plain_orca) (urbansim := sample_urbansim) (dtypes := sample_dtypes) "hlcm.yaml"
      "households" "buildings" (JoinList []) "building_id" "residential_units"
      "vacant_units" (Some warm_correction) false (float_of_Z 2) None choice_world
    = (Raise NotImplementedError, w')
    ∧ TABLES w' = TABLES choice_world ∧ calls w' = [].
Proof.
  destruct (lcm_simulate_warm_start_raises (orca := plain_orca)
              (urbansim := sample_urbansim) (dtypes := sample_dtypes) "hlcm.yaml" "households" "buildings"
              (JoinList []) "building_id" "residential_units" "vacant_units"
              warm_correction false (float_of_Z 2) None choice_world eq_refl)
    as (e & w' & Hrun & Htabs & _ & Hcalls).
  exists w'.
  assert (e = NotImplementedError) as ->.
  { assert (match (lcm_simulate (orca := plain_orca)
                     (urbansim := sample_urbansim) (dtypes := sample_dtypes) "hlcm.yaml" "households"
                     "buildings" (JoinList []) "building_id" "residential_units"
                     "vacant_units" (Some warm_correction) false (float_of_Z 2) None
                     choice_world).1 with
            | Raise e => e | Ok _ => KeyError EmptyString end
            = NotImplementedError) as Hok by (by vm_compute).
    by rewrite Hrun in Hok. }
  split; [done|]. split; [done|]. exact Hcalls.
Defined.

Lemma lcm_simulate_writes_choosers_only_witness :
  TABLES (lcm_simulate (orca := plain_orca) (urbansim := sample_urbansim) (dtypes := sample_dtypes)
            "hlcm.yaml" "households" "buildings" (JoinList []) "building_id"
            "residential_units" "vacant_units" None false (float_of_Z 2) None
            choice_world).2 !! "buildings"
  = Some choice_buildings.
Proof.
  destruct (lcm_simulate (orca := plain_orca) (urbansim := sample_urbansim) (dtypes := sample_dtypes)
              "hlcm.yaml" "households" "buildings" (JoinList []) "building_id"
              "residential_units" "vacant_units" None false (float_of_Z 2) None
              choice_world) as [r w'] eqn:Hrun.
  cbn [snd].
  rewrite (lcm_simulate_writes_choosers_only (orca := plain_orca)
             (urbansim := sample_urbansim) (dtypes := sample_dtypes) _ _ _ _ _ _ _ _ _ _ _ _ _
             "buildings" Hrun) by done.
  by vm_compute.
Defined.

(** ** Location choice: who is assigned what *)







Section ChoiceAssignment.
Context {orca : Orca} {urbansim : Urbansim} {dtypes : Dtypes}.



End ChoiceAssignment.


(** ** [table_reprocess] *)

Lemma printing_bind_run {A B : Type} (m : printing A) (f : A → printing B) :
  (m ≫= f) = match m.1 with
             | Done a => ((f a).1, m.2 ++ (f a).2)
             | Failed e => (Failed e, m.2)
             end.
Proof. reflexivity. Qed.

Lemma printing_bind_done {A B : Type} (m : printing A) (f : A → printing B)
    (b : B) (out : list line) :
  (m ≫= f) = (Done b, out) →
  ∃ a out1 out2, m = (Done a, out1) ∧ f a = (Done b, out2) ∧ out = out1 ++ out2.
Proof.
  rewrite printing_bind_run. destruct m as [[a|e] out1]; cbn; [|done].
  destruct (f a) as [r out2] eqn:Hf. cbn. intros [= -> <-].
  by exists a, out1, out2.
Qed.

Lemma library_done {A : Type} (r : res A) (a : A) (out : list line) :
  library r = (Done a, out) → r = Ok a ∧ out = [].
Proof. destruct r; cbn; [|done]. by intros [= -> <-]. Qed.

Lemma res_map_length {A B : Type} (f : A → res B) (xs : list A) (ys : list B) :
  res_map f xs = Ok ys → length ys = length xs.
Proof.
  revert ys. induction xs as [|x xs IH]; intros ys; [by intros [= <-]|].
  cbn [res_map]. destruct (f x); [|done]. cbn.
  destruct (res_map f xs) as [ys'|]; [|done]. cbn. intros [= <-].
  cbn. by rewrite (IH ys').
Qed.

Lemma index_assign_cells (df : DataFrame) (c : string) (cells : list cell) :
  length cells = length (rows df) → index (assign_cells df c cells) = index df.
Proof.
  unfold index, assign_cells. cbn [rows]. revert cells.
  induction (rows df) as [|r rs IH]; intros [|v cells]; try done.
  cbn. intros [= Hlen]. by rewrite IH.
Qed.

Section ReprocessProperties.
Context {pandas : Pandas}.

Lemma fill_value_done filltyp fname df val df1 val1 out :
  fill_value filltyp fname df val = (Done (df1, val1), out) →
  out = []
  ∧ ((filltyp = "drop" ∧ df1 = dropna_subset df fname ∧ val1 = val)
     ∨ (filltyp ≠ "drop" ∧ df1 = df ∧ is_Some val1)).
Proof.
  unfold fill_value.
  destruct (decide (filltyp = "zero")) as [->|_].
  { intros [= <- <- <-]. split; [done|]. right. by eauto. }
  destruct (decide (filltyp = "mode")) as [->|_].
  { intros (v & o1 & o2 & Hv & [= <- <- <-] & ->)%printing_bind_done.
    apply library_done in Hv as [_ ->]. split; [done|]. right. by eauto. }
  destruct (decide (filltyp = "median")) as [->|_].
  { intros (v & o1 & o2 & Hv & [= <- <- <-] & ->)%printing_bind_done.
    apply library_done in Hv as [_ ->]. split; [done|]. right. by eauto. }
  destruct (decide (filltyp = "mean")) as [->|_].
  { intros (v & o1 & o2 & Hv & [= <- <- <-] & ->)%printing_bind_done.
    apply library_done in Hv as [_ ->]. split; [done|]. right. by eauto. }
  destruct (decide (filltyp = "drop")) as [->|_]; [|done].
  intros [= <- <- <-]. split; [done|]. by left.
Qed.

Lemma fill_nas_loop_done fills df_cnt df val df' out :
  fill_nas_loop fills df_cnt df val = (Done df', out) →
  index_name df' = index_name df ∧ columns df' = columns df
  ∧ sublist (index df') (index df)
  ∧ length out = length fills
  ∧ Forall (λ f, f.1 ∈ columns df) fills
  ∧ (Forall (λ f, fill_how f.2 ≠ Some "drop") fills → index df' = index df)
  ∧ (val = None → ∀ f rest, fills = f :: rest → fill_how f.2 ≠ Some "drop").
Proof.
  revert df val out. induction fills as [|[fname c] fills IH]; intros df val out.
  - intros [= <- <-]. repeat split; done.
  - cbn [fill_nas_loop].
    intros (filltyp & p1a & p1b & Hhow & Hrun & ->)%printing_bind_done.
    destruct (fill_how c) as [how|] eqn:Hc; [|done].
    injection Hhow as <- <-.
    apply printing_bind_done in Hrun as (dtyp & p2a & p2b & Htype & Hrun & ->).
    destruct (fill_type c) as [t|]; [|done]. injection Htype as <- <-.
    apply printing_bind_done in Hrun as (s & p3a & p3b & Hitem & Hrun & ->).
    apply library_done in Hitem as [Hitem ->].
    assert (fname ∈ columns df) as Hcol.
    { unfold getitem in Hitem. by case_decide. }
    apply printing_bind_done in Hrun as ([df1 val1] & p4a & p4b & Hfill & Hrun & ->).
    apply fill_value_done in Hfill as [-> Hfill].
    apply printing_bind_done in Hrun as (v & p5a & p5b & Hval & Hrun & ->).
    destruct val1 as [v1|]; [|done]. injection Hval as <- <-.
    apply printing_bind_done in Hrun as ([] & p6a & p6b & Hprint & Hrun & ->).
    injection Hprint as <-.
    apply printing_bind_done in Hrun as (cells & p7a & p7b & Hcells & Hrun & ->).
    apply library_done in Hcells as [Hcells ->].
    apply res_map_length in Hcells as Hlen.
    unfold fillna in Hlen. rewrite !length_fmap in Hlen.
    apply IH in Hrun as (Hname & Hcols & Hsub & Hout & Hall & Hsame & _).
    rewrite index_assign_cells in Hsub, Hsame by done.
    cbn [index_name columns assign_cells] in Hname, Hcols, Hall.
    assert (index_name df1 = index_name df ∧ columns df1 = columns df
            ∧ sublist (index df1) (index df)
            ∧ (how ≠ "drop" → df1 = df)
            ∧ (val = None → how ≠ "drop")) as (Hn1 & Hc1 & Hs1 & Hd1 & Hv1).
    { destruct Hfill as [(-> & -> & <-)|(Hne & -> & Hsome)].
      - repeat split; try done.
        unfold index, dropna_subset. cbn [rows].
        apply fmap_sublist, sublist_filter.
      - repeat split; try done. }
    split; [congruence|]. split; [congruence|].
    split; [by etrans|].
    split; [rewrite ?length_app; cbn [length]; lia|].
    split.
    { constructor; [done|]. by rewrite <- Hc1. }
    split.
    + intros [Hnodrop Hrest]%Forall_cons. cbn in Hnodrop. rewrite Hc in Hnodrop.
      rewrite Hsame by done. rewrite Hd1; [done|]. intros ->. by apply Hnodrop.
    + intros Hnone f rest [= <- <-]. cbn. rewrite Hc. intros [= ->].
      by apply Hv1.
Qed.

(** X18: a configuration whose first ["fill_nas"] entry has ["how": "drop"]
    makes [table_reprocess] fail: no branch before the print has assigned
    [val], so the call raises the UnboundLocalError for it, having printed
    nothing, once the filter has run and the column is found. *)
Theorem table_reprocess_drop_first
    (cfg : reprocess_cfg) (df df' : DataFrame) (fname : string)
    (dtyp : option string) (rest : list (string * fill_cfg)) :
  filtered cfg df = Ok df' →
  cfg_fill_nas cfg = Some ((fname, Fill (Some "drop") dtyp) :: rest) →
  dtyp ≠ None →
  fname ∈ columns df' →
  table_reprocess cfg df = (Failed (UnboundLocalError "val"), []).
Proof.
  intros Hfilter Hfills Htype Hcol. unfold table_reprocess.
  rewrite printing_bind_run, Hfilter. cbn [library fst snd].
  rewrite printing_bind_run, Hfills. cbn [mret printing_ret fst snd].
  cbn [fill_nas_loop fill_how fill_type].
  destruct dtyp as [t|]; [|done].
  unfold getitem. rewrite decide_True by done. reflexivity.
Qed.

(** X19: what a call of [table_reprocess] that returns has done.  The
    filter ran and ["fill_nas"] was there; the frame returned has the index
    name and the columns of the filtered frame, and its labels are labels
    of the filtered frame in the same order, all of them when no entry says
    ["drop"]; every entry names a column of the frame and one line was
    printed for each; and the first entry did not say ["drop"]. *)
Theorem table_reprocess_done
    (cfg : reprocess_cfg) (df df'' : DataFrame) (out : list line) :
  table_reprocess cfg df = (Done df'', out) →
  ∃ df' fills,
    filtered cfg df = Ok df'
    ∧ cfg_fill_nas cfg = Some fills
    ∧ index_name df'' = index_name df' ∧ columns df'' = columns df'
    ∧ sublist (index df'') (index df')
    ∧ length out = length fills
    ∧ Forall (λ f, f.1 ∈ columns df') fills
    ∧ (Forall (λ f, fill_how f.2 ≠ Some "drop") fills → index df'' = index df')
    ∧ (∀ f rest, fills = f :: rest → fill_how f.2 ≠ Some "drop").
Proof.
  unfold table_reprocess.
  intros (df' & p8a & p8b & Hfilter & Hrun & ->)%printing_bind_done.
  apply library_done in Hfilter as [Hfilter ->].
  apply printing_bind_done in Hrun as (fills & p9a & p9b & Hfills & Hrun & ->).
  destruct (cfg_fill_nas cfg) as [fills'|] eqn:Hcfg; [|done].
  injection Hfills as <- <-.
  apply fill_nas_loop_done in Hrun
    as (Hname & Hcols & Hsub & Hout & Hall & Hsame & Hfirst).
  exists df', fills'. repeat split; try done. by apply Hfirst.
Qed.

(** X20: the number of values that the first line reports as filled is
    counted against the length of the frame from before the filter: it is
    the number of rows of the frame passed in less the number of cells that
    are not NaN in the column after the filter.  So when the filtered frame
    has no NaN in the column the line reports as many filled values as the
    filter took rows away. *)
Theorem table_reprocess_count_before_filter
    (cfg : reprocess_cfg) (df df' : DataFrame) (fname : string) (c : fill_cfg)
    (rest : list (string * fill_cfg)) (r : outcome DataFrame) (out : list line)
    (l : line) :
  filtered cfg df = Ok df' →
  cfg_fill_nas cfg = Some ((fname, c) :: rest) →
  table_reprocess cfg df = (r, out) →
  out !! 0%nat = Some l →
  (∃ v, l = Line "Filling column {} with value {} ({} values)"
                  [AStr fname; cell_arg v; AInt (len df - count df' fname)])
  ∧ ((∀ r, r ∈ rows df' → at_col fname r ≠ NaN) →
     ∃ v, l = Line "Filling column {} with value {} ({} values)"
                   [AStr fname; cell_arg v; AInt (len df - len df')]).
Proof.
  intros Hfilter Hfills Hrun Hhead.
  assert (∃ v, l = Line "Filling column {} with value {} ({} values)"
                     [AStr fname; cell_arg v; AInt (len df - count df' fname)])
    as [v Hl].
  { unfold table_reprocess in Hrun.
    rewrite printing_bind_run, Hfilter in Hrun. cbn [library fst snd] in Hrun.
    rewrite printing_bind_run, Hfills in Hrun.
    cbn [mret printing_ret fst snd app] in Hrun.
    cbn [fill_nas_loop] in Hrun. rewrite printing_bind_run in Hrun.
    destruct (fill_how c) as [how|].
    2:{ injection Hrun as <- <-. done. }
    cbn [mret printing_ret fst snd app] in Hrun.
    rewrite printing_bind_run in Hrun.
    destruct (fill_type c) as [t|].
    2:{ injection Hrun as <- <-. done. }
    cbn [mret printing_ret fst snd app] in Hrun.
    rewrite printing_bind_run in Hrun.
    destruct (getitem df' fname) as [s|e].
    2:{ injection Hrun as <- <-. done. }
    cbn [library fst snd app] in Hrun. rewrite printing_bind_run in Hrun.
    destruct (fill_value how fname df' None) as [[[df1 val1]|e] o1] eqn:Hfill.
    2:{ cbn in Hrun. injection Hrun as <- <-.
        assert (o1 = []) as ->; [|done].
        revert Hfill. unfold fill_value.
        repeat (case_decide; [first [ by intros [= <-]
                                    | rewrite printing_bind_run;
                                      destruct (library _) as [[?|?] ?] eqn:Hlib;
                                      (destruct (idxmax_of_counts _)
                                       || destruct (quantile _)
                                       || destruct (mean _));
                                      cbn in Hlib; injection Hlib as <- <-;
                                      cbn; by intros [= <-] ]|]).
        by intros [= <-]. }
    apply fill_value_done in Hfill as [-> _].
    cbn [fst snd app] in Hrun. rewrite printing_bind_run in Hrun.
    destruct val1 as [v|].
    2:{ injection Hrun as <- <-. done. }
    cbn [mret printing_ret fst snd app] in Hrun.
    rewrite printing_bind_run in Hrun. cbn [print_line fst snd app] in Hrun.
    injection Hrun as _ <-. cbn in Hhead. injection Hhead as <-. by exists v. }
  split; [by exists v|]. intros Hfull. exists v. rewrite Hl. do 4 f_equal.
  unfold count, len. by rewrite filter_all by by apply Forall_forall.
Qed.

End ReprocessProperties.

Lemma table_reprocess_drop_first_witness :
  table_reprocess (pandas := sample_pandas)
    (ReprocessCfg None
       (Some [("building_type_id", Fill (Some "drop") (Some "int"))]))
    sample_raw
  = (Failed (UnboundLocalError "val"), []).
Proof.
  apply (table_reprocess_drop_first (pandas := sample_pandas)
           _ sample_raw sample_raw "building_type_id" (Some "int") []).
  - done.
  - done.
  - done.
  - apply (bool_decide_unpack _). by vm_compute.
Defined.

Lemma table_reprocess_done_witness :
  ∃ df'' out,
    table_reprocess (pandas := sample_pandas)
      (ReprocessCfg (Some "index > 0")
         (Some [("building_type_id", Fill (Some "zero") (Some "int"))]))
      sample_raw
    = (Done df'', out)
    ∧ index df'' = [1; 2] ∧ length out = 1%nat.
Proof.
  destruct (table_reprocess (pandas := sample_pandas)
      (ReprocessCfg (Some "index > 0")
         (Some [("building_type_id", Fill (Some "zero") (Some "int"))]))
      sample_raw) as [[df''|e] out] eqn:Hrun.
  2:{ exfalso. by vm_compute in Hrun. }
  exists df'', out. split; [done|].
  destruct (table_reprocess_done (pandas := sample_pandas) _ _ _ _ Hrun)
    as (df' & fills & Hfilter & Hfills & _ & _ & _ & Hout & _ & Hsame & _).
  injection Hfills as <-. injection Hfilter as <-. split.
  - rewrite Hsame; [by vm_compute|]. repeat constructor. by cbn.
  - by rewrite Hout.
Defined.

Lemma table_reprocess_count_before_filter_witness :
  ∃ v, (table_reprocess (pandas := sample_pandas)
          (ReprocessCfg (Some "index > 0")
             (Some [("residential_units", Fill (Some "zero") (Some "int"))]))
          sample_raw).2 !! 0%nat
       = Some (Line "Filling column {} with value {} ({} values)"
                    [AStr "residential_units"; cell_arg v; AInt 1]).
Proof.
  destruct (table_reprocess (pandas := sample_pandas)
      (ReprocessCfg (Some "index > 0")
         (Some [("residential_units", Fill (Some "zero") (Some "int"))]))
      sample_raw) as [r out] eqn:Hrun.
  destruct (out !! 0%nat) as [l|] eqn:Hhead.
  2:{ exfalso. vm_compute in Hrun. injection Hrun as <- <-. by cbn in Hhead. }
  destruct (table_reprocess_count_before_filter (pandas := sample_pandas)
              (ReprocessCfg (Some "index > 0")
                 (Some [("residential_units",
                         Fill (Some "zero") (Some "int"))]))
              sample_raw
              (Frame (index_name sample_raw) (columns sample_raw)
                     (filter (λ r, 0 < label r) (rows sample_raw)))
              "residential_units" (Fill (Some "zero") (Some "int")) [] r out l
              eq_refl eq_refl Hrun Hhead) as [_ Hfull].
  destruct Hfull as [v ->].
  - intros r0 Hr0. vm_compute in Hr0.
    repeat (apply elem_of_cons in Hr0 as [->|Hr0]; [by vm_compute|]).
    by apply elem_of_nil in Hr0.
  - exists v. cbn [snd]. by vm_compute.
Defined.
